(** * mosaic_utils: a shallow embedding of [crop_mosaic.py]

    The development follows [src/mosaic_utils/crop_mosaic.py] function by
    function.  Python integers are [Z], Python floats are IEEE binary64
    values of the Standard Library's [spec_float] (53-bit mantissa, exponent
    bound 1024, round to nearest even), exceptions are values of [exn] carried
    by a result type, and the file system is a finite map from paths to file
    contents.  The collaborating libraries (shapely/GEOS, pyproj, rasterio,
    GDAL, the operating system) are an interface, [Collaborators], over which
    every theorem is universally quantified.  The console output and the
    timing of [step] and [end] are left out, and with them the step counters
    the functions only pass on to [step]. *)

From Stdlib Require Import ZArith List Bool Lia Permutation.
From Stdlib Require Import Floats.SpecFloat.
From stdpp Require Import gmap strings pretty.

Import ListNotations.
Local Open Scope string_scope.
Local Open Scope Z_scope.

(** ** Exceptions and results *)

(** The exception classes the program raises or lets through.  An exception
    raised inside a collaborating library is a [CollaboratorError]; the
    program's own [raise] statements use the other constructors. *)
Inductive exn : Type :=
| RuntimeError (msg : string)
| TypeError (msg : string)
| ValueError (msg : string)
| OverflowError (msg : string)
| IndexError (msg : string)
| AttributeError (msg : string)
| FileNotFoundError (path : string)
| CalledProcessError (returncode : Z) (cmd : list string)
| CollaboratorError (msg : string).

Inductive result (A : Type) : Type :=
| Ok (a : A)
| Err (e : exn).
Arguments Ok {A} a.
Arguments Err {A} e.

Definition rbind {A B} (r : result A) (k : A -> result B) : result B :=
  match r with
  | Ok a => k a
  | Err e => Err e
  end.

Definition lift_lib {A} (r : string + A) : result A :=
  match r with
  | inr a => Ok a
  | inl msg => Err (CollaboratorError msg)
  end.

Declare Scope result_scope.
Delimit Scope result_scope with result.
Notation "x <- r ;; k" := (rbind r (fun x => k))
  (at level 100, r at next level, right associativity) : result_scope.

(** ** Python floats *)

Module PyFloat.

Definition float := spec_float.

Definition prec : Z := 53.
Definition emax : Z := 1024.

Definition add : float -> float -> float := SFadd prec emax.
Definition sub : float -> float -> float := SFsub prec emax.
Definition mul : float -> float -> float := SFmul prec emax.
Definition div : float -> float -> float := SFdiv prec emax.
Definition opp : float -> float := SFopp.
Definition ltb : float -> float -> bool := SFltb.
Definition eqb : float -> float -> bool := SFeqb.

(** [x > y] *)
Definition gtb (x y : float) : bool := ltb y x.

(** Conversion of an integer operand in mixed arithmetic ([n * 0.20],
    [lon + 180]): the nearest binary64 value. *)
Definition of_Z (z : Z) : float := binary_normalize prec emax z 0 false.

(** A decimal literal [num / den] with both parts exactly representable:
    correctly rounded division gives the literal's binary64 value. *)
Definition literal (num den : Z) : float := div (of_Z num) (of_Z den).

Definition zero : float := S754_zero false.

(** [int(x)]: truncation toward zero; [nan] and the infinities raise. *)
Definition to_int (x : float) : result Z :=
  match x with
  | S754_zero _ => Ok 0
  | S754_finite s m e => Ok (cond_Zopp s (Z.shiftl (Zpos m) e))
  | S754_infinity _ =>
      Err (OverflowError "cannot convert float infinity to integer")
  | S754_nan => Err (ValueError "cannot convert float NaN to integer")
  end.

Definition is_zero (x : float) : bool :=
  match x with
  | S754_zero _ => true
  | _ => false
  end.

Definition is_finite (x : float) : bool :=
  match x with
  | S754_zero _ | S754_finite _ _ _ => true
  | _ => false
  end.

End PyFloat.

Abbreviation float := PyFloat.float.

(** [math.isnan(x)] *)
Definition is_nan (x : float) : bool :=
  match x with
  | S754_nan => true
  | _ => false
  end.

(** ** Settings: the worker count *)

(** [num_workers = int(cpu_count() - (cpu_count() * 0.20))] *)
Definition num_workers (cpu_count : Z) : result Z :=
  PyFloat.to_int
    (PyFloat.sub (PyFloat.of_Z cpu_count)
       (PyFloat.mul (PyFloat.of_Z cpu_count) (PyFloat.literal 20 100))).

(** [multiprocessing.Pool(processes=n)] refuses a pool without workers. *)
Definition Pool (processes : Z) : result Z :=
  if processes <? 1
  then Err (ValueError "Number of processes must be at least 1")
  else Ok processes.

(** ** The UTM zone of a longitude *)

(** [int((lon + 180) / 6) + 1], the expression inside the proj4 string. *)
Definition utm_zone (lon : float) : result Z :=
  (z <- PyFloat.to_int
          (PyFloat.div (PyFloat.add lon (PyFloat.of_Z 180)) (PyFloat.of_Z 6)) ;;
   Ok (z + 1))%result.

(** [f"+proj=utm +zone={...} +datum=WGS84 +units=m +no_defs"] *)
Definition utm_proj4 (zone : Z) : string :=
  "+proj=utm +zone=" +:+ pretty zone +:+ " +datum=WGS84 +units=m +no_defs".

(** ** Data model *)

Definition coord : Type := float * float.

(** A shapely [Polygon]: a shell and its holes. *)
Record polygon : Type := mkPolygon {
  exterior : list coord;
  interiors : list (list coord)
}.

(** The shapely classes other than [Polygon] and [MultiPolygon]. *)
Inductive other_type : Type :=
| Point | LineString | LinearRing | MultiPoint | MultiLineString
| GeometryCollection.

Inductive geometry : Type :=
| Polygon (p : polygon)
| MultiPolygon (geoms : list polygon)
| OtherGeometry (t : other_type) (coords : list coord).

(** [isinstance(geom, MultiPolygon)] *)
Definition is_MultiPolygon (g : geometry) : bool :=
  match g with MultiPolygon _ => true | _ => false end.

(** [isinstance(geom, Polygon)] *)
Definition is_Polygon (g : geometry) : bool :=
  match g with Polygon _ => true | _ => false end.

(** [type(geom)] as the f-string prints it. *)
Definition type_repr (g : geometry) : string :=
  match g with
  | Polygon _ => "<class 'shapely.geometry.polygon.Polygon'>"
  | MultiPolygon _ => "<class 'shapely.geometry.multipolygon.MultiPolygon'>"
  | OtherGeometry Point _ => "<class 'shapely.geometry.point.Point'>"
  | OtherGeometry LineString _ =>
      "<class 'shapely.geometry.linestring.LineString'>"
  | OtherGeometry LinearRing _ =>
      "<class 'shapely.geometry.polygon.LinearRing'>"
  | OtherGeometry MultiPoint _ =>
      "<class 'shapely.geometry.multipoint.MultiPoint'>"
  | OtherGeometry MultiLineString _ =>
      "<class 'shapely.geometry.multilinestring.MultiLineString'>"
  | OtherGeometry GeometryCollection _ =>
      "<class 'shapely.geometry.collection.GeometryCollection'>"
  end.

(** The keyword arguments of [geom.buffer] the program touches; the others
    (cap and join style, mitre limit) always keep their defaults. *)
Record buffer_args : Type := mkBufferArgs {
  resolution : Z;
  single_sided : bool
}.

(** [buffer(distance)] with no keyword: 16 segments per quarter circle,
    offsetting on both sides. *)
Definition default_buffer_args : buffer_args :=
  {| resolution := 16; single_sided := false |}.

(** A pyproj [CRS] object, identified by its definition text. *)
Record CRS : Type := mkCRS { crs_definition : string }.

(** What a caller may pass where the docstrings say "str or CRS". *)
Inductive crs_input : Type :=
| CrsNone
| CrsStr (s : string)
| CrsObj (c : CRS).

(** An affine pixel-to-world transform. *)
Record affine : Type := mkAffine {
  af_a : float; af_b : float; af_c : float;
  af_d : float; af_e : float; af_f : float
}.

(** [rasterio.windows.Window] *)
Record Window : Type := mkWindow {
  col_off : Z;
  row_off : Z;
  width : Z;
  height : Z
}.

(** An opened raster dataset: its size, band count, pixel values by band,
    row and column, CRS and transform. *)
Record Raster : Type := mkRaster {
  r_width : Z;
  r_height : Z;
  r_count : Z;
  r_band : Z -> Z -> Z -> Z;
  r_crs : option CRS;
  r_transform : affine
}.

#[local] Set Warnings "-register-all".
Inductive json : Type :=
| JString (s : string)
| JArray (items : list json)
| JNumber (x : float)
| JObject (members : list (string * json)).

Inductive File : Type :=
| RasterFile (r : Raster)
| JsonFile (content : json).

(** The world the program runs in: the files, and the host's core count. *)
Record World : Type := mkWorld {
  fs : gmap string File;
  cpu_count : Z
}.

Definition with_fs (w : World) (files : gmap string File) : World :=
  {| fs := files; cpu_count := cpu_count w |}.

(** [gdal.WarpOptions(...)] *)
Record WarpOptions : Type := mkWarpOptions {
  wo_format : string;
  cutlineDSName : string;
  cropToCutline : bool;
  dstAlpha : bool;
  creationOptions : list string;
  warpOptions : list string;
  multithread : bool
}.

(** ** The collaborating libraries

    shapely and GEOS, pyproj, rasterio, multiprocessing, GDAL and the
    operating system are black boxes with the signatures below.  Calls that
    the program guards with [try] or that are documented to raise return
    either an error message or a value. *)
Class Collaborators : Type := {
  (* shapely *)
  geom_area : geometry -> float;
  geom_is_valid : geometry -> bool;
  geom_is_empty : geometry -> bool;
  geom_buffer : geometry -> float -> buffer_args -> geometry;
  geom_centroid : geometry -> coord;
  geom_convex_hull : geometry -> geometry;
  unary_union : list geometry -> string + geometry;
  mapping : geometry -> json;
  (* pyproj *)
  CRS_new : option string -> string + CRS;
  CRS_from_proj4 : string -> string + CRS;
  CRS_to_string : CRS -> string;
  crs_eqb : CRS -> CRS -> bool;
  is_geographic : CRS -> bool;
  pyproj_transform : CRS -> CRS -> geometry -> string + geometry;
  (* rasterio *)
  window_transform : affine -> Window -> affine;
  shapes : list (list bool) -> affine -> list (geometry * Z);
  (* multiprocessing: the order in which [imap_unordered] hands results back *)
  completion_order : list (string * Window) -> list (string * Window);
  completion_order_perm :
    forall tiles, Permutation (completion_order tiles) tiles;
  (* GDAL and the operating system *)
  gdal_Warp : string -> string -> WarpOptions -> World -> (string + unit) * World;
  run_process : list string -> World -> Z * World;
  NamedTemporaryFile_name : string -> World -> string;
  (* the [OSError] with which the operating system refuses to remove an
     existing file (permissions, a directory, a file in use), if it does *)
  os_remove_error : string -> World -> option string
}.

(** ** The program *)

(** State and exceptions together: a computation reads and changes the
    world and returns a value or an exception. *)
Definition M (A : Type) : Type := World -> result A * World.

Definition mret {A} (a : A) : M A := fun w => (Ok a, w).

Definition mbind {A B} (m : M A) (k : A -> M B) : M B :=
  fun w =>
    match m w with
    | (Ok a, w') => k a w'
    | (Err e, w') => (Err e, w')
    end.

(** A computation that only inspects the world. *)
Definition mlift_of {A} (f : World -> result A) : M A := fun w => (f w, w).

Definition mlift {A} (r : result A) : M A := mlift_of (fun _ => r).

(** [try: body except Exception as e: handler(e)] *)
Definition try_except {A} (body : M A) (handler : exn -> M A) : M A :=
  fun w =>
    match body w with
    | (Ok a, w') => (Ok a, w')
    | (Err e, w') => handler e w'
    end.

Declare Scope m_scope.
Delimit Scope m_scope with M.
Notation "x <- m ;; k" := (mbind m (fun x => k))
  (at level 100, m at next level, right associativity) : m_scope.
Notation "m ;;; k" := (mbind m (fun _ => k))
  (at level 100, right associativity) : m_scope.

(** [range(start, stop, step)] *)
Definition range_length (start stop step : Z) : Z :=
  if 0 <? step then
    if start <? stop then (stop - start - 1) / step + 1 else 0
  else
    if stop <? start then (start - stop - 1) / (- step) + 1 else 0.

Definition range (start stop step : Z) : result (list Z) :=
  if step =? 0 then Err (ValueError "range() arg 3 must not be zero")
  else Ok (map (fun i => start + Z.of_nat i * step)
             (seq 0 (Z.to_nat (range_length start stop step)))).

(** The tile list of [raster_to_polygon_parallel]: the two nested [for]
    loops over [range(0, height, block_size)] and
    [range(0, width, block_size)]. *)
Definition make_tiles (path : string) (width height block_size : Z)
  : result (list (string * Window)) :=
  (ys <- range 0 height block_size ;;
   xs <- range 0 width block_size ;;
   Ok (flat_map
         (fun y =>
            map (fun x =>
                   (path,
                    {| col_off := x;
                       row_off := y;
                       width := Z.min block_size (width - x);
                       height := Z.min block_size (height - y) |}))
              xs)
         ys))%result.

(** [os.remove(path)]: a missing file raises [FileNotFoundError]; an
    existing one is removed unless the operating system refuses, and then it
    stays where it is. *)
Definition os_remove `{Collaborators} (path : string) : M unit :=
  fun w =>
    match fs w !! path with
    | None => (Err (FileNotFoundError path), w)
    | Some _ =>
        match os_remove_error path w with
        | Some msg => (Err (CollaboratorError msg), w)
        | None => (Ok tt, with_fs w (delete path (fs w)))
        end
    end.

(** [rasterio.open(path)] for reading. *)
Definition rasterio_open (path : string) (w : World) : result Raster :=
  match fs w !! path with
  | Some (RasterFile r) => Ok r
  | _ => Err (CollaboratorError "RasterioIOError")
  end.

(** [src.read(band, window=window)]: the window's rows, each a list of the
    pixel values of its columns. *)
Definition raster_read (src : Raster) (band : Z) (window : Window)
  : result (list (list Z)) :=
  if (band <? 1) || (r_count src <? band)
  then Err (IndexError "band index out of range")
  else Ok (map (fun i =>
                  map (fun j =>
                         r_band src band (row_off window + Z.of_nat i)
                           (col_off window + Z.of_nat j))
                    (seq 0 (Z.to_nat (width window))))
             (seq 0 (Z.to_nat (height window)))).

(** [np.any(alpha)] *)
Definition np_any (alpha : list (list Z)) : bool :=
  existsb (existsb (fun v => negb (v =? 0))) alpha.

(** [max(items, key=key)]: the first item no later item beats. *)
Fixpoint py_max_from {A} (key : A -> float) (best : A) (items : list A) : A :=
  match items with
  | [] => best
  | x :: rest =>
      if PyFloat.gtb (key x) (key best)
      then py_max_from key x rest
      else py_max_from key best rest
  end.

Definition py_max {A} (key : A -> float) (items : list A) : result A :=
  match items with
  | [] => Err (ValueError "max() arg is an empty sequence")
  | x :: rest => Ok (py_max_from key x rest)
  end.

Section Program.

Context `{Collaborators}.

(** [CRS.from_user_input(value)]: a [CRS] object is returned as it is,
    anything else goes through the constructor. *)
Definition from_user_input (value : crs_input) : result CRS :=
  match value with
  | CrsObj c => Ok c
  | CrsStr s => lift_lib (CRS_new (Some s))
  | CrsNone => lift_lib (CRS_new None)
  end.

Definition reproject_geom (geom : geometry) (src_crs dst_crs : crs_input)
  : result geometry :=
  match src_crs with
  | CrsNone => Err (ValueError "source CRS is None, cannot reproject geometry")
  | _ =>
      (src <- match src_crs with
              | CrsObj c => Ok c
              | _ => from_user_input src_crs
              end ;;
       dst <- from_user_input dst_crs ;;
       if crs_eqb src dst then Ok geom
       else lift_lib (pyproj_transform src dst geom))%result
  end.

Definition ensure_valid_geometry (geom : geometry) : result geometry :=
  match geom with
  | Polygon _ =>
      if geom_is_valid geom && PyFloat.gtb (geom_area geom) (PyFloat.of_Z 0)
      then Ok geom
      else Ok (geom_buffer geom (PyFloat.of_Z 0) default_buffer_args)
  | MultiPolygon geoms =>
      let polys :=
        List.filter
          (fun p => PyFloat.gtb (geom_area (Polygon p)) (PyFloat.of_Z 0))
          geoms in
      match polys with
      | [] => Err (RuntimeError "All polygons have zero area after cleanup.")
      | _ => lift_lib (unary_union (map Polygon polys))
      end
  | OtherGeometry _ _ =>
      Err (TypeError ("Unsupported geometry type: " +:+ type_repr geom))
  end.

Definition largest_polygon (geom : geometry) : result geometry :=
  match geom with
  | MultiPolygon geoms =>
      (maxp <- py_max (fun g => geom_area (Polygon g)) geoms ;;
       Ok (Polygon maxp))%result
  | _ => Ok geom
  end.

(** The worker: the polygons of one tile's alpha band. *)
Definition _shapes_from_tile_alpha (args : string * Window) (w : World)
  : result (list geometry) :=
  let '(path, window) := args in
  (src <- rasterio_open path w ;;
   alpha <- raster_read src 4 window ;;
   if negb (np_any alpha) then Ok []
   else
     let mask := map (map (fun v => 0 <? v)) alpha in
     let transform := window_transform (r_transform src) window in
     Ok (map fst
           (List.filter (fun gv => snd gv =? 1) (shapes mask transform))))%result.

(** [for result in p.imap_unordered(...): if result: polys.extend(result)]:
    results arrive in completion order, and the first worker exception that
    arrives ends the loop. *)
Fixpoint collect_results (tiles : list (string * Window)) (w : World)
  : result (list geometry) :=
  match tiles with
  | [] => Ok []
  | t :: rest =>
      (r <- _shapes_from_tile_alpha t w ;;
       polys <- collect_results rest w ;;
       Ok (r ++ polys)%list)%result
  end.

(** The first half of [raster_to_polygon_parallel]: tile list, pool,
    concatenation of the workers' results. *)
Definition extract_polygons (path : string) (block_size : Z) (w : World)
  : result (list geometry) :=
  (src <- rasterio_open path w ;;
   tiles <- make_tiles path (r_width src) (r_height src) block_size ;;
   n <- num_workers (cpu_count w) ;;
   _ <- Pool n ;;
   collect_results (completion_order tiles) w)%result.

(** The loop "Final cleaning". *)
Fixpoint final_cleaning (polys : list geometry) : list geometry :=
  match polys with
  | [] => []
  | p :: rest =>
      if geom_is_empty p || PyFloat.eqb (geom_area p) (PyFloat.of_Z 0)
      then final_cleaning rest
      else
        let p' :=
          if negb (geom_is_valid p)
          then geom_buffer p (PyFloat.of_Z 0) default_buffer_args
          else p in
        if (is_Polygon p' || is_MultiPolygon p') && negb (geom_is_empty p')
        then p' :: final_cleaning rest
        else final_cleaning rest
  end.

(** "Merge polygons": the union, and its guarded retry. *)
Definition merge_polygons (cleaned : list geometry) : result geometry :=
  match unary_union cleaned with
  | inr merged => Ok merged
  | inl _ =>
      lift_lib
        (unary_union
           (map (fun g => geom_buffer g (PyFloat.of_Z 0) default_buffer_args)
              cleaned))
  end.

(** The second half of [raster_to_polygon_parallel], from [if not polys]. *)
Definition clean_and_merge (polys : list geometry) : result geometry :=
  match polys with
  | [] =>
      Err (RuntimeError
             "No polygons extracted from raster (alpha mask may be empty).")
  | _ =>
      match final_cleaning polys with
      | [] => Err (RuntimeError "Polygon list empty after cleaning.")
      | cleaned => merge_polygons cleaned
      end
  end.

Definition raster_to_polygon_parallel (path : string) (block_size : Z)
    (w : World) : result geometry :=
  (polys <- extract_polygons path block_size w ;;
   clean_and_merge polys)%result.

(** [geom.centroid.x, geom.centroid.y].  GEOS keeps the empty point, the
    centroid of an empty geometry, as the pair of two [nan]; shapely refuses
    to read a coordinate of it. *)
Definition centroid_xy (geom : geometry) : result coord :=
  let '(x, y) := geom_centroid geom in
  if is_nan x && is_nan y
  then Err (CollaboratorError "GEOSException: getX called on empty Point")
  else Ok (x, y).

(** The metric CRS of [compute_negative_buffer]: a UTM zone picked from the
    centroid when the source CRS is geographic, the source CRS otherwise. *)
Definition select_metric_crs (src_crs : CRS) (geom : geometry) : result CRS :=
  if is_geographic src_crs then
    (lon_lat <- centroid_xy geom ;;
     let '(lon, lat) := lon_lat in
     zone <- utm_zone lon ;;
     lift_lib (CRS_from_proj4 (utm_proj4 zone)))%result
  else Ok src_crs.

(** [dist = (area * threshold_area) / 100.0] *)
Definition buffer_distance (area threshold_area : float) : float :=
  PyFloat.div (PyFloat.mul area threshold_area) (PyFloat.of_Z 100).

(** [geom.buffer(distance, ...)] with a distance that is computed: shapely
    checks that the distance is finite before it hands the geometry to GEOS.
    (The program's other calls pass the literal [0], which the check lets
    through.) *)
Definition buffer (geom : geometry) (distance : float) (args : buffer_args)
  : result geometry :=
  if PyFloat.is_finite distance
  then Ok (geom_buffer geom distance args)
  else Err (ValueError "buffer distance must be finite").

Definition compute_negative_buffer (geom : geometry) (threshold_area : float)
    (geom_crs : crs_input) : result geometry :=
  (src_crs <- from_user_input geom_crs ;;
   metric_crs <- select_metric_crs src_crs geom ;;
   geom_metric <- reproject_geom geom (CrsObj src_crs) (CrsObj metric_crs) ;;
   let area := geom_area geom_metric in
   let dist := buffer_distance area threshold_area in
   geom_metric_buffered <-
     buffer geom_metric (PyFloat.opp dist)
       {| resolution := 8;
          single_sided := single_sided default_buffer_args |} ;;
   buffered_back <-
     reproject_geom geom_metric_buffered (CrsObj metric_crs) (CrsObj src_crs) ;;
   ensure_valid_geometry buffered_back)%result.

Definition fast_convex_hull (geom : geometry) : result geometry :=
  ensure_valid_geometry (geom_convex_hull geom).

(** The dictionary [geom_to_geojson_path] dumps. *)
Definition feature_collection (geometry_member : json) : json :=
  JObject
    [("type", JString "FeatureCollection");
     ("features",
      JArray
        [JObject
           [("type", JString "Feature");
            ("properties", JObject []);
            ("geometry", geometry_member)]])].

Definition geom_to_geojson_path (geom : geometry) (geom_crs : crs_input)
  : M string :=
  (geom_4326 <- mlift (reproject_geom geom geom_crs (CrsStr "EPSG:4326")) ;;
   geom_4326 <- mlift (ensure_valid_geometry geom_4326) ;;
   geom_4326 <- mlift (if is_MultiPolygon geom_4326
                       then largest_polygon geom_4326
                       else Ok geom_4326) ;;
   let geojson := feature_collection (mapping geom_4326) in
   fun w =>
     let path := NamedTemporaryFile_name ".geojson" w in
     (Ok path, with_fs w (<[path := JsonFile geojson]> (fs w))))%M.

Definition block_size_output : Z := 512.

(** [subprocess.run(cmd, check=True)] *)
Definition subprocess_run_check (cmd : list string) : M unit :=
  fun w =>
    let '(returncode, w') := run_process cmd w in
    if returncode =? 0 then (Ok tt, w')
    else (Err (CalledProcessError returncode cmd), w').

(** The [gdal.WarpOptions(...)] of [crop_with_mask]. *)
Definition warp_opts (geojson_path : string) (n : Z) : WarpOptions :=
  {| wo_format := "COG";
     cutlineDSName := geojson_path;
     cropToCutline := true;
     dstAlpha := false;
     creationOptions :=
       ["COG=YES"; "BIGTIFF=YES"; "COMPRESS=DEFLATE";
        "BLOCKSIZE=" +:+ pretty block_size_output;
        "NUM_THREADS=" +:+ pretty n];
     warpOptions := ["OPTIMIZE_SIZE=TRUE"];
     multithread := true |}.

(** The command line of the fallback. *)
Definition gdalwarp_cmd (geojson_path : string) (n : Z)
    (input_path output_path : string) : list string :=
  ["gdalwarp";
   "-cutline"; geojson_path;
   "-crop_to_cutline";
   "-of"; "COG";
   "-co"; "BLOCKSIZE=" +:+ pretty block_size_output;
   "-co"; "COMPRESS=DEFLATE";
   "-co"; "BIGTIFF=YES";
   "-co"; "NUM_THREADS=" +:+ pretty n;
   input_path;
   output_path].

(** [gdal.Warp(destNameOrDestDS=..., srcDSOrSrcDSTab=..., options=...)] *)
Definition Warp (dest src : string) (options : WarpOptions) : M unit :=
  fun w =>
    let '(r, w') := gdal_Warp dest src options w in
    (lift_lib r, w').

Definition crop_with_mask (input_path output_path : string)
    (geom : geometry) (geom_crs : crs_input) : M unit :=
  (geojson_path <- geom_to_geojson_path geom geom_crs ;;
   n <- mlift_of (fun w => num_workers (cpu_count w)) ;;
   try_except
     (Warp output_path input_path (warp_opts geojson_path n))
     (fun e =>
        subprocess_run_check
          (gdalwarp_cmd geojson_path n input_path output_path)) ;;;
   try_except (os_remove geojson_path) (fun _ => mret tt))%M.

(** The main pipeline. *)
Definition crop_mosaic_by_polygon (input_file output_file : string)
    (threshold : float) : M unit :=
  (raster_crs <-
     mlift_of (fun w =>
       (src <- rasterio_open input_file w ;;
        match r_crs src with
        | Some c => Ok (CRS_to_string c)
        | None =>
            Err (AttributeError
                   "'NoneType' object has no attribute 'to_string'")
        end)%result) ;;
   geom <- mlift_of (raster_to_polygon_parallel input_file 2048) ;;
   nb <- mlift (compute_negative_buffer geom threshold (CrsStr raster_crs)) ;;
   hull <- mlift (fast_convex_hull nb) ;;
   hull <- mlift (ensure_valid_geometry hull) ;;
   crop_with_mask input_file output_file hull (CrsStr raster_crs))%M.

End Program.


(** ** File names

    [os.path] on POSIX, as far as the two command lines use it, and the
    derivation of the default output name.  A Python [str] is a [string]. *)

From Stdlib Require Import Ascii.

(** [s.rfind(c)]: the last index of [c], or -1. *)
Fixpoint rfind (c : ascii) (s : string) : Z :=
  match s with
  | EmptyString => -1
  | String a rest =>
      let r := rfind c rest in
      if 0 <=? r then r + 1 else if Ascii.eqb a c then 0 else -1
  end.

(** [s[:n]] and [s[n:]] for [0 <= n]. *)
Fixpoint str_take (n : nat) (s : string) : string :=
  match n, s with
  | S n', String a rest => String a (str_take n' rest)
  | _, _ => EmptyString
  end.

Fixpoint str_drop (n : nat) (s : string) : string :=
  match n, s with
  | S n', String _ rest => str_drop n' rest
  | _, _ => s
  end.

(** Whether some character of [s] is not [c]. *)
Fixpoint has_other_than (c : ascii) (s : string) : bool :=
  match s with
  | EmptyString => false
  | String a rest => negb (Ascii.eqb a c) || has_other_than c rest
  end.

Definition sep : ascii := "/"%char.
Definition extsep : ascii := "."%char.

(** [os.path.splitext(p)]: the extension starts at the last dot of the last
    component, unless only dots come before it there. *)
Definition splitext (p : string) : string * string :=
  let sepIndex := rfind sep p in
  let dotIndex := rfind extsep p in
  if (sepIndex <? dotIndex)
     && has_other_than extsep
          (str_take (Z.to_nat (dotIndex - (sepIndex + 1)))
             (str_drop (Z.to_nat (sepIndex + 1)) p))
  then (str_take (Z.to_nat dotIndex) p, str_drop (Z.to_nat dotIndex) p)
  else (p, "").

(** [os.path.basename(p)] *)
Definition basename (p : string) : string :=
  str_drop (Z.to_nat (rfind sep p + 1)) p.

(** [s.rstrip('/')] *)
Fixpoint rstrip_sep (s : string) : string :=
  match s with
  | EmptyString => EmptyString
  | String a rest =>
      match rstrip_sep rest with
      | EmptyString => if Ascii.eqb a sep then EmptyString else String a EmptyString
      | kept => String a kept
      end
  end.

(** [os.path.dirname(p)] *)
Definition dirname (p : string) : string :=
  let head := str_take (Z.to_nat (rfind sep p + 1)) p in
  if has_other_than sep head then rstrip_sep head else head.

(** [s.startswith('/')] and [s.endswith('/')] *)
Definition starts_with_sep (s : string) : bool :=
  match s with
  | String a _ => Ascii.eqb a sep
  | EmptyString => false
  end.

Fixpoint ends_with_sep (s : string) : bool :=
  match s with
  | EmptyString => false
  | String a EmptyString => Ascii.eqb a sep
  | String _ rest => ends_with_sep rest
  end.

(** [os.path.join(a, b)] *)
Definition path_join (a b : string) : string :=
  if starts_with_sep b then b
  else if match a with EmptyString => true | _ => ends_with_sep a end
       then a +:+ b
       else a +:+ "/" +:+ b.

(** [sub in s] *)
Fixpoint str_prefix (sub s : string) : bool :=
  match sub, s with
  | EmptyString, _ => true
  | String a sub', String b s' => Ascii.eqb a b && str_prefix sub' s'
  | String _ _, EmptyString => false
  end.

Fixpoint str_in (sub s : string) : bool :=
  str_prefix sub s
  || match s with
     | EmptyString => false
     | String _ rest => str_in sub rest
     end.

(** The arguments [argparse] hands to [main]. *)
Record Namespace : Type := mkNamespace {
  mosaic_image : string;
  threshold_area : float;
  raster_output : option string
}.

(** The output name [main] settles on: the given one, or
    [prefix + "_cropped" + ext]. *)
Definition main_output (args : Namespace) : string :=
  match raster_output args with
  | None =>
      let '(prefix, ext) := splitext (mosaic_image args) in
      prefix +:+ "_cropped" +:+ ext
  | Some given => given
  end.

(** [main] of [mosaic_utils/crop_mosaic.py], after [parse_args]. *)
Definition main `{Collaborators} (args : Namespace) : M unit :=
  crop_mosaic_by_polygon (mosaic_image args) (main_output args)
    (threshold_area args).

(** [get_valid_namefile] of the older [crop_mosaic.py]. *)
Definition get_valid_namefile (src_filename : string) : string :=
  let dir := dirname src_filename in
  let '(prefix, suffix) := splitext (basename src_filename) in
  path_join dir (prefix +:+ "_cropped" +:+ suffix).

(** ** [arghelper]

    [parser.error(message)] ends the program with [message]; a check that
    passes returns its argument.  [isdir] is [os.path.isdir]. *)

Definition is_valid_file (w : World) (arg : string) : string + string :=
  match fs w !! arg with
  | None => inl ("The file " +:+ arg +:+ " does not exist!")
  | Some _ => inr arg
  end.

Definition is_valid_directory (isdir : string -> bool) (arg : string)
  : string + string :=
  if negb (isdir arg)
  then inl ("The directory " +:+ arg +:+ " does not exist!")
  else inr arg.

Definition is_valid_namefile (isdir : string -> bool) (arg : string)
  : string + string :=
  if negb (str_in ".tif" (basename arg)) && negb (str_in ".TIF" (basename arg))
  then inl ("The file " +:+ arg
            +:+ " does not have a valid extension for a COG file!")
  else if negb (isdir (dirname arg))
  then inl ("Please, include a valid path to save COG file " +:+ arg +:+ "!")
  else inr arg.

(** ** Hole closing in the older [crop_mosaic.py]

    [within] is [a.within(b)] of shapely. *)

(** [remove_interiors] *)
Definition remove_interiors (poly : polygon) : polygon :=
  match interiors poly with
  | [] => poly
  | _ => {| exterior := exterior poly; interiors := [] |}
  end.

(** [geoms.index(value)] where [value] is the object at position [pos]: the
    first position that holds an equal number, at the latest [pos] itself. *)
Fixpoint index_of (pos : nat) (value : float) (geoms : list float) (j : nat)
  : nat :=
  match geoms with
  | [] => j
  | a :: rest =>
      if (j =? pos)%nat || PyFloat.eqb a value then j
      else index_of pos value rest (S j)
  end.

(** [gs.pop(i)]: the item at [i] and the series without it. *)
Fixpoint pop_at {A} (i : nat) (gs : list A) : option (A * list A) :=
  match gs, i with
  | [], _ => None
  | x :: rest, O => Some (x, rest)
  | x :: rest, S i' =>
      match pop_at i' rest with
      | Some (y, rest') => Some (y, x :: rest')
      | None => None
      end
  end.

Section OlderVariant.

Context `{Collaborators}.
Variable within : polygon -> polygon -> bool.

(** [pop_largest]: [max] keeps the first largest area, [index] finds it. *)
Definition pop_largest (gs : list polygon) : result (polygon * list polygon) :=
  let geoms := map (fun g => geom_area (Polygon g)) gs in
  (largest <- py_max snd (combine (seq 0 (length geoms)) geoms) ;;
   match pop_at (index_of (fst largest) (snd largest) geoms 0) gs with
   | Some popped => Ok popped
   | None => Err (IndexError "pop index out of bounds")
   end)%result.

(** [close_holes]; a geometry of another class falls through to [None]. *)
Definition close_holes (geom : geometry) : result (option geometry) :=
  match geom with
  | MultiPolygon geoms =>
      (popped <- pop_largest (map remove_interiors geoms) ;;
       let '(big, ser) := popped in
       let outers := List.filter (fun g => negb (within g big)) ser in
       match outers with
       | [] => Ok (Some (Polygon big))
       | _ => Ok (Some (MultiPolygon (big :: outers)))
       end)%result
  | Polygon p => Ok (Some (Polygon (remove_interiors p)))
  | OtherGeometry _ _ => Ok None
  end.

End OlderVariant.
(** * Specification vocabulary *)

(** ** Tiling *)

(** Whether pixel ([col], [row]) lies in window [w]. *)
Definition covers (w : Window) (col row : Z) : bool :=
  ((col_off w <=? col) && (col <? col_off w + width w))
  && ((row_off w <=? row) && (row <? row_off w + height w)).

(** The tiles whose window holds a pixel, as many times as they are listed. *)
Definition tiles_covering (tiles : list (string * Window)) (col row : Z)
  : list (string * Window) :=
  List.filter (fun t => covers (snd t) col row) tiles.

(** Whether window [w] lies inside a [width] by [height] raster, is not
    empty and is no larger than a block. *)
Definition clipped (w : Window) (raster_width raster_height block_size : Z)
  : Prop :=
  0 <= col_off w /\ 0 <= row_off w
  /\ 0 < width w <= block_size /\ 0 < height w <= block_size
  /\ col_off w + width w <= raster_width
  /\ row_off w + height w <= raster_height.

(** One interval of a one-dimensional tiling. *)
Definition in_span (stop block_size p x : Z) : bool :=
  (x <=? p) && (p <? x + Z.min block_size (stop - x)).


(** ** Workers *)

(** Whether the worker count of a host is computed and is at least 1. *)
Definition at_least_one_worker (cpu_count : Z) : bool :=
  match num_workers cpu_count with
  | Ok n => 1 <=? n
  | Err _ => false
  end.

(** ** Reprojection and cutlines *)

(** [g'] is [g] taken from [src] to [dst] the way [reproject_geom] does it
    for two [CRS] objects: unchanged when they are equal, through pyproj
    otherwise. *)
Definition reprojected `{Collaborators} (src dst : CRS) (g g' : geometry)
  : Prop :=
  if crs_eqb src dst then g' = g else pyproj_transform src dst g = inr g'.

(** [p] has no positive area: what [p.area > 0] rejects.  shapely reports no
    negative area for a polygon that is valid, so this is a zero area (or a
    [nan]). *)
Definition no_positive_area `{Collaborators} (p : polygon) : Prop :=
  PyFloat.gtb (geom_area (Polygon p)) (PyFloat.of_Z 0) = false.

(** [cut] is what [geom_to_geojson_path] keeps of a repaired region: the
    region itself, or for a multi-polygon one component, a largest one. *)
Definition cutline_of `{Collaborators} (repaired cut : geometry) : Prop :=
  match repaired with
  | MultiPolygon geoms =>
      exists p, cut = Polygon p /\ In p geoms
        /\ forall q, In q geoms ->
             PyFloat.ltb (geom_area (Polygon p)) (geom_area (Polygon q)) = false
  | _ => cut = repaired
  end.

(** The polygons a geometry is made of. *)
Definition components (g : geometry) : list polygon :=
  match g with
  | Polygon p => [p]
  | MultiPolygon geoms => geoms
  | OtherGeometry _ _ => []
  end.

(** The components of a valid multi-polygon lie apart from each other, so
    their union gives them back, as a polygon when there is one and in some
    order when there are more.  [same p q] says that [q] is the polygon [p]
    as the geometry engine hands it back: the same shape, possibly with its
    rings written from another vertex. *)
Definition union_keeps_parts `{Collaborators}
    (same : polygon -> polygon -> Prop) (geoms : list polygon) : Prop :=
  exists merged reordered,
    unary_union (map Polygon geoms) = inr merged
    /\ is_Polygon merged || is_MultiPolygon merged = true
    /\ Permutation geoms reordered
    /\ Forall2 same reordered (components merged).

(** A region as the data model has it: a polygon or a multi-polygon, valid
    and of positive area, component by component. *)
Definition valid_region `{Collaborators} (same : polygon -> polygon -> Prop)
    (g : geometry) : Prop :=
  match g with
  | Polygon _ =>
      geom_is_valid g = true
      /\ PyFloat.gtb (geom_area g) (PyFloat.of_Z 0) = true
  | MultiPolygon geoms =>
      geom_is_valid g = true
      /\ geoms <> []
      /\ Forall
           (fun p => PyFloat.gtb (geom_area (Polygon p)) (PyFloat.of_Z 0) = true)
           geoms
      /\ union_keeps_parts same geoms
  | OtherGeometry _ _ => False
  end.

(** [cut] is the largest component of a region: the region itself when it
    is a polygon, and for a multi-polygon one of its components, as the
    engine hands it back, than which no component has a larger area. *)
Definition largest_component `{Collaborators}
    (same : polygon -> polygon -> Prop) (region cut : geometry) : Prop :=
  match region with
  | MultiPolygon geoms =>
      exists p q,
        cut = Polygon q /\ In p geoms /\ same p q
        /\ forall p', In p' geoms ->
             PyFloat.ltb (geom_area (Polygon p)) (geom_area (Polygon p'))
             = false
  | _ => cut = region
  end.

(** ["key"] of a JSON object. *)
Fixpoint json_member (key : string) (members : list (string * json))
  : option json :=
  match members with
  | [] => None
  | (k, v) :: rest => if String.eqb k key then Some v else json_member key rest
  end.

(** The features of a boundary file. *)
Definition features (content : json) : option (list json) :=
  match content with
  | JObject members =>
      match json_member "features" members with
      | Some (JArray items) => Some items
      | _ => None
      end
  | _ => None
  end.

(** The geometry member of a feature. *)
Definition feature_geometry (feature : json) : option json :=
  match feature with
  | JObject members => json_member "geometry" members
  | _ => None
  end.

(** ** Vocabulary of the further properties *)

(** What the cleaning loop accepts as it is. *)
Definition clean `{Collaborators} (g : geometry) : bool :=
  negb (geom_is_empty g)
  && negb (PyFloat.eqb (geom_area g) (PyFloat.of_Z 0))
  && geom_is_valid g
  && (is_Polygon g || is_MultiPolygon g).

(** * A small stand-in for the collaborating libraries

    The theorems below hold for every implementation of [Collaborators].
    This module gives one that computes, so that they can be run on concrete
    regions, rasters and file systems.  Its geometry is deliberately simple:
    areas by the shoelace formula, buffers and hulls on bounding boxes (exact
    for axis-parallel rectangles with square corners), unions without
    merging, reprojection that leaves coordinates alone. *)
Module Fixture.

Definition pt (x y : Z) : coord := (PyFloat.of_Z x, PyFloat.of_Z y).

Definition coord_eqb (a b : coord) : bool :=
  PyFloat.eqb (fst a) (fst b) && PyFloat.eqb (snd a) (snd b).

Fixpoint shoelace (ring : list coord) : float :=
  match ring with
  | (x1, y1) :: (((x2, y2) :: _) as rest) =>
      PyFloat.add (PyFloat.sub (PyFloat.mul x1 y2) (PyFloat.mul x2 y1))
        (shoelace rest)
  | _ => PyFloat.zero
  end.

Definition ring_area (ring : list coord) : float :=
  PyFloat.div (SFabs (shoelace ring)) (PyFloat.of_Z 2).

Definition polygon_area (p : polygon) : float :=
  fold_left (fun acc hole => PyFloat.sub acc (ring_area hole)) (interiors p)
    (ring_area (exterior p)).

Definition area (g : geometry) : float :=
  match g with
  | Polygon p => polygon_area p
  | MultiPolygon geoms =>
      fold_left (fun acc p => PyFloat.add acc (polygon_area p)) geoms
        PyFloat.zero
  | OtherGeometry _ _ => PyFloat.zero
  end.

Definition polygon_is_empty (p : polygon) : bool :=
  match exterior p with [] => true | _ => false end.

Definition is_empty (g : geometry) : bool :=
  match g with
  | Polygon p => polygon_is_empty p
  | MultiPolygon geoms => forallb polygon_is_empty geoms
  | OtherGeometry _ coords => match coords with [] => true | _ => false end
  end.

(** A ring is accepted when it is closed and has at least four points. *)
Definition ring_ok (ring : list coord) : bool :=
  match ring with
  | [] => true
  | first :: _ =>
      (4 <=? Z.of_nat (length ring)) && coord_eqb first (List.last ring first)
  end.

Definition polygon_is_valid (p : polygon) : bool :=
  ring_ok (exterior p) && forallb ring_ok (interiors p).

Definition is_valid (g : geometry) : bool :=
  match g with
  | Polygon p => polygon_is_valid p
  | MultiPolygon geoms => forallb polygon_is_valid geoms
  | OtherGeometry _ _ => true
  end.

(** A ring with a vertex repeated in place: accepted by [is_valid], refused by
    [unary_union], mended by a zero-width buffer. *)
Fixpoint has_repeat (ring : list coord) : bool :=
  match ring with
  | a :: ((b :: _) as rest) => coord_eqb a b || has_repeat rest
  | _ => false
  end.

Fixpoint drop_repeats (ring : list coord) : list coord :=
  match ring with
  | a :: ((b :: _) as rest) =>
      if coord_eqb a b then drop_repeats rest else a :: drop_repeats rest
  | _ => ring
  end.

Definition float_min (a b : float) : float := if PyFloat.ltb b a then b else a.
Definition float_max (a b : float) : float := if PyFloat.ltb a b then b else a.

(** The bounding box ([minx], [miny], [maxx], [maxy]) of some points. *)
Definition bounds (coords : list coord) : option (float * float * float * float) :=
  match coords with
  | [] => None
  | (x, y) :: rest =>
      Some (fold_left
              (fun '(minx, miny, maxx, maxy) '(x', y') =>
                 (float_min minx x', float_min miny y',
                  float_max maxx x', float_max maxy y'))
              rest (x, y, x, y))
  end.

Definition box (minx miny maxx maxy : float) : polygon :=
  {| exterior := [(minx, miny); (maxx, miny); (maxx, maxy); (minx, maxy);
                  (minx, miny)];
     interiors := [] |}.

Definition empty_polygon : polygon := {| exterior := []; interiors := [] |}.

Definition all_coords (g : geometry) : list coord :=
  match g with
  | Polygon p => exterior p
  | MultiPolygon geoms => flat_map exterior geoms
  | OtherGeometry _ coords => coords
  end.

Definition offset_polygon (distance : float) (p : polygon) : polygon :=
  match bounds (exterior p) with
  | None => empty_polygon
  | Some (minx, miny, maxx, maxy) =>
      let minx' := PyFloat.sub minx distance in
      let miny' := PyFloat.sub miny distance in
      let maxx' := PyFloat.add maxx distance in
      let maxy' := PyFloat.add maxy distance in
      if PyFloat.ltb minx' maxx' && PyFloat.ltb miny' maxy'
      then box minx' miny' maxx' maxy'
      else empty_polygon
  end.

Definition mend_polygon (p : polygon) : polygon :=
  {| exterior := drop_repeats (exterior p);
     interiors := map drop_repeats (interiors p) |}.

Definition buffer (g : geometry) (distance : float) (args : buffer_args)
  : geometry :=
  let f := if PyFloat.is_zero distance then mend_polygon
           else offset_polygon distance in
  match g with
  | Polygon p => Polygon (f p)
  | MultiPolygon geoms =>
      match List.filter (fun p => negb (polygon_is_empty p)) (map f geoms) with
      | [] => Polygon empty_polygon
      | [p] => Polygon p
      | parts => MultiPolygon parts
      end
  | OtherGeometry _ _ => Polygon empty_polygon
  end.

Definition centroid (g : geometry) : coord :=
  match bounds (all_coords g) with
  | None => (S754_nan, S754_nan)
  | Some (minx, miny, maxx, maxy) =>
      (PyFloat.div (PyFloat.add minx maxx) (PyFloat.of_Z 2),
       PyFloat.div (PyFloat.add miny maxy) (PyFloat.of_Z 2))
  end.

Definition convex_hull (g : geometry) : geometry :=
  match bounds (all_coords g) with
  | None => OtherGeometry GeometryCollection []
  | Some (minx, miny, maxx, maxy) => Polygon (box minx miny maxx maxy)
  end.

Definition parts_of (g : geometry) : list polygon :=
  match g with
  | Polygon p => [p]
  | MultiPolygon geoms => geoms
  | OtherGeometry _ _ => []
  end.

Definition union (gs : list geometry) : string + geometry :=
  let parts :=
    List.filter (fun p => negb (polygon_is_empty p)) (flat_map parts_of gs) in
  if existsb (fun p => has_repeat (exterior p)) parts
  then inl "TopologyException: found non-noded intersection"
  else
    match parts with
    | [] => inr (OtherGeometry GeometryCollection [])
    | [p] => inr (Polygon p)
    | _ => inr (MultiPolygon parts)
    end.

Definition ring_json (ring : list coord) : json :=
  JArray (map (fun '(x, y) => JArray [JNumber x; JNumber y]) ring).

Definition polygon_json (p : polygon) : json :=
  JArray (map ring_json (exterior p :: interiors p)).

Definition geo_interface (g : geometry) : json :=
  match g with
  | Polygon p =>
      JObject [("type", JString "Polygon"); ("coordinates", polygon_json p)]
  | MultiPolygon geoms =>
      JObject [("type", JString "MultiPolygon");
               ("coordinates", JArray (map polygon_json geoms))]
  | OtherGeometry _ coords =>
      JObject [("type", JString "GeometryCollection");
               ("geometries", JArray [])]
  end.

Definition new_crs (value : option string) : string + CRS :=
  match value with
  | Some s => inr {| crs_definition := s |}
  | None => inl "CRSError: Invalid projection: None"
  end.

Definition crs_equal (a b : CRS) : bool :=
  String.eqb (crs_definition a) (crs_definition b).

Definition geographic (c : CRS) : bool :=
  String.eqb (crs_definition c) "EPSG:4326".

Definition shift (t : affine) (window : Window) : affine :=
  let col := PyFloat.of_Z (col_off window) in
  let row := PyFloat.of_Z (row_off window) in
  {| af_a := af_a t; af_b := af_b t;
     af_c := PyFloat.add (af_c t)
               (PyFloat.add (PyFloat.mul (af_a t) col)
                  (PyFloat.mul (af_b t) row));
     af_d := af_d t; af_e := af_e t;
     af_f := PyFloat.add (af_f t)
               (PyFloat.add (PyFloat.mul (af_d t) col)
                  (PyFloat.mul (af_e t) row)) |}.

Definition to_world (t : affine) (col row : Z) : coord :=
  let c := PyFloat.of_Z col in
  let r := PyFloat.of_Z row in
  (PyFloat.add (PyFloat.add (PyFloat.mul (af_a t) c) (PyFloat.mul (af_b t) r))
     (af_c t),
   PyFloat.add (PyFloat.add (PyFloat.mul (af_d t) c) (PyFloat.mul (af_e t) r))
     (af_f t)).

(** The square of a pixel; a vectorizer that stutters lists its second
    corner twice. *)
Definition pixel_square (stutters : bool) (t : affine) (col row : Z)
  : geometry :=
  Polygon
    {| exterior :=
         to_world t col row
         :: ((if stutters then [to_world t (col + 1) row] else [])
             ++ [to_world t (col + 1) row; to_world t (col + 1) (row + 1);
                 to_world t col (row + 1); to_world t col row])%list;
       interiors := [] |}.

(** One square per valid pixel, each with value 1. *)
Definition vectorize (stutters : bool) (mask : list (list bool)) (t : affine)
  : list (geometry * Z) :=
  flat_map
    (fun '(i, row) =>
       flat_map
         (fun '(j, valid) =>
            if (valid : bool)
            then [(pixel_square stutters t (Z.of_nat j) (Z.of_nat i), 1)]
            else [])
         (combine (seq 0 (length row)) row))
    (combine (seq 0 (length mask)) mask).

Definition copy_file (src dest : string) (w : World) : World :=
  match fs w !! src with
  | Some f => with_fs w (<[dest := f]> (fs w))
  | None => w
  end.

(** A warp that works (it copies the source) or fails, as asked. *)
Definition warp (works : bool) (dest src : string) (options : WarpOptions)
    (w : World) : (string + unit) * World :=
  if works then (inr tt, copy_file src dest w)
  else (inl "RuntimeError: Cutline polygon is invalid.", w).

(** A command that works or exits with status 1, as asked. *)
Definition run (works : bool) (cmd : list string) (w : World) : Z * World :=
  if works then
    match rev cmd with
    | dest :: src :: _ => (0, copy_file src dest w)
    | _ => (0, w)
    end
  else (1, w).

(** What a test decides: whether the warp and the fallback work, whether
    the vectorizer stutters, and whether the operating system refuses to
    remove files. *)
Record behaviour : Type := mkBehaviour {
  warp_works : bool;
  cli_works : bool;
  stutters : bool;
  removal_refused : bool
}.

Definition engine (b : behaviour) : Collaborators :=
  {| geom_area := area;
     geom_is_valid := is_valid;
     geom_is_empty := is_empty;
     geom_buffer := buffer;
     geom_centroid := centroid;
     geom_convex_hull := convex_hull;
     unary_union := union;
     mapping := geo_interface;
     CRS_new := new_crs;
     CRS_from_proj4 := fun s => inr {| crs_definition := s |};
     CRS_to_string := crs_definition;
     crs_eqb := crs_equal;
     is_geographic := geographic;
     pyproj_transform := fun _ _ g => inr g;
     window_transform := shift;
     shapes := vectorize (stutters b);
     completion_order := @rev _;
     completion_order_perm :=
       fun tiles => Permutation_sym (Permutation_rev tiles);
     gdal_Warp := warp (warp_works b);
     run_process := run (cli_works b);
     NamedTemporaryFile_name := fun suffix _ => "/tmp/tmpcutline" +:+ suffix;
     os_remove_error :=
       fun _ _ =>
         if removal_refused b
         then Some "PermissionError: [Errno 13] Permission denied"
         else None |}.

(** Everything works. *)
Definition sound : Collaborators :=
  engine {| warp_works := true; cli_works := true; stutters := false;
            removal_refused := false |}.

(** The warp and its fallback both fail. *)
Definition failing_warp : Collaborators :=
  engine {| warp_works := false; cli_works := false; stutters := false;
            removal_refused := false |}.

(** The vectorizer stutters. *)
Definition stuttering : Collaborators :=
  engine {| warp_works := true; cli_works := true; stutters := true;
            removal_refused := false |}.

(** The operating system lets no file be removed. *)
Definition read_only : Collaborators :=
  engine {| warp_works := true; cli_works := true; stutters := false;
            removal_refused := true |}.

(** *** Sample data *)

Definition rectangle (x0 y0 x1 y1 : Z) : polygon :=
  box (PyFloat.of_Z x0) (PyFloat.of_Z y0) (PyFloat.of_Z x1) (PyFloat.of_Z y1).

(** Three points on a line, closed: a polygon without area. *)
Definition sliver : polygon :=
  {| exterior := [pt 0 0; pt 1 0; pt 2 0; pt 0 0]; interiors := [] |}.

(** A square with a vertex repeated in place. *)
Definition stuttering_square : polygon :=
  {| exterior := [pt 0 0; pt 1 0; pt 1 0; pt 1 1; pt 0 1; pt 0 0];
     interiors := [] |}.

Definition identity_transform : affine :=
  {| af_a := PyFloat.of_Z 1; af_b := PyFloat.of_Z 0; af_c := PyFloat.of_Z 0;
     af_d := PyFloat.of_Z 0; af_e := PyFloat.of_Z 1; af_f := PyFloat.of_Z 0 |}.

(** A transform that maps every pixel to one point. *)
Definition collapsed_transform : affine :=
  {| af_a := PyFloat.of_Z 0; af_b := PyFloat.of_Z 0; af_c := PyFloat.of_Z 0;
     af_d := PyFloat.of_Z 0; af_e := PyFloat.of_Z 0; af_f := PyFloat.of_Z 0 |}.

(** A 5 by 3 RGBA raster whose alpha band has the given value everywhere. *)
Definition flat_raster (alpha : Z) (t : affine) : Raster :=
  {| r_width := 5; r_height := 3; r_count := 4;
     r_band := fun band _ _ => if band =? 4 then alpha else 128;
     r_crs := Some {| crs_definition := "EPSG:32721" |};
     r_transform := t |}.

Definition host (r : Raster) (cores : Z) : World :=
  {| fs := {[ "mosaic.tif" := RasterFile r ]}; cpu_count := cores |}.

(** What the workers of an engine return for the sample raster, in tiles of
    2 by 2 pixels. *)
Definition extracted (E : Collaborators) (w : World) : list geometry :=
  match @extract_polygons E "mosaic.tif" 2 w with
  | Ok polys => polys
  | Err _ => []
  end.

(** The world after the boundary file of a region was written. *)
Definition after_cutline (E : Collaborators) (geom : geometry)
    (geom_crs : crs_input) (w : World) : World :=
  snd (@geom_to_geojson_path E geom geom_crs w).

End Fixture.

(** ** More sample data *)
Module Samples.

(** A 5 by 3 RGB raster: no alpha band. *)
Definition rgb_raster : Raster :=
  {| r_width := 5; r_height := 3; r_count := 3;
     r_band := fun _ _ _ => 128;
     r_crs := Some {| crs_definition := "EPSG:32721" |};
     r_transform := Fixture.identity_transform |}.

Definition opaque_host : World :=
  Fixture.host (Fixture.flat_raster 255 Fixture.identity_transform) 4.

Definition transparent_host : World :=
  Fixture.host (Fixture.flat_raster 0 Fixture.identity_transform) 4.

(** A stand-in for [a.within(b)]: the bounding box of [a] lies in that of
    [b]. *)
Definition inside (a b : polygon) : bool :=
  match Fixture.bounds (exterior a), Fixture.bounds (exterior b) with
  | Some (ax0, ay0, ax1, ay1), Some (bx0, by0, bx1, by1) =>
      negb (PyFloat.ltb ax0 bx0) && negb (PyFloat.ltb ay0 by0)
      && negb (PyFloat.ltb bx1 ax1) && negb (PyFloat.ltb by1 ay1)
  | _, _ => false
  end.

(** A square with a square hole. *)
Definition ring_square : polygon :=
  {| exterior := exterior (Fixture.rectangle 0 0 10 10);
     interiors := [exterior (Fixture.rectangle 4 4 6 6)] |}.

(** A 10 by 10 square, and the projected CRS it is in. *)
Definition square : geometry := Polygon (Fixture.rectangle 0 0 10 10).

Definition utm_21s : CRS := {| crs_definition := "EPSG:32721" |}.

Definition wgs84 : CRS := {| crs_definition := "EPSG:4326" |}.

(** The smallest positive float, [5e-324]. *)
Definition smallest_positive : float := S754_finite false 1 (-1074).

(** Two squares apart from each other, the second the larger. *)
Definition two_squares : list polygon :=
  [Fixture.rectangle 0 0 1 1; Fixture.rectangle 5 5 8 8].

(** A host on which [/data] is the only directory. *)
Definition only_data (path : string) : bool := String.eqb path "/data".

End Samples.
(** * Properties *)

(** ** Tiling *)

Lemma filter_seq_none (f : nat -> bool) (start len : nat) :
  (forall i, (start <= i < start + len)%nat -> f i = false) ->
  List.filter f (seq start len) = [].
Proof.
  revert start. induction len as [|len IH]; intros start Hf; [reflexivity|].
  cbn [seq List.filter]. rewrite Hf by lia. apply IH. intros i Hi. apply Hf. lia.
Qed.

Lemma filter_seq_unique (f : nat -> bool) (n k : nat) :
  (k < n)%nat -> f k = true ->
  (forall i, (i < n)%nat -> i <> k -> f i = false) ->
  List.filter f (seq 0 n) = [k].
Proof.
  intros Hk Hfk Hother.
  replace n with (k + S (n - S k))%nat by lia.
  rewrite seq_app, List.filter_app. cbn [seq List.filter Nat.add]. rewrite Hfk.
  rewrite !filter_seq_none; [reflexivity| |]; intros i Hi; apply Hother; lia.
Qed.

Lemma filter_map_length {A B} (g : A -> B) (P : B -> bool) (l : list A) :
  length (List.filter P (map g l)) = length (List.filter (fun a => P (g a)) l).
Proof.
  induction l as [|a l IH]; [reflexivity|].
  cbn [map List.filter]. destruct (P (g a)); cbn [length]; congruence.
Qed.

Lemma range_from_zero (stop step : Z) :
  0 < step -> 0 < stop ->
  range 0 stop step
  = Ok (map (fun i => 0 + Z.of_nat i * step)
          (seq 0 (Z.to_nat ((stop - 1) / step + 1)))).
Proof.
  intros Hstep Hstop. unfold range, range_length.
  destruct (Z.eqb_spec step 0) as [->|_]; [lia|].
  destruct (Z.ltb_spec 0 step); [|lia].
  destruct (Z.ltb_spec 0 stop); [|lia].
  repeat f_equal. lia.
Qed.

(** Every position below [stop] lies in exactly one interval. *)
Lemma span_unique (stop block_size p : Z) :
  0 < block_size -> 0 <= p < stop ->
  length
    (List.filter (in_span stop block_size p)
       (map (fun i => 0 + Z.of_nat i * block_size)
          (seq 0 (Z.to_nat ((stop - 1) / block_size + 1)))))
  = 1%nat.
Proof.
  intros Hbs Hp. rewrite filter_map_length.
  rewrite (filter_seq_unique _ _ (Z.to_nat (p / block_size))); [reflexivity| | |].
  - assert (p / block_size <= (stop - 1) / block_size)
      by (apply Z.div_le_mono; lia).
    assert (0 <= p / block_size) by (apply Z.div_pos; lia). lia.
  - assert (0 <= p / block_size) by (apply Z.div_pos; lia).
    unfold in_span. rewrite Z2Nat.id by lia.
    pose proof (Z.mul_div_le p block_size Hbs).
    pose proof (Z.mul_succ_div_gt p block_size Hbs).
    apply andb_true_intro; split; [apply Z.leb_le|apply Z.ltb_lt]; lia.
  - intros i Hi Hne. unfold in_span.
    assert (0 <= p / block_size) by (apply Z.div_pos; lia).
    apply andb_false_iff.
    destruct (Z.leb_spec (0 + Z.of_nat i * block_size) p) as [Hle|]; [right|left; reflexivity].
    apply Z.ltb_ge.
    assert (Z.of_nat i <> p / block_size) by lia.
    assert (Z.of_nat i <= p / block_size)
      by (apply Z.div_le_lower_bound; lia).
    assert (Z.of_nat i + 1 <= p / block_size) by lia.
    pose proof (Z.mul_div_le p block_size Hbs). nia.
Qed.

(** No interval reaches a position outside [0, stop). *)
Lemma span_inside (stop block_size p : Z) (i : nat) :
  0 < block_size -> 0 < stop ->
  (i < Z.to_nat ((stop - 1) / block_size + 1))%nat ->
  let x := 0 + Z.of_nat i * block_size in
  0 <= x /\ 0 < Z.min block_size (stop - x) <= block_size
  /\ x + Z.min block_size (stop - x) <= stop.
Proof.
  intros Hbs Hstop Hi x.
  assert (0 <= (stop - 1) / block_size) by (apply Z.div_pos; lia).
  assert (Z.of_nat i <= (stop - 1) / block_size) by lia.
  pose proof (Z.mul_div_le (stop - 1) block_size Hbs).
  assert (x <= stop - 1) by (subst x; nia).
  subst x. lia.
Qed.

(** The count over the product of the two loops is the product of the
    counts. *)
Lemma grid_count (path : string) (W H bs col row : Z) (xs ys : list Z) :
  length
    (tiles_covering
       (flat_map
          (fun y =>
             map (fun x =>
                    (path,
                     {| col_off := x; row_off := y;
                        width := Z.min bs (W - x);
                        height := Z.min bs (H - y) |}))
               xs)
          ys)
       col row)
  = (length (List.filter (in_span W bs col) xs)
     * length (List.filter (in_span H bs row) ys))%nat.
Proof.
  unfold tiles_covering.
  induction ys as [|y ys IH]; cbn [flat_map]; [cbn; lia|].
  rewrite List.filter_app, length_app, IH. cbn [List.filter].
  assert (Hrow :
    length
      (List.filter (fun t => covers (snd t) col row)
         (map (fun x =>
                 (path,
                  {| col_off := x; row_off := y;
                     width := Z.min bs (W - x);
                     height := Z.min bs (H - y) |}))
            xs))
    = if in_span H bs row y
      then length (List.filter (in_span W bs col) xs) else 0%nat).
  { clear IH. induction xs as [|x xs IHx]; cbn [map List.filter].
    - destruct (in_span H bs row y); reflexivity.
    - unfold covers at 1. cbn [snd col_off row_off width height].
      fold (in_span W bs col x). fold (in_span H bs row y).
      destruct (in_span H bs row y), (in_span W bs col x);
        cbn [andb length]; rewrite IHx; reflexivity. }
  rewrite Hrow. destruct (in_span H bs row y); cbn [length]; lia.
Qed.

(** C2. For every positive raster width, height and block size the tile list
    is built without error and partitions the raster grid: every pixel of the
    raster lies in exactly one listed window (so the windows cover the raster
    and no two of them overlap), and every window is non-empty, no larger
    than a block and lies inside the raster, so the windows of the last row
    and column are clipped to the raster's size and never reach beyond it. *)
Theorem make_tiles_partition (path : string) (raster_width raster_height block_size : Z) :
  0 < raster_width -> 0 < raster_height -> 0 < block_size ->
  exists tiles,
    make_tiles path raster_width raster_height block_size = Ok tiles
    /\ (forall col row,
          0 <= col < raster_width -> 0 <= row < raster_height ->
          length (tiles_covering tiles col row) = 1%nat)
    /\ (forall t, In t tiles ->
          fst t = path
          /\ clipped (snd t) raster_width raster_height block_size)
    /\ (forall t col row, In t tiles -> covers (snd t) col row = true ->
          0 <= col < raster_width /\ 0 <= row < raster_height).
Proof.
  intros HW HH Hbs. unfold make_tiles.
  rewrite (range_from_zero raster_height block_size Hbs HH).
  rewrite (range_from_zero raster_width block_size Hbs HW).
  cbn [rbind]. eexists; split; [reflexivity|].
  assert (Hin : forall t,
    In t
      (flat_map
         (fun y =>
            map (fun x =>
                   (path,
                    {| col_off := x; row_off := y;
                       width := Z.min block_size (raster_width - x);
                       height := Z.min block_size (raster_height - y) |}))
              (map (fun i => 0 + Z.of_nat i * block_size)
                 (seq 0 (Z.to_nat ((raster_width - 1) / block_size + 1)))))
         (map (fun i => 0 + Z.of_nat i * block_size)
            (seq 0 (Z.to_nat ((raster_height - 1) / block_size + 1))))) ->
    fst t = path /\ clipped (snd t) raster_width raster_height block_size).
  { intros t Ht. apply in_flat_map in Ht as (y & Hy & Ht).
    apply in_map_iff in Ht as (x & <- & Hx).
    apply in_map_iff in Hy as (j & <- & Hj). apply in_map_iff in Hx as (i & <- & Hi).
    apply in_seq in Hi, Hj.
    pose proof (span_inside raster_width block_size 0 i Hbs HW ltac:(lia)) as Hxi.
    pose proof (span_inside raster_height block_size 0 j Hbs HH ltac:(lia)) as Hyj.
    cbv zeta in Hxi, Hyj. unfold clipped. cbn [fst snd col_off row_off width height].
    split; [reflexivity|]. intuition lia. }
  split; [|split].
  - intros col row Hcol Hrow. rewrite grid_count.
    rewrite (span_unique raster_width block_size col Hbs Hcol).
    rewrite (span_unique raster_height block_size row Hbs Hrow). reflexivity.
  - exact Hin.
  - intros t col row Ht Hc. destruct (Hin t Ht) as [_ Hclip].
    unfold clipped in Hclip. unfold covers in Hc.
    apply andb_prop in Hc as [Hc1 Hc2].
    apply andb_prop in Hc1 as [H1 H2]. apply andb_prop in Hc2 as [H3 H4].
    apply Z.leb_le in H1, H3. apply Z.ltb_lt in H2, H4. lia.
Qed.

(** A 5000 by 3000 raster in blocks of 2048. *)
Lemma make_tiles_partition_witness :
  (0 < 5000 /\ 0 < 3000 /\ 0 < 2048)
  /\ exists tiles,
       make_tiles "mosaic.tif" 5000 3000 2048 = Ok tiles
       /\ (forall col row,
             0 <= col < 5000 -> 0 <= row < 3000 ->
             length (tiles_covering tiles col row) = 1%nat)
       /\ (forall t, In t tiles ->
             fst t = "mosaic.tif" /\ clipped (snd t) 5000 3000 2048)
       /\ (forall t col row, In t tiles -> covers (snd t) col row = true ->
             0 <= col < 5000 /\ 0 <= row < 3000).
Proof.
  split; [lia|].
  apply (make_tiles_partition "mosaic.tif" 5000 3000 2048); lia.
Defined.

(** The six windows of that raster: the last column is 904 wide and the last
    row 952 high. *)
Example make_tiles_5000_3000 :
  make_tiles "mosaic.tif" 5000 3000 2048
  = Ok (map (pair "mosaic.tif")
          [mkWindow 0 0 2048 2048; mkWindow 2048 0 2048 2048;
           mkWindow 4096 0 904 2048; mkWindow 0 2048 2048 952;
           mkWindow 2048 2048 2048 952; mkWindow 4096 2048 904 952]).
Proof. vm_compute. reflexivity. Qed.

(** ** Floats *)

(** [<] on floats is transitive (a [nan] is below and above nothing). *)
Lemma ltb_trans (a b c : float) :
  PyFloat.ltb a b = true -> PyFloat.ltb b c = true -> PyFloat.ltb a c = true.
Proof.
  unfold PyFloat.ltb, SFltb, SFcompare.
  destruct a as [sa|sa| |sa ma ea], b as [sb|sb| |sb mb eb],
    c as [sc|sc| |sc mc ec];
    try destruct sa; try destruct sb; try destruct sc;
    try discriminate; try reflexivity;
    change (Pos.compare_cont Eq ma mb) with (Pos.compare ma mb);
    change (Pos.compare_cont Eq mb mc) with (Pos.compare mb mc);
    change (Pos.compare_cont Eq ma mc) with (Pos.compare ma mc);
    destruct (Z.compare_spec ea eb), (Z.compare_spec eb ec),
      (Z.compare_spec ea ec);
    try discriminate; try reflexivity; try lia;
    destruct (Pos.compare_spec ma mb), (Pos.compare_spec mb mc),
      (Pos.compare_spec ma mc);
    cbn; try discriminate; try reflexivity; lia.
Qed.

Lemma ltb_irrefl (a : float) : PyFloat.ltb a a = false.
Proof.
  unfold PyFloat.ltb, SFltb, SFcompare.
  destruct a as [s|s| |s m e]; try destruct s; try reflexivity;
    rewrite Z.compare_refl;
    change (Pos.compare_cont Eq m m) with (Pos.compare m m);
    rewrite Pos.compare_refl; reflexivity.
Qed.

(** [max(items, key=key)] returns one of the items, and no item has a
    larger key. *)
Lemma py_max_from_spec {A} (key : A -> float) (items : list A) (best : A) :
  let r := py_max_from key best items in
  (r = best \/ (In r items /\ PyFloat.ltb (key best) (key r) = true))
  /\ (forall x, In x items -> PyFloat.ltb (key r) (key x) = false).
Proof.
  revert best. induction items as [|x rest IH]; intros best; cbn [py_max_from].
  - split; [left; reflexivity|intros x []].
  - unfold PyFloat.gtb. destruct (PyFloat.ltb (key best) (key x)) eqn:Hlt.
    + destruct (IH x) as [Hr Hmax]. split.
      * right. destruct Hr as [->|[Hin Hgt]].
        -- split; [left; reflexivity|exact Hlt].
        -- split; [right; exact Hin|exact (ltb_trans _ _ _ Hlt Hgt)].
      * intros y [<-|Hy]; [|apply Hmax, Hy].
        destruct Hr as [->|[_ Hgt]]; [apply ltb_irrefl|].
        destruct (PyFloat.ltb (key (py_max_from key x rest)) (key x)) eqn:Hback;
          [|reflexivity].
        pose proof (ltb_trans _ _ _ Hgt Hback) as Hxx.
        rewrite ltb_irrefl in Hxx. discriminate.
    + destruct (IH best) as [Hr Hmax]. split.
      * destruct Hr as [->|[Hin Hgt]]; [left; reflexivity|].
        right. split; [right; exact Hin|exact Hgt].
      * intros y [<-|Hy]; [|apply Hmax, Hy].
        destruct Hr as [->|[_ Hgt]]; [exact Hlt|].
        destruct (PyFloat.ltb (key (py_max_from key best rest)) (key x)) eqn:Hback;
          [|reflexivity].
        rewrite (ltb_trans _ _ _ Hgt Hback) in Hlt. discriminate.
Qed.

Lemma py_max_spec {A} (key : A -> float) (items : list A) (r : A) :
  py_max key items = Ok r ->
  In r items /\ forall x, In x items -> PyFloat.ltb (key r) (key x) = false.
Proof.
  destruct items as [|x rest]; cbn [py_max]; [discriminate|].
  intros [= <-]. destruct (py_max_from_spec key rest x) as [Hr Hmax].
  cbv zeta in Hr, Hmax. split.
  - destruct Hr as [->|[Hin _]]; [left; reflexivity|right; exact Hin].
  - intros y [<-|Hy]; [|apply Hmax, Hy].
    destruct Hr as [->|[_ Hgt]]; [apply ltb_irrefl|].
    destruct (PyFloat.ltb (key (py_max_from key x rest)) (key x)) eqn:Hback;
      [|reflexivity].
    pose proof (ltb_trans _ _ _ Hgt Hback) as Hxx.
    rewrite ltb_irrefl in Hxx. discriminate.
Qed.

(** The literal [0.20] is the binary64 value 0x3FC999999999999A. *)
Lemma literal_0_20 :
  PyFloat.literal 20 100 = S754_finite false 7205759403792794 (-55).
Proof. vm_compute. reflexivity. Qed.

(** A threshold of zero gives a zero distance, whatever the (finite) area. *)
Lemma buffer_distance_zero_threshold `{Collaborators} (area : float) :
  PyFloat.is_finite area = true ->
  PyFloat.is_zero (buffer_distance area (PyFloat.of_Z 0)) = true.
Proof.
  destruct area as [s|s| |s m e]; try discriminate; intros _;
    destruct s; reflexivity.
Qed.

(** ** The worker count *)

(** From two cores up (checked here up to 4096) the count is at least 1. *)
Lemma num_workers_from_two_cores (cpu_count : Z) :
  2 <= cpu_count <= 4096 ->
  exists n, num_workers cpu_count = Ok n /\ 1 <= n.
Proof.
  intros Hn.
  assert (Hall :
    forallb (fun i => at_least_one_worker (Z.of_nat i)) (seq 2 4095) = true)
    by (vm_compute; reflexivity).
  rewrite forallb_forall in Hall.
  specialize (Hall (Z.to_nat cpu_count)).
  rewrite Z2Nat.id in Hall by lia.
  unfold at_least_one_worker in Hall.
  destruct (num_workers cpu_count) as [n|e].
  - exists n. split; [reflexivity|]. apply Z.leb_le, Hall, in_seq. lia.
  - discriminate Hall. apply in_seq. lia.
Qed.

(** C9, at the input where it fails.  On a host with one core
    [cpu_count() * 0.20] is 0.2, the difference is 0.8 and [int] truncates it
    to 0: the worker count is 0, not at least 1, and a pool of that size is
    refused. *)
Theorem num_workers_one_core :
  num_workers 1 = Ok 0
  /\ Pool 0 = Err (ValueError "Number of processes must be at least 1").
Proof. split; vm_compute; reflexivity. Qed.

(** ** UTM zones *)

(** On whole degrees of longitude the program's [int(...)] agrees with the
    documented [floor((longitude + 180) / 6) + 1]. *)
Lemma utm_zone_whole_degrees (lon : Z) :
  -180 <= lon <= 180 ->
  utm_zone (PyFloat.of_Z lon) = Ok ((lon + 180) / 6 + 1).
Proof.
  intros Hlon.
  assert (Hall :
    forallb
      (fun i =>
         match utm_zone (PyFloat.of_Z (Z.of_nat i - 180)) with
         | Ok z => z =? (Z.of_nat i - 180 + 180) / 6 + 1
         | Err _ => false
         end)
      (seq 0 361) = true)
    by (vm_compute; reflexivity).
  rewrite forallb_forall in Hall.
  specialize (Hall (Z.to_nat (lon + 180))).
  rewrite Z2Nat.id in Hall by lia.
  replace (lon + 180 - 180) with lon in Hall by lia.
  destruct (utm_zone (PyFloat.of_Z lon)) as [z|e].
  - f_equal. apply Z.eqb_eq, Hall, in_seq. lia.
  - discriminate Hall. apply in_seq. lia.
Qed.

(** C3 as stated fails: at a centroid longitude of -60 degrees the zone the
    program computes is not 18. *)
Lemma utm_zone_minus_60_not_18 :
  utm_zone (PyFloat.of_Z (-60)) <> Ok 18.
Proof. vm_compute. discriminate. Qed.

Section Properties.

Context `{Collaborators}.

(** ** Geometry repair *)

Lemma filter_nil_iff {A} (f : A -> bool) (l : list A) :
  List.filter f l = [] <-> forall x, In x l -> f x = false.
Proof.
  induction l as [|a l IH]; cbn [List.filter].
  - split; [intros _ x []|reflexivity].
  - destruct (f a) eqn:Hfa.
    + split; [discriminate|]. intros Hall.
      rewrite (Hall a (or_introl eq_refl)) in Hfa. discriminate.
    + rewrite IH. split.
      * intros Hall x [<-|Hx]; [exact Hfa|apply Hall, Hx].
      * intros Hall x Hx. apply Hall. right. exact Hx.
Qed.

Lemma lift_lib_not_raised {A} (r : string + A) (e : exn) :
  lift_lib r = Err e -> exists msg, e = CollaboratorError msg.
Proof. destruct r as [msg|a]; cbn; [intros [= <-]; eauto|discriminate]. Qed.

(** C10. [ensure_valid_geometry] never raises for a [Polygon]: a valid one
    with positive area is returned unchanged, any other is returned as the
    result of a zero-width buffer, whatever that is.  The function's own
    [RuntimeError] is raised exactly for a [MultiPolygon] none of whose
    components has positive area, and its [TypeError] exactly for a geometry
    that is neither a [Polygon] nor a [MultiPolygon]. *)
Theorem ensure_valid_geometry_outcomes :
  (forall p e, ensure_valid_geometry (Polygon p) <> Err e)
  /\ (forall p,
        geom_is_valid (Polygon p) = true ->
        PyFloat.gtb (geom_area (Polygon p)) (PyFloat.of_Z 0) = true ->
        ensure_valid_geometry (Polygon p) = Ok (Polygon p))
  /\ (forall p,
        geom_is_valid (Polygon p) = false \/ no_positive_area p ->
        ensure_valid_geometry (Polygon p)
        = Ok (geom_buffer (Polygon p) (PyFloat.of_Z 0) default_buffer_args))
  /\ (forall geom msg,
        ensure_valid_geometry geom = Err (RuntimeError msg)
        <-> exists geoms,
              geom = MultiPolygon geoms
              /\ (forall p, In p geoms -> no_positive_area p)
              /\ msg = "All polygons have zero area after cleanup.")
  /\ (forall geom,
        is_Polygon geom = false -> is_MultiPolygon geom = false ->
        ensure_valid_geometry geom
        = Err (TypeError ("Unsupported geometry type: " +:+ type_repr geom)))
  /\ (forall geom msg,
        ensure_valid_geometry geom = Err (TypeError msg) ->
        is_Polygon geom = false /\ is_MultiPolygon geom = false).
Proof.
  refine (conj _ (conj _ (conj _ (conj _ (conj _ _))))).
  - intros p e. cbn [ensure_valid_geometry].
    destruct (geom_is_valid (Polygon p) && _); discriminate.
  - intros p Hv Ha. cbn [ensure_valid_geometry]. rewrite Hv, Ha. reflexivity.
  - intros p Hbad. cbn [ensure_valid_geometry]. unfold no_positive_area in Hbad.
    destruct Hbad as [-> | ->]; [reflexivity|]. rewrite andb_false_r. reflexivity.
  - intros geom msg. split.
    + destruct geom as [p|geoms|t cs]; cbn [ensure_valid_geometry].
      * destruct (geom_is_valid (Polygon p) && _); discriminate.
      * destruct (List.filter _ geoms) as [|q qs] eqn:Hf.
        -- intros [= <-]. exists geoms. split; [reflexivity|]. split; [|reflexivity].
           intros p Hp. exact (proj1 (filter_nil_iff _ _) Hf p Hp).
        -- intros Hu. apply lift_lib_not_raised in Hu as [m Hm]. discriminate.
      * discriminate.
    + intros (geoms & -> & Hall & ->). cbn [ensure_valid_geometry].
      rewrite (proj2 (filter_nil_iff _ geoms) Hall). reflexivity.
  - destruct geom; cbn; intros; try discriminate; reflexivity.
  - intros geom msg.
    destruct geom as [p|geoms|t cs]; cbn [ensure_valid_geometry];
      [destruct (geom_is_valid (Polygon p) && _); discriminate| |split; reflexivity].
    destruct (List.filter _ geoms); [discriminate|].
    intros Hu. apply lift_lib_not_raised in Hu as [m Hm]. discriminate.
Qed.

(** ** Extraction and merge *)

Lemma clean_and_merge_cleaned (polys : list geometry) :
  final_cleaning polys <> [] ->
  clean_and_merge polys = merge_polygons (final_cleaning polys).
Proof.
  intros Hne. unfold clean_and_merge.
  destruct polys as [|p rest]; [contradiction Hne; reflexivity|].
  destruct (final_cleaning (p :: rest)); [contradiction Hne|]; reflexivity.
Qed.

(** C7. When the cleaned list is not empty the result of the stage is the
    union of the cleaned list if that union succeeds; if it raises inside the
    geometry engine, the first exception is dropped and the result is that of
    one more union, over the zero-width buffer of every cleaned geometry:
    its value, or its exception, with no further attempt. *)
Theorem union_retried_once (path : string) (block_size : Z) (w : World)
    (polys cleaned : list geometry) :
  extract_polygons path block_size w = Ok polys ->
  final_cleaning polys = cleaned ->
  cleaned <> [] ->
  (forall merged,
     unary_union cleaned = inr merged ->
     raster_to_polygon_parallel path block_size w = Ok merged)
  /\ (forall msg,
        unary_union cleaned = inl msg ->
        raster_to_polygon_parallel path block_size w
        = lift_lib
            (unary_union
               (map (fun g =>
                       geom_buffer g (PyFloat.of_Z 0) default_buffer_args)
                  cleaned))).
Proof.
  intros Hex <- Hne. unfold raster_to_polygon_parallel. rewrite Hex.
  cbn [rbind]. rewrite (clean_and_merge_cleaned polys Hne).
  unfold merge_polygons. split.
  - intros merged ->. reflexivity.
  - intros msg ->. reflexivity.
Qed.

Lemma make_tiles_path (path : string) (W H' bs : Z)
    (tiles : list (string * Window)) :
  make_tiles path W H' bs = Ok tiles -> forall t, In t tiles -> fst t = path.
Proof.
  unfold make_tiles. destruct (range 0 H' bs) as [ys|]; [|discriminate].
  destruct (range 0 W bs) as [xs|]; [|discriminate]. cbn [rbind].
  intros [= <-] t Ht. apply in_flat_map in Ht as (y & _ & Ht).
  apply in_map_iff in Ht as (x & <- & _). reflexivity.
Qed.

Lemma np_any_zero (rows : list (list Z)) :
  (forall row, In row rows -> forall v, In v row -> v = 0) ->
  np_any rows = false.
Proof.
  intros Hz. unfold np_any. apply not_true_is_false. intros Hex.
  apply existsb_exists in Hex as (row & Hrow & Hex).
  apply existsb_exists in Hex as (v & Hv & Hnz).
  rewrite (Hz row Hrow v Hv) in Hnz. discriminate.
Qed.

(** A tile of a raster whose alpha band is zero everywhere yields nothing. *)
Lemma shapes_of_transparent_tile (path : string) (window : Window)
    (w : World) (src : Raster) :
  rasterio_open path w = Ok src ->
  4 <= r_count src ->
  (forall row col, r_band src 4 row col = 0) ->
  _shapes_from_tile_alpha (path, window) w = Ok [].
Proof.
  intros Hopen Hcount Hzero. unfold _shapes_from_tile_alpha.
  rewrite Hopen. cbn [rbind]. unfold raster_read.
  destruct (Z.ltb_spec 4 1); [lia|].
  destruct (Z.ltb_spec (r_count src) 4); [lia|]. cbn [orb rbind].
  rewrite np_any_zero; [reflexivity|].
  intros row Hrow v Hv. apply in_map_iff in Hrow as (i & <- & _).
  apply in_map_iff in Hv as (j & <- & _). apply Hzero.
Qed.

Lemma collect_results_transparent (path : string) (w : World) (src : Raster)
    (tiles : list (string * Window)) :
  rasterio_open path w = Ok src ->
  4 <= r_count src ->
  (forall row col, r_band src 4 row col = 0) ->
  (forall t, In t tiles -> fst t = path) ->
  collect_results tiles w = Ok [].
Proof.
  intros Hopen Hcount Hzero. induction tiles as [|[p window] rest IH];
    intros Hpath; [reflexivity|].
  cbn [collect_results].
  assert (p = path) as -> by exact (Hpath (p, window) (or_introl eq_refl)).
  rewrite (shapes_of_transparent_tile path window w src Hopen Hcount Hzero).
  cbn [rbind]. rewrite IH; [reflexivity|].
  intros t Ht. apply Hpath. right. exact Ht.
Qed.

(** On a host with one core the pool is refused, whatever the raster. *)
Lemma single_core_pool_refused (path : string) (block_size : Z) (w : World)
    (polys : list geometry) :
  cpu_count w = 1 -> extract_polygons path block_size w <> Ok polys.
Proof.
  intros Hcpu. unfold extract_polygons.
  destruct (rasterio_open path w); [|discriminate]. cbn [rbind].
  destruct (make_tiles _ _ _ _); [|discriminate]. cbn [rbind].
  rewrite Hcpu. change (num_workers 1) with (Ok (A := Z) 0). discriminate.
Qed.

(** C5. The stage raises its own [RuntimeError] when the workers returned no
    polygon at all, and when they returned some but none survives the
    cleaning loop.  A raster whose alpha band is zero everywhere is a case of
    the first kind (for a non-zero block size, a band 4 to read and a pool of
    at least one worker).  Whenever the stage raises, the pipeline ends with
    an exception in the world it started in: no file is written, so no output
    raster. *)
Theorem extraction_failures_are_explicit :
  (forall path block_size w,
     extract_polygons path block_size w = Ok [] ->
     raster_to_polygon_parallel path block_size w
     = Err (RuntimeError
              "No polygons extracted from raster (alpha mask may be empty)."))
  /\ (forall path block_size w polys,
        extract_polygons path block_size w = Ok polys ->
        polys <> [] ->
        final_cleaning polys = [] ->
        raster_to_polygon_parallel path block_size w
        = Err (RuntimeError "Polygon list empty after cleaning."))
  /\ (forall path block_size w src n,
        rasterio_open path w = Ok src ->
        4 <= r_count src ->
        (forall row col, r_band src 4 row col = 0) ->
        block_size <> 0 ->
        num_workers (cpu_count w) = Ok n -> 1 <= n ->
        extract_polygons path block_size w = Ok [])
  /\ (forall input_file output_file threshold w e,
        raster_to_polygon_parallel input_file 2048 w = Err e ->
        exists e',
          crop_mosaic_by_polygon input_file output_file threshold w
          = (Err e', w)
          /\ (forall src c,
                rasterio_open input_file w = Ok src -> r_crs src = Some c ->
                e' = e)).
Proof.
  refine (conj _ (conj _ (conj _ _))).
  - intros path bs w Hex. unfold raster_to_polygon_parallel. rewrite Hex.
    reflexivity.
  - intros path bs w polys Hex Hne Hclean. unfold raster_to_polygon_parallel.
    rewrite Hex. cbn [rbind]. unfold clean_and_merge.
    destruct polys; [contradiction Hne; reflexivity|]. rewrite Hclean.
    reflexivity.
  - intros path bs w src n Hopen Hcount Hzero Hbs Hn Hn1.
    unfold extract_polygons. rewrite Hopen. cbn [rbind].
    destruct (make_tiles path (r_width src) (r_height src) bs) as [tiles|e]
      eqn:Htiles.
    + cbn [rbind]. rewrite Hn. cbn [rbind]. unfold Pool.
      destruct (Z.ltb_spec n 1); [lia|]. cbn [rbind].
      apply (collect_results_transparent path w src _ Hopen Hcount Hzero).
      intros t Ht. apply (make_tiles_path _ _ _ _ _ Htiles).
      apply (Permutation_in _ (completion_order_perm tiles)). exact Ht.
    + unfold make_tiles, range in Htiles.
      destruct (Z.eqb_spec bs 0); [contradiction|]. discriminate.
  - intros input output thr w e Hfail.
    unfold crop_mosaic_by_polygon, mbind, mlift_of.
    destruct (rasterio_open input w) as [src|e0] eqn:Hopen; cbn [rbind].
    + destruct (r_crs src) as [c|] eqn:Hcrs.
      * rewrite Hfail. exists e. split; [reflexivity|]. reflexivity.
      * eexists. split; [reflexivity|]. intros src' c' [= <-]. congruence.
    + eexists. split; [reflexivity|]. discriminate.
Qed.

(** ** The metric buffer *)

Lemma reproject_geom_objects (geom geom' : geometry) (src dst : CRS) :
  reproject_geom geom (CrsObj src) (CrsObj dst) = Ok geom'
  <-> reprojected src dst geom geom'.
Proof.
  unfold reproject_geom, reprojected. cbn [from_user_input rbind].
  destruct (crs_eqb src dst).
  - split; [intros [= ->]; reflexivity|intros ->; reflexivity].
  - destruct (pyproj_transform src dst geom) as [msg|g]; cbn [lift_lib].
    + split; discriminate.
    + split; [intros [= ->]; reflexivity|intros [= ->]; reflexivity].
Qed.

Lemma is_finite_opp (x : float) :
  PyFloat.is_finite (PyFloat.opp x) = PyFloat.is_finite x.
Proof. destruct x; reflexivity. Qed.

Lemma buffer_finite (geom : geometry) (distance : float) (args : buffer_args) :
  PyFloat.is_finite distance = true ->
  buffer geom (PyFloat.opp distance) args
  = Ok (geom_buffer geom (PyFloat.opp distance) args).
Proof. intros Hd. unfold buffer. rewrite is_finite_opp, Hd. reflexivity. Qed.

Lemma buffer_not_finite (geom : geometry) (distance : float)
    (args : buffer_args) :
  PyFloat.is_finite distance = false ->
  buffer geom (PyFloat.opp distance) args
  = Err (ValueError "buffer distance must be finite").
Proof. intros Hd. unfold buffer. rewrite is_finite_opp, Hd. reflexivity. Qed.

(** What is left of [compute_negative_buffer] once the region is in the
    metric CRS. *)
Lemma compute_negative_buffer_from_metric (geom : geometry)
    (threshold : float) (geom_crs : crs_input) (src_crs metric_crs : CRS)
    (geom_metric : geometry) :
  from_user_input geom_crs = Ok src_crs ->
  select_metric_crs src_crs geom = Ok metric_crs ->
  reprojected src_crs metric_crs geom geom_metric ->
  compute_negative_buffer geom threshold geom_crs
  = (buffered <-
       buffer geom_metric
         (PyFloat.opp (buffer_distance (geom_area geom_metric) threshold))
         {| resolution := 8; single_sided := false |} ;;
     buffered_back <-
       reproject_geom buffered (CrsObj metric_crs) (CrsObj src_crs) ;;
     ensure_valid_geometry buffered_back)%result.
Proof.
  intros Hsrc Hmetric Hto. apply reproject_geom_objects in Hto.
  unfold compute_negative_buffer. rewrite Hsrc. cbn [rbind].
  rewrite Hmetric. cbn [rbind]. rewrite Hto. reflexivity.
Qed.

(** C1. [compute_negative_buffer] returns a region exactly when the
    following steps succeed, and then returns what the last one gives: the
    region is taken from the source CRS to the selected metric CRS; [area] is
    its area there; the distance is [(area * threshold) / 100], which has to
    be a finite number for the buffer to accept it; the region in the metric
    CRS is buffered by minus that distance with 8 segments per quarter circle
    and the default, two-sided offsetting; the buffered region is taken back
    from the metric CRS to the source CRS; and that region is repaired by
    [ensure_valid_geometry].  When the region has reached the metric CRS and
    the distance is not finite, the buffer raises its [ValueError] and
    nothing is taken back or repaired. *)
Theorem compute_negative_buffer_steps (geom : geometry) (threshold : float)
    (geom_crs : crs_input) (result_geom : geometry) :
  (compute_negative_buffer geom threshold geom_crs = Ok result_geom
   <-> exists src_crs metric_crs geom_metric buffered_back,
         from_user_input geom_crs = Ok src_crs
         /\ select_metric_crs src_crs geom = Ok metric_crs
         /\ reprojected src_crs metric_crs geom geom_metric
         /\ PyFloat.is_finite
              (PyFloat.div (PyFloat.mul (geom_area geom_metric) threshold)
                 (PyFloat.of_Z 100))
            = true
         /\ reprojected metric_crs src_crs
              (geom_buffer geom_metric
                 (PyFloat.opp
                    (PyFloat.div
                       (PyFloat.mul (geom_area geom_metric) threshold)
                       (PyFloat.of_Z 100)))
                 {| resolution := 8; single_sided := false |})
              buffered_back
         /\ ensure_valid_geometry buffered_back = Ok result_geom)
  /\ (forall src_crs metric_crs geom_metric,
        from_user_input geom_crs = Ok src_crs ->
        select_metric_crs src_crs geom = Ok metric_crs ->
        reprojected src_crs metric_crs geom geom_metric ->
        PyFloat.is_finite
          (PyFloat.div (PyFloat.mul (geom_area geom_metric) threshold)
             (PyFloat.of_Z 100))
        = false ->
        compute_negative_buffer geom threshold geom_crs
        = Err (ValueError "buffer distance must be finite")).
Proof.
  split; [split|].
  - unfold compute_negative_buffer.
    destruct (from_user_input geom_crs) as [src|] eqn:Hsrc; [|discriminate].
    cbn [rbind].
    destruct (select_metric_crs src geom) as [metric|] eqn:Hmetric;
      [|discriminate].
    cbn [rbind].
    destruct (reproject_geom geom (CrsObj src) (CrsObj metric)) as [gm|]
      eqn:Hto; [|discriminate].
    cbn [rbind single_sided default_buffer_args].
    destruct (PyFloat.is_finite (buffer_distance (geom_area gm) threshold))
      eqn:Hdist.
    + rewrite (buffer_finite _ _ _ Hdist). cbn [rbind].
      destruct (reproject_geom _ (CrsObj metric) (CrsObj src)) as [back|]
        eqn:Hback; [|discriminate].
      cbn [rbind]. intros Hvalid. exists src, metric, gm, back.
      apply reproject_geom_objects in Hto, Hback.
      split; [reflexivity|]. split; [assumption|]. split; [assumption|].
      split; [exact Hdist|]. split; assumption.
    + rewrite (buffer_not_finite _ _ _ Hdist). discriminate.
  - intros (src & metric & gm & back & Hsrc & Hmetric & Hto & Hdist & Hback
            & Hvalid).
    rewrite (compute_negative_buffer_from_metric _ _ _ _ _ _ Hsrc Hmetric Hto).
    rewrite (buffer_finite _ _ _ Hdist). cbn [rbind].
    apply reproject_geom_objects in Hback. unfold buffer_distance.
    rewrite Hback. exact Hvalid.
  - intros src metric gm Hsrc Hmetric Hto Hdist.
    rewrite (compute_negative_buffer_from_metric _ _ _ _ _ _ Hsrc Hmetric Hto).
    rewrite (buffer_not_finite _ _ _ Hdist). reflexivity.
Qed.

(** C6, amended.  Once the region is in the metric CRS, the threshold
    matters only through the distance [(area * threshold) / 100]: at
    threshold 0 and a finite area the distance is a zero; two thresholds
    with the same distance give the same result, whatever it is; and when
    the distance is finite and the buffered region, back in the source CRS,
    is a valid polygon of positive area, that polygon is the result,
    unchanged by the repair, so that its area is what the buffer made it. *)
Theorem negative_buffer_by_distance (geom : geometry) (threshold : float)
    (geom_crs : crs_input) (src_crs metric_crs : CRS)
    (geom_metric : geometry) :
  from_user_input geom_crs = Ok src_crs ->
  select_metric_crs src_crs geom = Ok metric_crs ->
  reprojected src_crs metric_crs geom geom_metric ->
  (PyFloat.is_finite (geom_area geom_metric) = true ->
   PyFloat.is_zero (buffer_distance (geom_area geom_metric) (PyFloat.of_Z 0))
   = true)
  /\ (forall other,
        buffer_distance (geom_area geom_metric) threshold
        = buffer_distance (geom_area geom_metric) other ->
        compute_negative_buffer geom threshold geom_crs
        = compute_negative_buffer geom other geom_crs)
  /\ (forall buffered_back,
        PyFloat.is_finite (buffer_distance (geom_area geom_metric) threshold)
        = true ->
        reprojected metric_crs src_crs
          (geom_buffer geom_metric
             (PyFloat.opp (buffer_distance (geom_area geom_metric) threshold))
             {| resolution := 8; single_sided := false |})
          buffered_back ->
        is_Polygon buffered_back = true ->
        geom_is_valid buffered_back = true ->
        PyFloat.gtb (geom_area buffered_back) (PyFloat.of_Z 0) = true ->
        compute_negative_buffer geom threshold geom_crs = Ok buffered_back).
Proof.
  intros Hsrc Hmetric Hto. split; [|split].
  - intros Hfinite. unfold buffer_distance.
    destruct (geom_area geom_metric) as [s|s| |s m e]; try discriminate;
      destruct s; reflexivity.
  - intros other Hsame.
    rewrite !(compute_negative_buffer_from_metric _ _ _ _ _ _ Hsrc Hmetric Hto).
    rewrite Hsame. reflexivity.
  - intros back Hdist Hback Hpoly Hvalid Harea.
    rewrite (compute_negative_buffer_from_metric _ _ _ _ _ _ Hsrc Hmetric Hto).
    rewrite (buffer_finite _ _ _ Hdist). cbn [rbind].
    apply reproject_geom_objects in Hback. rewrite Hback. cbn [rbind].
    destruct back as [p| |]; try discriminate.
    cbn [ensure_valid_geometry]. rewrite Hvalid, Harea. reflexivity.
Qed.

(** C3, amended. For a region in a geographic CRS whose centroid longitude is
    -60 degrees the zone is [floor((-60 + 180) / 6) + 1 = 21], and the metric
    CRS is the one pyproj builds from the proj4 string of UTM zone 21. *)
Theorem utm_zone_at_minus_60 (src_crs : CRS) (geom : geometry) (lat : float) :
  is_geographic src_crs = true ->
  geom_centroid geom = (PyFloat.of_Z (-60), lat) ->
  utm_zone (PyFloat.of_Z (-60)) = Ok ((-60 + 180) / 6 + 1)
  /\ (-60 + 180) / 6 + 1 = 21
  /\ select_metric_crs src_crs geom
     = lift_lib
         (CRS_from_proj4 "+proj=utm +zone=21 +datum=WGS84 +units=m +no_defs").
Proof.
  intros Hgeo Hcentroid. split; [|split].
  - apply utm_zone_whole_degrees. lia.
  - reflexivity.
  - unfold select_metric_crs, centroid_xy. rewrite Hgeo, Hcentroid.
    change (is_nan (PyFloat.of_Z (-60))) with false. cbn [andb rbind].
    rewrite (utm_zone_whole_degrees (-60)) by lia. reflexivity.
Qed.

(** ** The cutline *)

(** When [geom_to_geojson_path] returns a path, the region was taken to
    EPSG:4326 and repaired by [ensure_valid_geometry], and the cut is the
    repaired region or, when that is a multi-polygon, one of its components
    of largest area; the cut is no multi-polygon, and the file at the
    returned path holds one feature, whose geometry is the cut's.  When it
    raises instead the files are as they were. *)
Lemma geojson_path_outcomes (geom : geometry) (geom_crs : crs_input)
    (w : World) :
  match geom_to_geojson_path geom geom_crs w with
  | (Ok path, w') =>
      exists geom_4326 repaired cut,
        reproject_geom geom geom_crs (CrsStr "EPSG:4326") = Ok geom_4326
        /\ ensure_valid_geometry geom_4326 = Ok repaired
        /\ cutline_of repaired cut
        /\ is_MultiPolygon cut = false
        /\ (is_Polygon repaired || is_MultiPolygon repaired = true ->
            is_Polygon cut = true)
        /\ exists content feature,
             fs w' !! path = Some (JsonFile content)
             /\ features content = Some [feature]
             /\ feature_geometry feature = Some (mapping cut)
  | (Err e, w') => w' = w
  end.
Proof.
  unfold geom_to_geojson_path, mbind, mlift, mlift_of.
  destruct (reproject_geom geom geom_crs (CrsStr "EPSG:4326")) as [g|]
    eqn:Hto; [|reflexivity].
  destruct (ensure_valid_geometry g) as [repaired|] eqn:Hvalid; [|reflexivity].
  destruct (is_MultiPolygon repaired) eqn:Hmulti.
  - destruct repaired as [|geoms|]; try discriminate.
    cbn [largest_polygon].
    destruct (py_max _ geoms) as [maxp|] eqn:Hmax; [|reflexivity].
    cbn [rbind]. apply py_max_spec in Hmax as [Hin Hlargest].
    exists g, (MultiPolygon geoms), (Polygon maxp).
    split; [reflexivity|]. split; [exact Hvalid|].
    split; [exists maxp; auto|]. split; [reflexivity|].
    split; [reflexivity|].
    do 2 eexists. split; [cbn [fs with_fs]; apply lookup_insert_eq|].
    split; reflexivity.
  - exists g, repaired, repaired.
    split; [reflexivity|]. split; [exact Hvalid|].
    split; [destruct repaired; try discriminate; reflexivity|].
    split; [exact Hmulti|]. split.
    + rewrite Hmulti, orb_false_r. auto.
    + do 2 eexists. split; [cbn [fs with_fs]; apply lookup_insert_eq|].
      split; reflexivity.
Qed.

Lemma filter_all {A} (f : A -> bool) (l : list A) :
  Forall (fun x => f x = true) l -> List.filter f l = l.
Proof.
  induction 1 as [|a l Ha _ IH]; cbn [List.filter]; [reflexivity|].
  rewrite Ha, IH. reflexivity.
Qed.

Lemma Forall2_in_r {A B} (R : A -> B -> Prop) (l : list A) (l' : list B)
    (b : B) :
  Forall2 R l l' -> In b l' -> exists a, In a l /\ R a b.
Proof.
  induction 1 as [|a0 b0 l l' Hab _ IH]; intros Hin; [destruct Hin|].
  destruct Hin as [<-|Hin].
  - exists a0. split; [left; reflexivity|exact Hab].
  - destruct (IH Hin) as (a & Ha & HR). exists a. split; [right|]; assumption.
Qed.

Lemma Forall2_in_l {A B} (R : A -> B -> Prop) (l : list A) (l' : list B)
    (a : A) :
  Forall2 R l l' -> In a l -> exists b, In b l' /\ R a b.
Proof.
  induction 1 as [|a0 b0 l l' Hab _ IH]; intros Hin; [destruct Hin|].
  destruct Hin as [<-|Hin].
  - exists b0. split; [left; reflexivity|exact Hab].
  - destruct (IH Hin) as (b & Hb & HR). exists b. split; [right|]; assumption.
Qed.

(** C8. The region is taken to EPSG:4326; when what arrives there is a
    region of the data model (valid, with positive area), a boundary file is
    written, it holds one feature, and the feature's geometry is a polygon:
    the reprojected region itself when that is a polygon, and when it is a
    multi-polygon one of its components, none of which has a larger area.
    [same] relates a component to the polygon the union of the repair hands
    back for it, and is assumed to keep the area. *)
Theorem cutline_is_largest_component (same : polygon -> polygon -> Prop)
    (geom : geometry) (geom_crs : crs_input) (w : World)
    (geom_4326 : geometry) :
  (forall p q,
     same p q -> geom_area (Polygon q) = geom_area (Polygon p)) ->
  reproject_geom geom geom_crs (CrsStr "EPSG:4326") = Ok geom_4326 ->
  valid_region same geom_4326 ->
  exists cut content feature,
    largest_component same geom_4326 cut
    /\ is_Polygon cut = true
    /\ geom_to_geojson_path geom geom_crs w
       = (Ok (NamedTemporaryFile_name ".geojson" w),
          with_fs w
            (<[NamedTemporaryFile_name ".geojson" w := JsonFile content]>
               (fs w)))
    /\ features content = Some [feature]
    /\ feature_geometry feature = Some (mapping cut).
Proof.
  intros Harea Hto Hregion.
  unfold geom_to_geojson_path, mbind, mlift, mlift_of. rewrite Hto.
  destruct geom_4326 as [p|geoms|t coords]; cbn [valid_region] in Hregion.
  - destruct Hregion as [Hvalid Hpositive].
    cbn [ensure_valid_geometry]. rewrite Hvalid, Hpositive.
    cbn [andb is_MultiPolygon].
    exists (Polygon p). do 2 eexists.
    split; [reflexivity|]. split; [reflexivity|].
    split; [reflexivity|]. split; reflexivity.
  - destruct Hregion as (_ & Hne & Hareas & Hunion).
    cbn [ensure_valid_geometry].
    rewrite (filter_all _ _ Hareas).
    destruct geoms as [|p0 rest]; [contradiction|]. clear Hne. cbv iota.
    remember (p0 :: rest) as geoms eqn:Hgeoms in *.
    destruct Hunion as (merged & reordered & Hmerged & Hkind & Hperm & Hsame).
    rewrite Hmerged. cbn [lift_lib].
    assert (Hlargest :
      forall q,
        In q (components merged) ->
        (forall q', In q' (components merged) ->
           PyFloat.ltb (geom_area (Polygon q)) (geom_area (Polygon q')) = false) ->
        largest_component same (MultiPolygon geoms) (Polygon q)).
    { intros q Hq Hmax.
      destruct (Forall2_in_r _ _ _ _ Hsame Hq) as (p & Hp & Hpq).
      exists p, q. split; [reflexivity|].
      split; [apply (Permutation_in _ (Permutation_sym Hperm) Hp)|].
      split; [exact Hpq|].
      intros p' Hp'. apply (Permutation_in _ Hperm) in Hp'.
      destruct (Forall2_in_l _ _ _ _ Hsame Hp') as (q' & Hq' & Hpq').
      rewrite <- (Harea _ _ Hpq), <- (Harea _ _ Hpq'). apply Hmax, Hq'. }
    destruct merged as [q|parts|t coords]; try discriminate;
      cbn [components is_MultiPolygon] in *.
    + exists (Polygon q). do 2 eexists.
      split.
      { apply Hlargest; [left; reflexivity|].
        intros q' [<-|[]]. apply ltb_irrefl. }
      split; [reflexivity|]. split; [reflexivity|]. split; reflexivity.
    + cbn [largest_polygon].
      destruct (py_max (fun g => geom_area (Polygon g)) parts) as [maxq|]
        eqn:Hmax.
      * apply py_max_spec in Hmax as [Hin Hbest]. cbn [rbind].
        exists (Polygon maxq). do 2 eexists.
        split; [apply Hlargest; assumption|].
        split; [reflexivity|]. split; [reflexivity|]. split; reflexivity.
      * exfalso. destruct parts as [|q parts]; [|discriminate].
        inversion Hsame; subst reordered.
        apply Permutation_nil_r in Hperm. congruence.
  - contradiction.
Qed.

(** ** The crop *)

(** The removal that ends [crop_with_mask] never raises: afterwards the
    file is gone, or the operating system refused to remove it and nothing
    changed. *)
Lemma os_remove_swallowed (path : string) (w : World) :
  exists w',
    try_except (os_remove path) (fun _ => mret tt) w = (Ok tt, w')
    /\ (fs w' !! path = None
        \/ (w' = w
            /\ (exists content, fs w !! path = Some content)
            /\ exists msg, os_remove_error path w = Some msg)).
Proof.
  unfold try_except, os_remove. destruct (fs w !! path) as [content|] eqn:Hfile.
  - destruct (os_remove_error path w) as [msg|] eqn:Hrefused.
    + exists w. split; [reflexivity|]. right. eauto.
    + eexists. split; [reflexivity|]. left. cbn [fs with_fs].
      apply lookup_delete_eq.
  - exists w. split; [reflexivity|]. left. exact Hfile.
Qed.

Lemma geojson_file_written (geom : geometry) (geom_crs : crs_input)
    (w w' : World) (path : string) :
  geom_to_geojson_path geom geom_crs w = (Ok path, w') ->
  exists content, fs w' !! path = Some (JsonFile content).
Proof.
  unfold geom_to_geojson_path, mbind, mlift, mlift_of.
  destruct (reproject_geom geom geom_crs (CrsStr "EPSG:4326")) as [g|];
    [|discriminate].
  destruct (ensure_valid_geometry g) as [repaired|]; [|discriminate].
  destruct (if is_MultiPolygon repaired then _ else _) as [cut|];
    [|discriminate].
  intros [= <- <-]. eexists. cbn [fs with_fs]. apply lookup_insert_eq.
Qed.

(** When the warp succeeds, or fails and the command-line fallback succeeds,
    [crop_with_mask] returns normally, and the boundary file is gone unless
    the operating system refused to remove it. *)
Lemma cutline_removed_after_warp (input_path output_path : string)
    (geom : geometry) (geom_crs : crs_input) (w w1 w2 : World)
    (path : string) (n : Z) (outcome : string + unit) :
  geom_to_geojson_path geom geom_crs w = (Ok path, w1) ->
  num_workers (cpu_count w1) = Ok n ->
  gdal_Warp output_path input_path (warp_opts path n) w1 = (outcome, w2) ->
  (outcome = inr tt
   \/ exists w3,
        run_process (gdalwarp_cmd path n input_path output_path) w2 = (0, w3)) ->
  exists w',
    crop_with_mask input_path output_path geom geom_crs w = (Ok tt, w')
    /\ (fs w' !! path = None
        \/ exists msg, os_remove_error path w' = Some msg).
Proof.
  intros Hpath Hn Hwarp Hok.
  unfold crop_with_mask, mbind, mlift_of. rewrite Hpath, Hn.
  unfold try_except at 1. unfold Warp. rewrite Hwarp.
  destruct outcome as [msg|[]]; cbn [lift_lib].
  - destruct Hok as [Hbad|[w3 Hcli]]; [discriminate|].
    unfold subprocess_run_check. rewrite Hcli. cbn.
    destruct (os_remove_swallowed path w3)
      as (w' & Hw' & [Hgone|(-> & _ & Hrefused)]); eauto.
  - destruct (os_remove_swallowed path w2)
      as (w' & Hw' & [Hgone|(-> & _ & Hrefused)]); eauto.
Qed.

(** C4, on the path where it fails.  When the warp raises and the fallback
    exits with a non-zero status, [crop_with_mask] raises the fallback's
    [CalledProcessError] in the world the fallback left: [os.remove] is not
    reached, and the boundary file written for the warp is still there
    unless the failing tools removed it themselves. *)
Theorem cutline_left_behind (input_path output_path : string)
    (geom : geometry) (geom_crs : crs_input) (w w1 w2 w3 : World)
    (path msg : string) (n returncode : Z) :
  geom_to_geojson_path geom geom_crs w = (Ok path, w1) ->
  num_workers (cpu_count w1) = Ok n ->
  gdal_Warp output_path input_path (warp_opts path n) w1 = (inl msg, w2) ->
  run_process (gdalwarp_cmd path n input_path output_path) w2
  = (returncode, w3) ->
  returncode <> 0 ->
  crop_with_mask input_path output_path geom geom_crs w
  = (Err (CalledProcessError returncode
            (gdalwarp_cmd path n input_path output_path)),
     w3)
  /\ (fs w3 !! path = fs w1 !! path ->
      exists content, fs w3 !! path = Some (JsonFile content)).
Proof.
  intros Hpath Hn Hwarp Hcli Hrc. split.
  - unfold crop_with_mask, mbind, mlift_of. rewrite Hpath, Hn.
    unfold try_except, Warp. rewrite Hwarp. cbn [lift_lib].
    unfold subprocess_run_check. rewrite Hcli.
    destruct (Z.eqb_spec returncode 0); [contradiction|]. reflexivity.
  - intros ->. exact (geojson_file_written _ _ _ _ _ Hpath).
Qed.

End Properties.

(** * The program on concrete inputs *)

Example num_workers_eight_cores : num_workers 8 = Ok 6.
Proof. vm_compute. reflexivity. Qed.

(** Zone 18 is the zone of longitudes from -78 to -72 degrees. *)
Example utm_zone_minus_75 : utm_zone (PyFloat.of_Z (-75)) = Ok 18.
Proof. vm_compute. reflexivity. Qed.

Example utm_proj4_21 :
  utm_proj4 21 = "+proj=utm +zone=21 +datum=WGS84 +units=m +no_defs".
Proof. vm_compute. reflexivity. Qed.

Example repair_keeps_rectangle :
  @ensure_valid_geometry Fixture.sound (Polygon (Fixture.rectangle 0 0 2 2))
  = Ok (Polygon (Fixture.rectangle 0 0 2 2)).
Proof. vm_compute. reflexivity. Qed.

(** A polygon without area is buffered, not refused. *)
Example repair_buffers_sliver :
  @ensure_valid_geometry Fixture.sound (Polygon Fixture.sliver)
  = Ok (@geom_buffer Fixture.sound (Polygon Fixture.sliver) (PyFloat.of_Z 0)
          default_buffer_args).
Proof. vm_compute. reflexivity. Qed.

Example repair_refuses_point :
  @ensure_valid_geometry Fixture.sound (OtherGeometry Point [Fixture.pt 1 1])
  = Err (TypeError
           "Unsupported geometry type: <class 'shapely.geometry.point.Point'>").
Proof. vm_compute. reflexivity. Qed.

(** A union that raises on a stuttering ring succeeds on its buffer. *)
Example merge_retries_stuttering_square :
  @unary_union Fixture.sound [Polygon Fixture.stuttering_square]
  = inl "TopologyException: found non-noded intersection"
  /\ @merge_polygons Fixture.sound [Polygon Fixture.stuttering_square]
     = Ok (Polygon (Fixture.rectangle 0 0 1 1)).
Proof. split; vm_compute; reflexivity. Qed.

(** Pixels that all fall on one point: polygons are extracted, none
    survives the cleaning. *)
Example collapsed_raster_cleans_to_nothing :
  length
    (Fixture.extracted Fixture.sound
       (Fixture.host (Fixture.flat_raster 255 Fixture.collapsed_transform) 4))
  = 15%nat
  /\ @raster_to_polygon_parallel Fixture.sound "mosaic.tif" 2
       (Fixture.host (Fixture.flat_raster 255 Fixture.collapsed_transform) 4)
     = Err (RuntimeError "Polygon list empty after cleaning.").
Proof. split; vm_compute; reflexivity. Qed.

(** A 10 by 10 square in a projected CRS, threshold 0.005: the distance is
    0.005 and the stand-in's buffer gives a smaller square. *)
Example negative_buffer_of_square :
  match
    @compute_negative_buffer Fixture.sound
      (Polygon (Fixture.rectangle 0 0 10 10)) (PyFloat.literal 5 1000)
      (CrsStr "EPSG:32721")
  with
  | Ok shrunk =>
      PyFloat.ltb (Fixture.area shrunk)
        (Fixture.area (Polygon (Fixture.rectangle 0 0 10 10)))
  | Err _ => false
  end = true.
Proof. vm_compute. reflexivity. Qed.

(** The whole pipeline on an opaque raster: the output is written and the
    boundary file is gone. *)
Example pipeline_on_opaque_raster :
  let '(r, w) :=
    @crop_mosaic_by_polygon Fixture.sound "mosaic.tif" "out.tif"
      (PyFloat.literal 5 1000)
      (Fixture.host (Fixture.flat_raster 255 Fixture.identity_transform) 4) in
  r = Ok tt
  /\ map fst (map_to_list (fs w)) = ["out.tif"; "mosaic.tif"].
Proof. vm_compute. split; reflexivity. Qed.

(** The same on a host with one core: the pool is refused. *)
Example pipeline_on_one_core :
  fst (@crop_mosaic_by_polygon Fixture.sound "mosaic.tif" "out.tif"
         (PyFloat.literal 5 1000)
         (Fixture.host (Fixture.flat_raster 255 Fixture.identity_transform) 1))
  = Err (ValueError "Number of processes must be at least 1").
Proof. vm_compute. reflexivity. Qed.

(** * The theorems on concrete inputs *)

(** Longitude -60 in a geographic CRS: zone 21. *)
Lemma utm_zone_at_minus_60_witness :
  (@is_geographic Fixture.sound {| crs_definition := "EPSG:4326" |} = true
   /\ @geom_centroid Fixture.sound
        (Polygon (Fixture.rectangle (-61) (-4) (-59) (-2)))
      = (PyFloat.of_Z (-60), PyFloat.of_Z (-3)))
  /\ (utm_zone (PyFloat.of_Z (-60)) = Ok ((-60 + 180) / 6 + 1)
      /\ (-60 + 180) / 6 + 1 = 21
      /\ @select_metric_crs Fixture.sound {| crs_definition := "EPSG:4326" |}
           (Polygon (Fixture.rectangle (-61) (-4) (-59) (-2)))
         = lift_lib
             (@CRS_from_proj4 Fixture.sound
                "+proj=utm +zone=21 +datum=WGS84 +units=m +no_defs")).
Proof.
  split; [split; vm_compute; reflexivity|].
  apply (@utm_zone_at_minus_60 Fixture.sound _ _ (PyFloat.of_Z (-3)));
    vm_compute; reflexivity.
Defined.

(** A raster whose alpha band is zero everywhere, on a host with 4 cores. *)
Lemma extraction_failures_are_explicit_witness :
  (@rasterio_open "mosaic.tif"
     (Fixture.host (Fixture.flat_raster 0 Fixture.identity_transform) 4)
   = Ok (Fixture.flat_raster 0 Fixture.identity_transform)
   /\ 4 <= r_count (Fixture.flat_raster 0 Fixture.identity_transform)
   /\ (forall row col,
         r_band (Fixture.flat_raster 0 Fixture.identity_transform) 4 row col = 0)
   /\ 2048 <> 0
   /\ num_workers 4 = Ok 3 /\ 1 <= 3)
  /\ @raster_to_polygon_parallel Fixture.sound "mosaic.tif" 2048
       (Fixture.host (Fixture.flat_raster 0 Fixture.identity_transform) 4)
     = Err (RuntimeError
              "No polygons extracted from raster (alpha mask may be empty).").
Proof.
  assert (Hraster :
    @rasterio_open "mosaic.tif"
      (Fixture.host (Fixture.flat_raster 0 Fixture.identity_transform) 4)
    = Ok (Fixture.flat_raster 0 Fixture.identity_transform))
    by (vm_compute; reflexivity).
  assert (Hworkers : num_workers 4 = Ok 3) by (vm_compute; reflexivity).
  split.
  - split; [exact Hraster|]. split; [cbn; lia|]. split; [reflexivity|].
    split; [discriminate|]. split; [exact Hworkers|lia].
  - apply (proj1 (@extraction_failures_are_explicit Fixture.sound)).
    apply (proj1 (proj2 (proj2 (@extraction_failures_are_explicit Fixture.sound)))
             "mosaic.tif" 2048 _ _ 3 Hraster);
      [cbn; lia|reflexivity|discriminate|exact Hworkers|lia].
Defined.

(** A vectorizer that stutters: the first union raises, the second, over
    the buffered geometries, gives the merged region. *)
Lemma union_retried_once_witness :
  (@extract_polygons Fixture.stuttering "mosaic.tif" 2
     (Fixture.host (Fixture.flat_raster 255 Fixture.identity_transform) 4)
   = Ok (Fixture.extracted Fixture.stuttering
           (Fixture.host (Fixture.flat_raster 255 Fixture.identity_transform) 4))
   /\ @final_cleaning Fixture.stuttering
        (Fixture.extracted Fixture.stuttering
           (Fixture.host (Fixture.flat_raster 255 Fixture.identity_transform) 4))
      <> []
   /\ @unary_union Fixture.stuttering
        (@final_cleaning Fixture.stuttering
           (Fixture.extracted Fixture.stuttering
              (Fixture.host (Fixture.flat_raster 255 Fixture.identity_transform)
                 4)))
      = inl "TopologyException: found non-noded intersection")
  /\ @raster_to_polygon_parallel Fixture.stuttering "mosaic.tif" 2
       (Fixture.host (Fixture.flat_raster 255 Fixture.identity_transform) 4)
     = lift_lib
         (@unary_union Fixture.stuttering
            (map (fun g =>
                    @geom_buffer Fixture.stuttering g (PyFloat.of_Z 0)
                      default_buffer_args)
               (@final_cleaning Fixture.stuttering
                  (Fixture.extracted Fixture.stuttering
                     (Fixture.host
                        (Fixture.flat_raster 255 Fixture.identity_transform)
                        4))))).
Proof.
  assert (Hex :
    @extract_polygons Fixture.stuttering "mosaic.tif" 2
      (Fixture.host (Fixture.flat_raster 255 Fixture.identity_transform) 4)
    = Ok (Fixture.extracted Fixture.stuttering
            (Fixture.host (Fixture.flat_raster 255 Fixture.identity_transform) 4)))
    by (vm_compute; reflexivity).
  assert (Hne :
    @final_cleaning Fixture.stuttering
      (Fixture.extracted Fixture.stuttering
         (Fixture.host (Fixture.flat_raster 255 Fixture.identity_transform) 4))
    <> [])
    by (vm_compute; discriminate).
  assert (Hfail :
    @unary_union Fixture.stuttering
      (@final_cleaning Fixture.stuttering
         (Fixture.extracted Fixture.stuttering
            (Fixture.host (Fixture.flat_raster 255 Fixture.identity_transform)
               4)))
    = inl "TopologyException: found non-noded intersection")
    by (vm_compute; reflexivity).
  split; [split; [exact Hex|split; [exact Hne|exact Hfail]]|].
  exact (proj2 (@union_retried_once Fixture.stuttering _ _ _ _ _ Hex eq_refl Hne)
           _ Hfail).
Defined.

(** The warp and its fallback both fail: the boundary file stays. *)
Lemma cutline_left_behind_witness :
  (@geom_to_geojson_path Fixture.failing_warp
     (Polygon (Fixture.rectangle 0 0 2 2)) (CrsStr "EPSG:32721")
     (Fixture.host (Fixture.flat_raster 255 Fixture.identity_transform) 4)
   = (Ok "/tmp/tmpcutline.geojson",
      Fixture.after_cutline Fixture.failing_warp
        (Polygon (Fixture.rectangle 0 0 2 2)) (CrsStr "EPSG:32721")
        (Fixture.host (Fixture.flat_raster 255 Fixture.identity_transform) 4))
   /\ num_workers 4 = Ok 3
   /\ 1 <> 0)
  /\ (@crop_with_mask Fixture.failing_warp "mosaic.tif" "out.tif"
        (Polygon (Fixture.rectangle 0 0 2 2)) (CrsStr "EPSG:32721")
        (Fixture.host (Fixture.flat_raster 255 Fixture.identity_transform) 4)
      = (Err (CalledProcessError 1
                (@gdalwarp_cmd "/tmp/tmpcutline.geojson" 3 "mosaic.tif"
                   "out.tif")),
         Fixture.after_cutline Fixture.failing_warp
           (Polygon (Fixture.rectangle 0 0 2 2)) (CrsStr "EPSG:32721")
           (Fixture.host (Fixture.flat_raster 255 Fixture.identity_transform) 4))
      /\ exists content,
           fs (Fixture.after_cutline Fixture.failing_warp
                 (Polygon (Fixture.rectangle 0 0 2 2)) (CrsStr "EPSG:32721")
                 (Fixture.host
                    (Fixture.flat_raster 255 Fixture.identity_transform) 4))
             !! "/tmp/tmpcutline.geojson"
           = Some (JsonFile content)).
Proof.
  assert (Hpath :
    @geom_to_geojson_path Fixture.failing_warp
      (Polygon (Fixture.rectangle 0 0 2 2)) (CrsStr "EPSG:32721")
      (Fixture.host (Fixture.flat_raster 255 Fixture.identity_transform) 4)
    = (Ok "/tmp/tmpcutline.geojson",
       Fixture.after_cutline Fixture.failing_warp
         (Polygon (Fixture.rectangle 0 0 2 2)) (CrsStr "EPSG:32721")
         (Fixture.host (Fixture.flat_raster 255 Fixture.identity_transform) 4)))
    by (vm_compute; reflexivity).
  assert (Hworkers : num_workers 4 = Ok 3) by (vm_compute; reflexivity).
  split; [split; [exact Hpath|split; [exact Hworkers|discriminate]]|].
  destruct (@cutline_left_behind Fixture.failing_warp "mosaic.tif" "out.tif"
              _ _ _ _ _ _ _ "RuntimeError: Cutline polygon is invalid."
              3 1 Hpath Hworkers eq_refl eq_refl ltac:(discriminate))
    as [Hraised Hkept].
  split; [exact Hraised|exact (Hkept eq_refl)].
Defined.

(** C6 as stated fails.  The unit square has positive area and [5e-324] is
    a threshold above 0, yet the distance [(1 * 5e-324) / 100] rounds to
    zero, the distance of threshold 0: the two thresholds give the same
    region, here the square itself, whose area is not less than its own. *)
Lemma tiny_threshold_buffers_by_zero :
  PyFloat.gtb Samples.smallest_positive (PyFloat.of_Z 0) = true
  /\ @geom_area Fixture.sound (Polygon (Fixture.rectangle 0 0 1 1))
     = PyFloat.of_Z 1
  /\ PyFloat.gtb (PyFloat.of_Z 1) (PyFloat.of_Z 0) = true
  /\ buffer_distance (PyFloat.of_Z 1) Samples.smallest_positive
     = buffer_distance (PyFloat.of_Z 1) (PyFloat.of_Z 0)
  /\ buffer_distance (PyFloat.of_Z 1) (PyFloat.of_Z 0) = PyFloat.zero
  /\ @compute_negative_buffer Fixture.sound
       (Polygon (Fixture.rectangle 0 0 1 1)) Samples.smallest_positive
       (CrsStr "EPSG:32721")
     = @compute_negative_buffer Fixture.sound
         (Polygon (Fixture.rectangle 0 0 1 1)) (PyFloat.of_Z 0)
         (CrsStr "EPSG:32721")
  /\ @compute_negative_buffer Fixture.sound
       (Polygon (Fixture.rectangle 0 0 1 1)) Samples.smallest_positive
       (CrsStr "EPSG:32721")
     = Ok (Polygon (Fixture.rectangle 0 0 1 1))
  /\ PyFloat.ltb
       (@geom_area Fixture.sound (Polygon (Fixture.rectangle 0 0 1 1)))
       (@geom_area Fixture.sound (Polygon (Fixture.rectangle 0 0 1 1)))
     = false.
Proof. repeat split; vm_compute; reflexivity. Qed.

(** A 10 by 10 square in a projected CRS, threshold 0.005. *)
Lemma negative_buffer_by_distance_witness :
  (@from_user_input Fixture.sound (CrsStr "EPSG:32721") = Ok Samples.utm_21s
   /\ @select_metric_crs Fixture.sound Samples.utm_21s Samples.square
      = Ok Samples.utm_21s
   /\ @reprojected Fixture.sound Samples.utm_21s Samples.utm_21s
        Samples.square Samples.square)
  /\ ((PyFloat.is_finite (@geom_area Fixture.sound Samples.square) = true ->
       PyFloat.is_zero
         (buffer_distance (@geom_area Fixture.sound Samples.square)
            (PyFloat.of_Z 0))
       = true)
      /\ (forall other,
            buffer_distance (@geom_area Fixture.sound Samples.square)
              (PyFloat.literal 5 1000)
            = buffer_distance (@geom_area Fixture.sound Samples.square) other ->
            @compute_negative_buffer Fixture.sound Samples.square
              (PyFloat.literal 5 1000) (CrsStr "EPSG:32721")
            = @compute_negative_buffer Fixture.sound Samples.square other
                (CrsStr "EPSG:32721"))
      /\ (forall buffered_back,
            PyFloat.is_finite
              (buffer_distance (@geom_area Fixture.sound Samples.square)
                 (PyFloat.literal 5 1000))
            = true ->
            @reprojected Fixture.sound Samples.utm_21s Samples.utm_21s
              (@geom_buffer Fixture.sound Samples.square
                 (PyFloat.opp
                    (buffer_distance
                       (@geom_area Fixture.sound Samples.square)
                       (PyFloat.literal 5 1000)))
                 {| resolution := 8; single_sided := false |})
              buffered_back ->
            is_Polygon buffered_back = true ->
            @geom_is_valid Fixture.sound buffered_back = true ->
            PyFloat.gtb (@geom_area Fixture.sound buffered_back)
              (PyFloat.of_Z 0)
            = true ->
            @compute_negative_buffer Fixture.sound Samples.square
              (PyFloat.literal 5 1000) (CrsStr "EPSG:32721")
            = Ok buffered_back)).
Proof.
  assert (Hsrc :
    @from_user_input Fixture.sound (CrsStr "EPSG:32721") = Ok Samples.utm_21s)
    by reflexivity.
  assert (Hmetric :
    @select_metric_crs Fixture.sound Samples.utm_21s Samples.square
    = Ok Samples.utm_21s)
    by reflexivity.
  assert (Hto :
    @reprojected Fixture.sound Samples.utm_21s Samples.utm_21s
      Samples.square Samples.square)
    by reflexivity.
  split; [split; [exact Hsrc|split; [exact Hmetric|exact Hto]]|].
  exact (@negative_buffer_by_distance Fixture.sound Samples.square
           (PyFloat.literal 5 1000) (CrsStr "EPSG:32721") Samples.utm_21s
           Samples.utm_21s Samples.square Hsrc Hmetric Hto).
Defined.

(** Two squares apart from each other, already in EPSG:4326: the cut is one
    of them.  The stand-in's union hands polygons back as they are. *)
Lemma cutline_is_largest_component_witness :
  ((forall p q : polygon,
      p = q ->
      @geom_area Fixture.sound (Polygon q)
      = @geom_area Fixture.sound (Polygon p))
   /\ @reproject_geom Fixture.sound (MultiPolygon Samples.two_squares)
        (CrsStr "EPSG:4326") (CrsStr "EPSG:4326")
      = Ok (MultiPolygon Samples.two_squares)
   /\ @valid_region Fixture.sound eq (MultiPolygon Samples.two_squares))
  /\ exists cut content feature,
       @largest_component Fixture.sound eq (MultiPolygon Samples.two_squares)
         cut
       /\ is_Polygon cut = true
       /\ @geom_to_geojson_path Fixture.sound
            (MultiPolygon Samples.two_squares) (CrsStr "EPSG:4326")
            Samples.opaque_host
          = (Ok (@NamedTemporaryFile_name Fixture.sound ".geojson"
                   Samples.opaque_host),
             with_fs Samples.opaque_host
               (<[@NamedTemporaryFile_name Fixture.sound ".geojson"
                    Samples.opaque_host := JsonFile content]>
                  (fs Samples.opaque_host)))
       /\ features content = Some [feature]
       /\ feature_geometry feature = Some (@mapping Fixture.sound cut).
Proof.
  assert (Harea :
    forall p q : polygon,
      p = q ->
      @geom_area Fixture.sound (Polygon q)
      = @geom_area Fixture.sound (Polygon p))
    by (intros p q ->; reflexivity).
  assert (Hto :
    @reproject_geom Fixture.sound (MultiPolygon Samples.two_squares)
      (CrsStr "EPSG:4326") (CrsStr "EPSG:4326")
    = Ok (MultiPolygon Samples.two_squares))
    by reflexivity.
  assert (Hregion :
    @valid_region Fixture.sound eq (MultiPolygon Samples.two_squares)).
  { cbn [valid_region]. split; [vm_compute; reflexivity|].
    split; [discriminate|]. split.
    - unfold Samples.two_squares.
      repeat constructor; vm_compute; reflexivity.
    - exists (MultiPolygon Samples.two_squares), Samples.two_squares.
      split; [vm_compute; reflexivity|]. split; [reflexivity|].
      split; [apply Permutation_refl|].
      unfold Samples.two_squares. repeat constructor. }
  split; [split; [exact Harea|split; [exact Hto|exact Hregion]]|].
  exact (@cutline_is_largest_component Fixture.sound eq
           (MultiPolygon Samples.two_squares) (CrsStr "EPSG:4326")
           Samples.opaque_host (MultiPolygon Samples.two_squares)
           Harea Hto Hregion).
Defined.

(** The cut of the two squares is the larger one. *)
Example cutline_of_two_squares :
  exists content,
    @geom_to_geojson_path Fixture.sound (MultiPolygon Samples.two_squares)
      (CrsStr "EPSG:4326") Samples.opaque_host
    = (Ok "/tmp/tmpcutline.geojson",
       with_fs Samples.opaque_host
         (<["/tmp/tmpcutline.geojson" := JsonFile content]>
            (fs Samples.opaque_host)))
    /\ option_map (map feature_geometry) (features content)
       = Some [Some (@mapping Fixture.sound (Polygon (Fixture.rectangle 5 5 8 8)))].
Proof.
  exists (feature_collection
            (@mapping Fixture.sound (Polygon (Fixture.rectangle 5 5 8 8)))).
  split; vm_compute; reflexivity.
Qed.

(** A multi-polygon without a component of positive area, outside the data
    model, passed to the function directly: the repair raises and no
    boundary file is written. *)
Example zero_area_multipolygon_refused :
  @geom_to_geojson_path Fixture.sound (MultiPolygon [Fixture.sliver])
    (CrsStr "EPSG:4326")
    (Fixture.host (Fixture.flat_raster 255 Fixture.identity_transform) 4)
  = (Err (RuntimeError "All polygons have zero area after cleanup."),
     Fixture.host (Fixture.flat_raster 255 Fixture.identity_transform) 4).
Proof. vm_compute. reflexivity. Qed.

(** * Further properties *)

(** ** File names *)

Lemma str_app_cons (a : ascii) (s t : string) :
  String a s +:+ t = String a (s +:+ t).
Proof. reflexivity. Qed.

Lemma str_app_nil (t : string) : "" +:+ t = t.
Proof. reflexivity. Qed.

Lemma str_app_nil_r (s : string) : s +:+ "" = s.
Proof.
  induction s as [|a s IH]; [reflexivity|]. rewrite str_app_cons, IH. reflexivity.
Qed.

Ltac str_simpl := cbn; rewrite ?str_app_cons, ?str_app_nil; cbn.

Lemma str_take_drop (n : nat) (s : string) : str_take n s +:+ str_drop n s = s.
Proof.
  revert s. induction n as [|n IH]; intros [|a s]; str_simpl; try reflexivity.
  f_equal. apply IH.
Qed.

Lemma str_length_app (s t : string) :
  String.length (s +:+ t) = (String.length s + String.length t)%nat.
Proof.
  induction s as [|a s IH]; str_simpl; [reflexivity|]. f_equal. exact IH.
Qed.

Lemma str_length_take (n : nat) (s : string) :
  (n <= String.length s)%nat -> String.length (str_take n s) = n.
Proof.
  revert s. induction n as [|n IH]; intros [|a s]; cbn; intros Hn;
    try reflexivity; try lia.
  f_equal. apply IH. lia.
Qed.

Lemma rfind_bounds (c : ascii) (s : string) :
  -1 <= rfind c s < Z.of_nat (String.length s).
Proof.
  induction s as [|a s IH]; cbn [rfind String.length]; [lia|].
  destruct (Z.leb_spec 0 (rfind c s)); [lia|].
  destruct (Ascii.eqb a c); lia.
Qed.

Lemma rfind_app (c : ascii) (s t : string) :
  rfind c (s +:+ t)
  = if 0 <=? rfind c t then Z.of_nat (String.length s) + rfind c t
    else rfind c s.
Proof.
  induction s as [|a s IH].
  - rewrite str_app_nil. cbn [rfind String.length].
    destruct (Z.leb_spec 0 (rfind c t)); [lia|].
    pose proof (rfind_bounds c t). lia.
  - rewrite str_app_cons. cbn [rfind String.length].
    rewrite IH. destruct (Z.leb_spec 0 (rfind c t)) as [Ht|Ht].
    + destruct (Z.leb_spec 0 (Z.of_nat (String.length s) + rfind c t)); lia.
    + reflexivity.
Qed.

Lemma str_take_app (n : nat) (s t : string) :
  (n <= String.length s)%nat -> str_take n (s +:+ t) = str_take n s.
Proof.
  revert s. induction n as [|n IH]; intros [|a s]; str_simpl; intros Hn;
    try reflexivity; try lia.
  f_equal. apply IH. lia.
Qed.

Lemma str_take_app_all (s t : string) :
  str_take (String.length s) (s +:+ t) = s.
Proof.
  induction s as [|a s IH]; str_simpl; [destruct t; reflexivity|].
  f_equal. exact IH.
Qed.

Lemma str_drop_app_all (s t : string) :
  str_drop (String.length s) (s +:+ t) = t.
Proof. induction s as [|a s IH]; str_simpl; [reflexivity|exact IH]. Qed.

Lemma str_drop_app (n : nat) (s t : string) :
  (n <= String.length s)%nat -> str_drop n (s +:+ t) = str_drop n s +:+ t.
Proof.
  revert s. induction n as [|n IH]; intros [|a s]; str_simpl; intros Hn;
    try reflexivity; try lia.
  apply IH. lia.
Qed.

Lemma str_app_assoc (s t u : string) : (s +:+ t) +:+ u = s +:+ (t +:+ u).
Proof.
  induction s as [|a s IH]; [reflexivity|].
  rewrite !str_app_cons. f_equal. exact IH.
Qed.

(** A character other than [c] among the first [n] is still there among
    more. *)
Lemma has_other_than_take_more (c : ascii) (n m : nat) (s : string) :
  has_other_than c (str_take n s) = true ->
  has_other_than c (str_take (n + m) s) = true.
Proof.
  revert s. induction n as [|n IH]; intros [|a s]; cbn; try discriminate.
  destruct (negb (Ascii.eqb a c)); cbn; [reflexivity|]. apply IH.
Qed.

(** The two parts [splitext] returns are the path, cut in two. *)
Lemma splitext_join (p : string) :
  fst (splitext p) +:+ snd (splitext p) = p.
Proof.
  unfold splitext. destruct (_ && _); cbn [fst snd].
  - apply str_take_drop.
  - apply str_app_nil_r.
Qed.

(** The shape of what [splitext] returns: no extension, or the path cut at
    its last dot, which comes after the last slash and after a character of
    that component that is no dot. *)
Lemma splitext_cases (p : string) :
  splitext p = (p, "")
  \/ (splitext p
      = (str_take (Z.to_nat (rfind extsep p)) p,
         str_drop (Z.to_nat (rfind extsep p)) p)
      /\ rfind sep p < rfind extsep p
      /\ has_other_than extsep
           (str_take (Z.to_nat (rfind extsep p - (rfind sep p + 1)))
              (str_drop (Z.to_nat (rfind sep p + 1)) p)) = true).
Proof.
  unfold splitext. destruct (rfind sep p <? rfind extsep p) eqn:Hlt; cbn [andb].
  - destruct (has_other_than _ _) eqn:Hother; [right|left; reflexivity].
    split; [reflexivity|]. split; [apply Z.ltb_lt, Hlt|reflexivity].
  - left. reflexivity.
Qed.

Lemma str_length_drop (n : nat) (s : string) :
  String.length (str_drop n s) = (String.length s - n)%nat.
Proof.
  revert s. induction n as [|n IH]; intros [|a s]; cbn; try reflexivity.
  apply IH.
Qed.

(** Where the last [c] of a string cut in two lies, when it is known to lie
    at or after the cut. *)
Lemma rfind_after_cut (c : ascii) (p : string) (d : nat) :
  rfind c p = Z.of_nat d ->
  rfind c (str_drop d p) = 0.
Proof.
  intros Hd. pose proof (rfind_bounds c p) as Hp.
  pose proof (rfind_app c (str_take d p) (str_drop d p)) as Happ.
  rewrite str_take_drop, Hd in Happ.
  rewrite (str_length_take d p) in Happ by lia.
  destruct (Z.leb_spec 0 (rfind c (str_drop d p))); [lia|].
  pose proof (rfind_bounds c (str_take d p)) as Ht.
  rewrite (str_length_take d p) in Ht by lia. lia.
Qed.

Lemma rfind_before_cut (c : ascii) (p : string) (d : nat) :
  rfind c p < Z.of_nat d -> (d <= String.length p)%nat ->
  rfind c (str_drop d p) = -1 /\ rfind c (str_take d p) = rfind c p.
Proof.
  intros Hd Hlen.
  pose proof (rfind_app c (str_take d p) (str_drop d p)) as Happ.
  rewrite str_take_drop in Happ. rewrite (str_length_take d p Hlen) in Happ.
  pose proof (rfind_bounds c (str_drop d p)).
  destruct (Z.leb_spec 0 (rfind c (str_drop d p))); lia.
Qed.

(** X1. The default output name of [main] is the input name with
    ["_cropped"] put in front of its extension: it is 8 characters longer, so
    it is never the input itself, and [splitext] finds in it the prefix with
    ["_cropped"] added and the same extension. *)
Theorem main_output_default (image : string) (threshold : float) :
  String.length (main_output (mkNamespace image threshold None))
  = (String.length image + 8)%nat
  /\ main_output (mkNamespace image threshold None) <> image
  /\ splitext (main_output (mkNamespace image threshold None))
     = (fst (splitext image) +:+ "_cropped", snd (splitext image)).
Proof.
  assert (Hlen :
    String.length (main_output (mkNamespace image threshold None))
    = (String.length image + 8)%nat).
  { unfold main_output. cbn [raster_output mosaic_image].
    pose proof (splitext_join image) as Hjoin.
    destruct (splitext image) as [prefix ext]. cbn [fst snd] in Hjoin.
    rewrite <- Hjoin, !str_length_app. cbn [String.length]. lia. }
  split; [exact Hlen|]. split; [intros Heq; rewrite Heq in Hlen; lia|].
  unfold main_output. cbn [raster_output mosaic_image].
  pose proof (rfind_bounds sep image) as Hsep.
  pose proof (rfind_bounds extsep image) as Hdot.
  assert (Hnosep : rfind sep "_cropped" = -1) by reflexivity.
  assert (Hnodot : rfind extsep "_cropped" = -1) by reflexivity.
  remember (splitext image) as parts eqn:Hparts.
  unfold splitext in Hparts.
  destruct (rfind sep image <? rfind extsep image) eqn:Hlt; cbn [andb] in Hparts.
  - destruct (has_other_than extsep _) eqn:Hother in Hparts; subst parts.
    + (* an extension *)
      apply Z.ltb_lt in Hlt. cbn [fst snd].
      set (d := Z.to_nat (rfind extsep image)) in *.
      assert (Hd : rfind extsep image = Z.of_nat d) by (subst d; lia).
      assert (Hdlen : (d <= String.length image)%nat) by lia.
      pose proof (rfind_after_cut extsep image d Hd) as Hext.
      destruct (rfind_before_cut sep image d ltac:(lia) Hdlen) as [Hextsep Hpre].
      set (prefix := str_take d image) in *.
      set (ext := str_drop d image) in *.
      assert (Hplen : String.length prefix = d)
        by (apply str_length_take; exact Hdlen).
      assert (Hsepout : rfind sep (prefix +:+ "_cropped" +:+ ext)
                        = rfind sep image).
      { rewrite rfind_app, (rfind_app sep "_cropped" ext), Hextsep, Hnosep.
        cbn. exact Hpre. }
      assert (Hdotout : rfind extsep (prefix +:+ "_cropped" +:+ ext)
                        = Z.of_nat (d + 8)).
      { rewrite rfind_app, (rfind_app extsep "_cropped" ext), Hext, Hplen.
        cbn [String.length].
        destruct (Z.leb_spec 0 0); [|lia].
        destruct (Z.leb_spec 0 (Z.of_nat 8 + 0)); lia. }
      unfold splitext. rewrite Hsepout, Hdotout.
      destruct (Z.ltb_spec (rfind sep image) (Z.of_nat (d + 8))); [|lia].
      cbn [andb].
      set (k := Z.to_nat (rfind sep image + 1)) in *.
      assert (Hk : (k <= d)%nat) by (subst k; lia).
      replace (Z.to_nat (Z.of_nat (d + 8) - (rfind sep image + 1)))
        with ((d - k) + 8)%nat by (subst k; lia).
      replace (Z.to_nat (rfind extsep image - (rfind sep image + 1)))
        with (d - k)%nat in Hother by (subst k; lia).
      rewrite (str_drop_app k prefix) by lia.
      assert (Hslice :
        str_take (d - k) (str_drop k image) = str_drop k prefix).
      { assert (Himage : image = prefix +:+ ext)
          by (symmetry; apply str_take_drop).
        rewrite Himage. rewrite (str_drop_app k prefix ext) by lia.
        replace (d - k)%nat with (String.length (str_drop k prefix))
          by (rewrite str_length_drop; lia).
        apply str_take_app_all. }
      rewrite Hslice in Hother.
      assert (Hother' :
        has_other_than extsep
          (str_take (d - k + 8)
             (str_drop k prefix +:+ "_cropped" +:+ ext)) = true).
      { apply has_other_than_take_more.
        replace (d - k)%nat with (String.length (str_drop k prefix))
          by (rewrite str_length_drop; lia).
        rewrite str_take_app_all. exact Hother. }
      rewrite Hother'. rewrite Nat2Z.id.
      rewrite <- (str_app_assoc prefix "_cropped" ext).
      replace (d + 8)%nat with (String.length (prefix +:+ "_cropped"))
        by (rewrite str_length_app, Hplen; reflexivity).
      rewrite str_take_app_all, str_drop_app_all. reflexivity.
    + (* only dots before the last dot *)
      cbn [fst snd]. rewrite !str_app_nil_r.
      unfold splitext.
      rewrite !rfind_app, Hnosep, Hnodot. cbn [Z.leb Z.compare]. rewrite Hlt.
      cbn [andb].
      rewrite (str_drop_app _ image) by lia.
      rewrite str_take_app by (rewrite str_length_drop; lia).
      rewrite Hother. reflexivity.
  - subst parts. cbn [fst snd]. rewrite !str_app_nil_r. unfold splitext.
    rewrite !rfind_app, Hnosep, Hnodot. cbn [Z.leb Z.compare]. rewrite Hlt.
    reflexivity.
Qed.

Lemma str_take_app_beyond (n : nat) (h t : string) :
  str_take (String.length h + n) (h +:+ t) = h +:+ str_take n t.
Proof.
  induction h as [|a h IH]; [reflexivity|].
  rewrite !str_app_cons. cbn [String.length Nat.add str_take].
  f_equal. exact IH.
Qed.

Lemma str_drop_app_beyond (n : nat) (h t : string) :
  str_drop (String.length h + n) (h +:+ t) = str_drop n t.
Proof.
  induction h as [|a h IH]; [reflexivity|].
  rewrite str_app_cons. cbn [String.length Nat.add str_drop]. exact IH.
Qed.

Lemma rfind_none_head (c a : ascii) (s : string) :
  rfind c (String a s) = -1 -> Ascii.eqb a c = false.
Proof.
  cbn [rfind]. pose proof (rfind_bounds c s).
  destruct (Z.leb_spec 0 (rfind c s)); [lia|].
  destruct (Ascii.eqb a c); [discriminate|reflexivity].
Qed.

(** A name without a slash, cut in two with ["_cropped"] in between, does
    not start with a slash. *)
Lemma cropped_name_relative (base : string) :
  rfind sep base = -1 ->
  starts_with_sep
    (fst (splitext base) +:+ "_cropped" +:+ snd (splitext base)) = false.
Proof.
  intros Hbare. pose proof (splitext_join base) as Hjoin.
  destruct (fst (splitext base)) as [|a prefix]; [reflexivity|].
  rewrite str_app_cons in Hjoin. rewrite <- Hjoin in Hbare.
  rewrite str_app_cons. cbn [starts_with_sep].
  exact (rfind_none_head _ _ _ Hbare).
Qed.

(** The extension of a file name does not depend on the directory in front
    of it. *)
Lemma splitext_in_dir (h base : string) :
  rfind sep base = -1 ->
  rfind sep h = Z.of_nat (String.length h) - 1 ->
  splitext (h +:+ base)
  = (h +:+ fst (splitext base), snd (splitext base)).
Proof.
  intros Hbare Hh. unfold splitext.
  rewrite !rfind_app, Hbare, Hh. cbn [Z.leb Z.compare].
  pose proof (rfind_bounds extsep base) as Hb.
  pose proof (rfind_bounds extsep h) as Hd.
  destruct (Z.leb_spec 0 (rfind extsep base)) as [Hdot|Hdot].
  - destruct (Z.ltb_spec (Z.of_nat (String.length h) - 1)
                (Z.of_nat (String.length h) + rfind extsep base)); [|lia].
    destruct (Z.ltb_spec (-1) (rfind extsep base)); [|lia].
    cbn [andb].
    replace (Z.to_nat (Z.of_nat (String.length h) + rfind extsep base
                       - (Z.of_nat (String.length h) - 1 + 1)))
      with (Z.to_nat (rfind extsep base)) by lia.
    replace (Z.to_nat (Z.of_nat (String.length h) - 1 + 1))
      with (String.length h) by lia.
    replace (Z.to_nat (rfind extsep base - (-1 + 1)))
      with (Z.to_nat (rfind extsep base)) by lia.
    change (Z.to_nat (-1 + 1)) with 0%nat.
    rewrite str_drop_app_all. cbn [str_drop].
    replace (match base with "" | _ => base end) with base
      by (destruct base; reflexivity).
    destruct (has_other_than extsep _); cbn [fst snd]; [|reflexivity].
    replace (Z.to_nat (Z.of_nat (String.length h) + rfind extsep base))
      with (String.length h + Z.to_nat (rfind extsep base))%nat by lia.
    rewrite str_take_app_beyond, str_drop_app_beyond. reflexivity.
  - destruct (Z.ltb_spec (Z.of_nat (String.length h) - 1) (rfind extsep h));
      [lia|].
    destruct (Z.ltb_spec (-1) (rfind extsep base)); [lia|]. reflexivity.
Qed.

Lemma has_other_than_open_dir (dir t : string) :
  dir <> "" -> ends_with_sep dir = false ->
  has_other_than sep (dir +:+ t) = true.
Proof.
  induction dir as [|a dir IH]; intros Hne Hopen; [contradiction Hne; reflexivity|].
  rewrite str_app_cons. cbn [has_other_than].
  destruct dir as [|b dir].
  - cbn [ends_with_sep] in Hopen. rewrite Hopen. reflexivity.
  - rewrite IH; [apply orb_true_r|discriminate|exact Hopen].
Qed.

Lemma rstrip_open_dir (dir : string) :
  dir <> "" -> ends_with_sep dir = false -> rstrip_sep (dir +:+ "/") = dir.
Proof.
  induction dir as [|a dir IH]; intros Hne Hopen; [contradiction Hne; reflexivity|].
  rewrite str_app_cons. cbn [rstrip_sep].
  destruct dir as [|b dir].
  - cbn [ends_with_sep] in Hopen. rewrite str_app_nil.
    cbn [rstrip_sep]. change (Ascii.eqb "/" sep) with true. cbn iota.
    rewrite Hopen. reflexivity.
  - rewrite IH; [reflexivity|discriminate|exact Hopen].
Qed.

(** X20. For a file name without a directory, and for a file name in a
    directory written without a trailing slash, [get_valid_namefile] of the
    older script and the default of [main] derive the same output name. *)
Theorem get_valid_namefile_agrees (threshold : float) :
  (forall base,
     rfind sep base = -1 ->
     get_valid_namefile base
     = main_output (mkNamespace base threshold None))
  /\ (forall dir base,
        rfind sep base = -1 -> dir <> "" -> ends_with_sep dir = false ->
        get_valid_namefile (dir +:+ "/" +:+ base)
        = main_output (mkNamespace (dir +:+ "/" +:+ base) threshold None)).
Proof.
  split.
  - intros base Hbare. unfold get_valid_namefile, main_output, dirname, basename.
    cbn [raster_output mosaic_image]. rewrite Hbare.
    change (Z.to_nat (-1 + 1)) with 0%nat. cbn [str_take str_drop has_other_than].
    replace (match base with "" | _ => base end) with base
      by (destruct base; reflexivity).
    pose proof (cropped_name_relative base Hbare) as Hrel.
    destruct (splitext base) as [prefix ext]. cbn [fst snd] in Hrel.
    unfold path_join. rewrite Hrel. reflexivity.
  - intros dir base Hbare Hne Hopen.
    assert (Hsep : rfind sep (dir +:+ "/" +:+ base)
                   = Z.of_nat (String.length dir)).
    { rewrite rfind_app, (rfind_app sep "/" base), Hbare. cbn [Z.leb Z.compare].
      change (rfind sep "/") with 0. cbn [Z.leb Z.compare]. lia. }
    assert (Hh : rfind sep (dir +:+ "/")
                 = Z.of_nat (String.length (dir +:+ "/")) - 1).
    { rewrite rfind_app, str_length_app. change (rfind sep "/") with 0.
      cbn [Z.leb Z.compare String.length]. lia. }
    unfold get_valid_namefile, main_output, dirname, basename.
    cbn [raster_output mosaic_image]. rewrite Hsep.
    replace (Z.to_nat (Z.of_nat (String.length dir) + 1))
      with (String.length (dir +:+ "/"))
      by (rewrite str_length_app; cbn [String.length]; lia).
    rewrite <- (str_app_assoc dir "/" base).
    rewrite str_take_app_all, str_drop_app_all.
    rewrite (has_other_than_open_dir dir "/" Hne Hopen).
    rewrite (rstrip_open_dir dir Hne Hopen).
    rewrite (splitext_in_dir (dir +:+ "/") base Hbare Hh).
    pose proof (cropped_name_relative base Hbare) as Hrel.
    destruct (splitext base) as [prefix ext]. cbn [fst snd] in Hrel.
    unfold path_join. rewrite Hrel.
    destruct dir as [|a dir]; [contradiction Hne; reflexivity|].
    rewrite Hopen. rewrite !str_app_assoc. reflexivity.
Qed.

Section FurtherProperties.

Context `{Collaborators}.

(** ** Reprojection *)

(** X2. [reproject_geom] raises its [ValueError] exactly when the source CRS
    is [None]; the destination is not checked that way.  When it returns, both
    CRS inputs were resolved and the geometry is the given one if the two CRS
    compare equal, pyproj's transformation of it otherwise. *)
Theorem reproject_geom_outcomes (geom : geometry) (src_crs dst_crs : crs_input) :
  ((exists msg, reproject_geom geom src_crs dst_crs = Err (ValueError msg))
   <-> src_crs = CrsNone)
  /\ (forall geom',
        reproject_geom geom src_crs dst_crs = Ok geom' ->
        exists src dst,
          from_user_input src_crs = Ok src
          /\ from_user_input dst_crs = Ok dst
          /\ reprojected src dst geom geom').
Proof.
  split.
  - split.
    + intros [msg Hraise]. destruct src_crs as [|s|c]; [reflexivity| |];
        exfalso; cbn [reproject_geom from_user_input] in Hraise.
      * destruct (CRS_new (Some s)) as [m|src]; [discriminate|].
        cbn [lift_lib rbind] in Hraise.
        destruct (from_user_input dst_crs) as [dst|e] eqn:Hdst.
        -- cbn [rbind] in Hraise. destruct (crs_eqb src dst); [discriminate|].
           apply lift_lib_not_raised in Hraise as [m Hm]. discriminate.
        -- cbn [rbind] in Hraise. injection Hraise as ->.
           destruct dst_crs; cbn [from_user_input] in Hdst;
             [| |discriminate];
             apply lift_lib_not_raised in Hdst as [m Hm]; discriminate.
      * cbn [rbind] in Hraise.
        destruct (from_user_input dst_crs) as [dst|e] eqn:Hdst.
        -- cbn [rbind] in Hraise. destruct (crs_eqb c dst); [discriminate|].
           apply lift_lib_not_raised in Hraise as [m Hm]. discriminate.
        -- cbn [rbind] in Hraise. injection Hraise as ->.
           destruct dst_crs; cbn [from_user_input] in Hdst;
             [| |discriminate];
             apply lift_lib_not_raised in Hdst as [m Hm]; discriminate.
    + intros ->. eexists. reflexivity.
  - intros geom' Hok. unfold reprojected.
    destruct src_crs as [|s|c]; [discriminate| |];
      cbn [reproject_geom] in Hok.
    + destruct (from_user_input (CrsStr s)) as [src|]; [|discriminate].
      cbn [rbind] in Hok.
      destruct (from_user_input dst_crs) as [dst|]; [|discriminate].
      cbn [rbind] in Hok. exists src, dst. split; [reflexivity|].
      split; [reflexivity|].
      destruct (crs_eqb src dst); [injection Hok as ->; reflexivity|].
      destruct (pyproj_transform src dst geom); [discriminate|].
      injection Hok as ->. reflexivity.
    + cbn [rbind] in Hok.
      destruct (from_user_input dst_crs) as [dst|]; [|discriminate].
      cbn [rbind] in Hok. exists c, dst. split; [reflexivity|].
      split; [reflexivity|].
      destruct (crs_eqb c dst); [injection Hok as ->; reflexivity|].
      destruct (pyproj_transform c dst geom); [discriminate|].
      injection Hok as ->. reflexivity.
Qed.

(** ** The largest polygon *)

(** X3. [largest_polygon] returns a geometry that is no multi-polygon as it
    is; of a multi-polygon with components it returns one of the components,
    and none of them has a larger area; of a multi-polygon without
    components it raises the [ValueError] of [max]. *)
Theorem largest_polygon_outcomes :
  (forall geom, is_MultiPolygon geom = false -> largest_polygon geom = Ok geom)
  /\ (exists msg, largest_polygon (MultiPolygon []) = Err (ValueError msg))
  /\ (forall first rest,
        exists p,
          largest_polygon (MultiPolygon (first :: rest)) = Ok (Polygon p)
          /\ In p (first :: rest)
          /\ forall q, In q (first :: rest) ->
               PyFloat.ltb (geom_area (Polygon p)) (geom_area (Polygon q))
               = false).
Proof.
  split; [|split].
  - intros [p|geoms|t cs]; [reflexivity|discriminate|reflexivity].
  - eexists. reflexivity.
  - intros first rest. cbn [largest_polygon].
    destruct (py_max (fun g => geom_area (Polygon g)) (first :: rest))
      as [p|e] eqn:Hmax; [|discriminate].
    cbn [rbind]. exists p. split; [reflexivity|].
    exact (py_max_spec _ _ _ Hmax).
Qed.

(** ** Cleaning *)

(** X4. Every geometry that survives the cleaning loop is a polygon or a
    multi-polygon and is not empty, and is either one of the inputs or the
    zero-width buffer of an invalid input; the loop never lengthens the
    list. *)
Theorem final_cleaning_survivors (polys : list geometry) :
  (forall g, In g (final_cleaning polys) ->
     (is_Polygon g || is_MultiPolygon g) = true
     /\ geom_is_empty g = false
     /\ (In g polys
         \/ exists p, In p polys /\ geom_is_valid p = false
              /\ g = geom_buffer p (PyFloat.of_Z 0) default_buffer_args))
  /\ (length (final_cleaning polys) <= length polys)%nat.
Proof.
  induction polys as [|p rest [IHin IHlen]]; [split; [intros g []|cbn; lia]|].
  cbn [final_cleaning].
  destruct (geom_is_empty p || PyFloat.eqb (geom_area p) (PyFloat.of_Z 0)).
  - split; [|cbn [length]; lia].
    intros g Hg. destruct (IHin g Hg) as (Hk & He & Hfrom).
    split; [exact Hk|]. split; [exact He|].
    destruct Hfrom as [Hin|(q & Hq & Hrest)]; [left; right; exact Hin|].
    right. exists q. split; [right; exact Hq|exact Hrest].
  - destruct (geom_is_valid p) eqn:Hvalid; cbn [negb].
    + destruct ((is_Polygon p || is_MultiPolygon p) && negb (geom_is_empty p))
        eqn:Hkeep.
      * split; [|cbn [length]; lia].
        intros g [<-|Hg].
        -- apply andb_prop in Hkeep as [Hk He].
           split; [exact Hk|]. split; [apply negb_true_iff, He|].
           left. left. reflexivity.
        -- destruct (IHin g Hg) as (Hk & He & Hfrom).
           split; [exact Hk|]. split; [exact He|].
           destruct Hfrom as [Hin|(q & Hq & Hrest)]; [left; right; exact Hin|].
           right. exists q. split; [right; exact Hq|exact Hrest].
      * split; [|cbn [length]; lia].
        intros g Hg. destruct (IHin g Hg) as (Hk & He & Hfrom).
        split; [exact Hk|]. split; [exact He|].
        destruct Hfrom as [Hin|(q & Hq & Hrest)]; [left; right; exact Hin|].
        right. exists q. split; [right; exact Hq|exact Hrest].
    + set (b := geom_buffer p (PyFloat.of_Z 0) default_buffer_args).
      destruct ((is_Polygon b || is_MultiPolygon b) && negb (geom_is_empty b))
        eqn:Hkeep.
      * split; [|cbn [length]; lia].
        intros g [<-|Hg].
        -- apply andb_prop in Hkeep as [Hk He].
           split; [exact Hk|]. split; [apply negb_true_iff, He|].
           right. exists p. split; [left; reflexivity|].
           split; [exact Hvalid|reflexivity].
        -- destruct (IHin g Hg) as (Hk & He & Hfrom).
           split; [exact Hk|]. split; [exact He|].
           destruct Hfrom as [Hin|(q & Hq & Hrest)]; [left; right; exact Hin|].
           right. exists q. split; [right; exact Hq|exact Hrest].
      * split; [|cbn [length]; lia].
        intros g Hg. destruct (IHin g Hg) as (Hk & He & Hfrom).
        split; [exact Hk|]. split; [exact He|].
        destruct Hfrom as [Hin|(q & Hq & Hrest)]; [left; right; exact Hin|].
        right. exists q. split; [right; exact Hq|exact Hrest].
Qed.

(** X5. A list of valid, non-empty polygons and multi-polygons of non-zero
    area passes the cleaning loop unchanged, in the same order. *)
Theorem final_cleaning_keeps_clean (polys : list geometry) :
  forallb clean polys = true -> final_cleaning polys = polys.
Proof.
  induction polys as [|p rest IH]; [reflexivity|].
  cbn [forallb final_cleaning]. intros Hall.
  apply andb_prop in Hall as [Hp Hrest]. unfold clean in Hp.
  apply andb_prop in Hp as [Hp Hkind]. apply andb_prop in Hp as [Hp Hvalid].
  apply andb_prop in Hp as [Hempty Harea].
  apply negb_true_iff in Hempty, Harea.
  rewrite Hempty, Harea, Hvalid. cbn [orb negb]. rewrite Hkind, Hempty.
  cbn [andb negb]. rewrite (IH Hrest). reflexivity.
Qed.

End FurtherProperties.

Section FurtherExtraction.

Context `{Collaborators}.

(** ** Tiles and workers *)

(** Results collected in another order are the same polygons in another
    order. *)
Lemma collect_results_permuted (tiles tiles' : list (string * Window))
    (w : World) :
  Permutation tiles tiles' ->
  forall polys,
    collect_results tiles w = Ok polys ->
    exists polys',
      collect_results tiles' w = Ok polys' /\ Permutation polys polys'.
Proof.
  induction 1 as [|t l l' Hperm IH|t u l|l l' l'' H1 IH1 H2 IH2];
    intros polys Hok.
  - exists polys. split; [exact Hok|reflexivity].
  - cbn [collect_results] in *.
    destruct (_shapes_from_tile_alpha t w) as [r|]; [|discriminate].
    cbn [rbind] in *.
    destruct (collect_results l w) as [a|]; [|discriminate].
    cbn [rbind] in Hok. injection Hok as <-.
    destruct (IH a eq_refl) as (b & -> & Hab). cbn [rbind].
    eexists. split; [reflexivity|]. apply Permutation_app_head, Hab.
  - cbn [collect_results] in *.
    destruct (_shapes_from_tile_alpha u w) as [ru|]; [|discriminate].
    cbn [rbind] in *.
    destruct (_shapes_from_tile_alpha t w) as [rt|]; [|discriminate].
    cbn [rbind] in *.
    destruct (collect_results l w) as [a|]; [|discriminate].
    cbn [rbind] in *. injection Hok as <-.
    eexists. split; [reflexivity|].
    rewrite !List.app_assoc. apply Permutation_app_tail, Permutation_app_comm.
  - destruct (IH1 polys Hok) as (b & Hb & Hab).
    destruct (IH2 b Hb) as (c & Hc & Hbc).
    exists c. split; [exact Hc|]. exact (Permutation_trans Hab Hbc).
Qed.

Lemma collect_results_fails (tiles : list (string * Window)) (w : World)
    (t : string * Window) (e : exn) :
  In t tiles -> _shapes_from_tile_alpha t w = Err e ->
  exists e', collect_results tiles w = Err e'.
Proof.
  induction tiles as [|u rest IH]; intros Hin Hfail; [destruct Hin|].
  cbn [collect_results]. destruct Hin as [->|Hin].
  - rewrite Hfail. eexists. reflexivity.
  - destruct (_shapes_from_tile_alpha u w); [|eexists; reflexivity].
    cbn [rbind]. destruct (IH Hin Hfail) as [e' ->]. eexists. reflexivity.
Qed.

(** X6. Whatever the order in which the workers finish, the polygons
    extracted are those of the tiles taken in the order of the tile list, up
    to their order: every tile was read, none was lost and none counted
    twice. *)
Theorem extraction_order_irrelevant (path : string) (block_size : Z)
    (w : World) (polys : list geometry) :
  extract_polygons path block_size w = Ok polys ->
  exists src tiles in_order,
    rasterio_open path w = Ok src
    /\ make_tiles path (r_width src) (r_height src) block_size = Ok tiles
    /\ collect_results tiles w = Ok in_order
    /\ Permutation polys in_order.
Proof.
  unfold extract_polygons. intros Hok.
  destruct (rasterio_open path w) as [src|] eqn:Hopen; [|discriminate].
  cbn [rbind] in Hok.
  destruct (make_tiles path (r_width src) (r_height src) block_size)
    as [tiles|] eqn:Htiles; [|discriminate].
  cbn [rbind] in Hok.
  destruct (num_workers (cpu_count w)) as [n|]; [|discriminate].
  cbn [rbind] in Hok. destruct (Pool n); [|discriminate].
  cbn [rbind] in Hok.
  destruct (collect_results_permuted _ _ w (completion_order_perm tiles)
              polys Hok) as (in_order & Hin & Hperm).
  exists src, tiles, in_order.
  split; [reflexivity|]. split; [exact Htiles|]. split; [exact Hin|exact Hperm].
Qed.

(** X7. One tile whose worker raises makes the whole extraction raise,
    whatever the order of completion: no partial result is returned. *)
Theorem tile_failure_is_fatal (path : string) (block_size : Z) (w : World)
    (src : Raster) (tiles : list (string * Window)) (t : string * Window)
    (e : exn) :
  rasterio_open path w = Ok src ->
  make_tiles path (r_width src) (r_height src) block_size = Ok tiles ->
  In t tiles ->
  _shapes_from_tile_alpha t w = Err e ->
  exists e', extract_polygons path block_size w = Err e'.
Proof.
  intros Hopen Htiles Hin Hfail. unfold extract_polygons.
  rewrite Hopen. cbn [rbind]. rewrite Htiles. cbn [rbind].
  destruct (num_workers (cpu_count w)) as [n|]; [|eexists; reflexivity].
  cbn [rbind]. destruct (Pool n); [|eexists; reflexivity]. cbn [rbind].
  apply (collect_results_fails _ w t e); [|exact Hfail].
  apply (Permutation_in _ (Permutation_sym (completion_order_perm tiles))).
  exact Hin.
Qed.

(** X8. A raster with fewer than four bands (an RGB mosaic without alpha)
    makes the extraction raise the [IndexError] of the band read, not the
    "no polygons" error. *)
Theorem missing_alpha_band_raises (path : string) (block_size : Z) (w : World)
    (src : Raster) (n : Z) :
  rasterio_open path w = Ok src ->
  r_count src < 4 ->
  0 < r_width src -> 0 < r_height src -> 0 < block_size ->
  num_workers (cpu_count w) = Ok n -> 1 <= n ->
  exists msg, extract_polygons path block_size w = Err (IndexError msg).
Proof.
  intros Hopen Hcount HW HH Hbs Hn Hn1. unfold extract_polygons.
  rewrite Hopen. cbn [rbind].
  destruct (make_tiles path (r_width src) (r_height src) block_size)
    as [tiles|e] eqn:Htiles.
  - cbn [rbind]. rewrite Hn. cbn [rbind]. unfold Pool.
    destruct (Z.ltb_spec n 1); [lia|]. cbn [rbind].
    destruct (completion_order tiles) as [|[p window] rest] eqn:Horder.
    + (* the tile list is not empty *)
      exfalso. pose proof (completion_order_perm tiles) as Hperm.
      rewrite Horder in Hperm. apply Permutation_nil in Hperm. subst tiles.
      unfold make_tiles in Htiles.
      rewrite (range_from_zero (r_height src) block_size Hbs HH) in Htiles.
      rewrite (range_from_zero (r_width src) block_size Hbs HW) in Htiles.
      cbn [rbind] in Htiles. injection Htiles as Htiles.
      assert (Hy : (0 < Z.to_nat ((r_height src - 1) / block_size + 1))%nat).
      { assert (0 <= (r_height src - 1) / block_size)
          by (apply Z.div_pos; lia). lia. }
      assert (Hx : (0 < Z.to_nat ((r_width src - 1) / block_size + 1))%nat).
      { assert (0 <= (r_width src - 1) / block_size)
          by (apply Z.div_pos; lia). lia. }
      destruct (Z.to_nat ((r_height src - 1) / block_size + 1)); [lia|].
      destruct (Z.to_nat ((r_width src - 1) / block_size + 1)); [lia|].
      discriminate Htiles.
    + assert (Hp : p = path).
      { apply (make_tiles_path _ _ _ _ _ Htiles (p, window)).
        apply (Permutation_in _ (completion_order_perm tiles)).
        rewrite Horder. left. reflexivity. }
      subst p. cbn [collect_results]. unfold _shapes_from_tile_alpha.
      rewrite Hopen. cbn [rbind]. unfold raster_read.
      destruct (Z.ltb_spec 4 1); [lia|].
      destruct (Z.ltb_spec (r_count src) 4); [|lia].
      cbn [orb rbind]. eexists. reflexivity.
  - unfold make_tiles, range in Htiles.
    destruct (Z.eqb_spec block_size 0); [lia|]. discriminate.
Qed.

(** X9. For positive sizes the number of tiles is the number of block
    columns times the number of block rows, each rounded up; a raster no
    larger than a block is one tile, the whole raster. *)
Theorem make_tiles_count (path : string) (raster_width raster_height block_size : Z) :
  0 < raster_width -> 0 < raster_height -> 0 < block_size ->
  exists tiles,
    make_tiles path raster_width raster_height block_size = Ok tiles
    /\ Z.of_nat (length tiles)
       = ((raster_width - 1) / block_size + 1)
         * ((raster_height - 1) / block_size + 1)
    /\ (raster_width <= block_size -> raster_height <= block_size ->
        tiles = [(path, mkWindow 0 0 raster_width raster_height)]).
Proof.
  intros HW HH Hbs. unfold make_tiles.
  rewrite (range_from_zero raster_height block_size Hbs HH).
  rewrite (range_from_zero raster_width block_size Hbs HW).
  cbn [rbind]. eexists. split; [reflexivity|]. split.
  - assert (0 <= (raster_height - 1) / block_size) by (apply Z.div_pos; lia).
    assert (0 <= (raster_width - 1) / block_size) by (apply Z.div_pos; lia).
    assert (Hlen : forall (xs ys : list Z),
      length
        (flat_map
           (fun y =>
              map (fun x =>
                     (path,
                      {| col_off := x; row_off := y;
                         width := Z.min block_size (raster_width - x);
                         height := Z.min block_size (raster_height - y) |}))
                xs)
           ys)
      = (length xs * length ys)%nat).
    { intros xs ys. induction ys as [|y ys IH]; cbn [flat_map length]; [lia|].
      rewrite length_app, IH, length_map. lia. }
    rewrite Hlen, !length_map, !length_seq. lia.
  - intros HWs HHs.
    rewrite (Z.div_small (raster_width - 1) block_size) by lia.
    rewrite (Z.div_small (raster_height - 1) block_size) by lia.
    change (Z.to_nat (0 + 1)) with 1%nat. cbn [seq map flat_map app].
    replace (0 + Z.of_nat 0 * block_size) with 0 by lia.
    rewrite !Z.sub_0_r, !Z.min_r by lia. reflexivity.
Qed.

(** X10. The block size is not checked: a block size of 0 makes the stage
    raise the [ValueError] of [range], and a negative one gives no tile at
    all, so that the stage raises "No polygons extracted" for any raster. *)
Theorem block_size_edge_cases (path : string) (w : World) (src : Raster) :
  rasterio_open path w = Ok src ->
  raster_to_polygon_parallel path 0 w
  = Err (ValueError "range() arg 3 must not be zero")
  /\ (forall block_size n,
        block_size < 0 -> 0 <= r_width src -> 0 <= r_height src ->
        num_workers (cpu_count w) = Ok n -> 1 <= n ->
        raster_to_polygon_parallel path block_size w
        = Err (RuntimeError
                 "No polygons extracted from raster (alpha mask may be empty)."))
  .
Proof.
  intros Hopen. split.
  - unfold raster_to_polygon_parallel, extract_polygons. rewrite Hopen.
    reflexivity.
  - intros bs n Hbs HW HH Hn Hn1.
    unfold raster_to_polygon_parallel, extract_polygons. rewrite Hopen.
    cbn [rbind]. unfold make_tiles, range, range_length.
    destruct (Z.eqb_spec bs 0); [lia|].
    destruct (Z.ltb_spec 0 bs); [lia|].
    destruct (Z.ltb_spec (r_height src) 0); [lia|].
    change (Z.to_nat 0) with 0%nat. cbn [seq map rbind flat_map].
    rewrite Hn. cbn [rbind]. unfold Pool.
    destruct (Z.ltb_spec n 1); [lia|]. cbn [rbind].
    pose proof (completion_order_perm []) as Hperm.
    apply Permutation_sym, Permutation_nil in Hperm. rewrite Hperm.
    reflexivity.
Qed.

End FurtherExtraction.

Section FurtherBuffer.

Context `{Collaborators}.

(** ** The metric buffer, continued *)

Lemma compute_negative_buffer_projected (geom : geometry)
    (threshold : float) (geom_crs : crs_input) (src_crs : CRS) :
  from_user_input geom_crs = Ok src_crs ->
  is_geographic src_crs = false ->
  crs_eqb src_crs src_crs = true ->
  compute_negative_buffer geom threshold geom_crs
  = (buffered <-
       buffer geom (PyFloat.opp (buffer_distance (geom_area geom) threshold))
         {| resolution := 8; single_sided := false |} ;;
     ensure_valid_geometry buffered)%result.
Proof.
  intros Hsrc Hproj Heq.
  rewrite (compute_negative_buffer_from_metric geom threshold geom_crs
             src_crs src_crs geom Hsrc).
  - destruct (buffer geom _ _) as [buffered|]; [|reflexivity].
    cbn [rbind]. unfold reproject_geom. cbn [from_user_input rbind].
    rewrite Heq. reflexivity.
  - unfold select_metric_crs. rewrite Hproj. reflexivity.
  - unfold reprojected. rewrite Heq. reflexivity.
Qed.

(** X11. For a projected CRS (one that compares equal to itself) nothing is
    reprojected: the region is buffered as it is, by its own area times the
    threshold over 100, and the result is repaired; when that distance is
    not a finite number the buffer raises and nothing is repaired. *)
Theorem projected_crs_not_reprojected (geom : geometry) (threshold : float)
    (geom_crs : crs_input) (src_crs : CRS) :
  from_user_input geom_crs = Ok src_crs ->
  is_geographic src_crs = false ->
  crs_eqb src_crs src_crs = true ->
  compute_negative_buffer geom threshold geom_crs
  = if PyFloat.is_finite (buffer_distance (geom_area geom) threshold)
    then ensure_valid_geometry
           (geom_buffer geom
              (PyFloat.opp (buffer_distance (geom_area geom) threshold))
              {| resolution := 8; single_sided := false |})
    else Err (ValueError "buffer distance must be finite").
Proof.
  intros Hsrc Hproj Heq.
  rewrite (compute_negative_buffer_projected _ _ _ _ Hsrc Hproj Heq).
  destruct (PyFloat.is_finite (buffer_distance (geom_area geom) threshold))
    eqn:Hdist.
  - rewrite (buffer_finite _ _ _ Hdist). reflexivity.
  - rewrite (buffer_not_finite _ _ _ Hdist). reflexivity.
Qed.

(** X12. With a threshold of 0, a projected CRS and a region of finite area,
    the buffer is asked for a distance that is a zero. *)
Theorem zero_threshold_buffers_by_zero (geom : geometry)
    (geom_crs : crs_input) (src_crs : CRS) :
  from_user_input geom_crs = Ok src_crs ->
  is_geographic src_crs = false ->
  crs_eqb src_crs src_crs = true ->
  PyFloat.is_finite (geom_area geom) = true ->
  exists distance,
    PyFloat.is_zero distance = true
    /\ compute_negative_buffer geom (PyFloat.of_Z 0) geom_crs
       = ensure_valid_geometry
           (geom_buffer geom distance
              {| resolution := 8; single_sided := false |}).
Proof.
  intros Hsrc Hproj Heq Hfinite.
  assert (Hzero :
    PyFloat.is_zero (buffer_distance (geom_area geom) (PyFloat.of_Z 0)) = true)
    by (destruct (geom_area geom) as [s|s| |s m e]; try discriminate;
        destruct s; reflexivity).
  exists (PyFloat.opp (buffer_distance (geom_area geom) (PyFloat.of_Z 0))).
  split.
  - destruct (buffer_distance _ _); try discriminate. reflexivity.
  - rewrite (compute_negative_buffer_projected _ _ _ _ Hsrc Hproj Heq).
    rewrite buffer_finite; [reflexivity|].
    destruct (buffer_distance _ _); try discriminate. reflexivity.
Qed.

(** X13. In a geographic CRS a region without a usable centroid stops the
    buffer stage before anything is reprojected or buffered: when the
    centroid is the empty point (the centroid of an empty region) reading
    its coordinate raises the exception of GEOS, and a longitude that is
    [nan] or infinite otherwise raises the error of [int]. *)
Theorem non_finite_centroid_raises (geom : geometry) (threshold : float)
    (src_crs : CRS) (lon lat : float) :
  is_geographic src_crs = true ->
  geom_centroid geom = (lon, lat) ->
  PyFloat.is_finite lon = false ->
  compute_negative_buffer geom threshold (CrsObj src_crs)
  = Err (if is_nan lon && is_nan lat
         then CollaboratorError "GEOSException: getX called on empty Point"
         else if is_nan lon
              then ValueError "cannot convert float NaN to integer"
              else OverflowError "cannot convert float infinity to integer").
Proof.
  intros Hgeo Hcentroid Hlon.
  unfold compute_negative_buffer, select_metric_crs, centroid_xy.
  cbn [from_user_input rbind]. rewrite Hgeo, Hcentroid.
  destruct lon as [s|s| |s m e]; try discriminate.
  - destruct s; reflexivity.
  - destruct lat; reflexivity.
Qed.

End FurtherBuffer.

(** ** Worker count and zones, continued *)

(** X14. From 1 to 4096 cores the worker count is four fifths of the core
    count, rounded down: fewer workers than cores. *)
Theorem num_workers_four_fifths (cpu_count : Z) :
  1 <= cpu_count <= 4096 ->
  num_workers cpu_count = Ok (4 * cpu_count / 5)
  /\ 4 * cpu_count / 5 < cpu_count.
Proof.
  intros Hn. split; [|apply Z.div_lt_upper_bound; lia].
  assert (Hall :
    forallb
      (fun i =>
         match num_workers (Z.of_nat i) with
         | Ok n => n =? 4 * Z.of_nat i / 5
         | Err _ => false
         end)
      (seq 1 4096) = true)
    by (vm_compute; reflexivity).
  rewrite forallb_forall in Hall.
  specialize (Hall (Z.to_nat cpu_count)).
  rewrite Z2Nat.id in Hall by lia.
  destruct (num_workers cpu_count) as [n|e].
  - f_equal. apply Z.eqb_eq, Hall, in_seq. lia.
  - discriminate Hall. apply in_seq. lia.
Qed.

(** X15. For a whole number of degrees from -180 up to 179 the zone is
    between 1 and 60 and its six-degree band holds the longitude; at 180
    degrees the zone is 61, which no UTM zone is. *)
Theorem utm_zone_band (lon : Z) :
  -180 <= lon <= 179 ->
  (exists zone,
     utm_zone (PyFloat.of_Z lon) = Ok zone
     /\ 1 <= zone <= 60
     /\ -180 + 6 * (zone - 1) <= lon < -180 + 6 * zone)
  /\ utm_zone (PyFloat.of_Z 180) = Ok 61.
Proof.
  intros Hlon. split; [|vm_compute; reflexivity].
  exists ((lon + 180) / 6 + 1).
  split; [apply utm_zone_whole_degrees; lia|].
  pose proof (Z.mul_div_le (lon + 180) 6 ltac:(lia)).
  pose proof (Z.mul_succ_div_gt (lon + 180) 6 ltac:(lia)).
  assert (0 <= (lon + 180) / 6) by (apply Z.div_pos; lia).
  assert ((lon + 180) / 6 < 60) by (apply Z.div_lt_upper_bound; lia).
  lia.
Qed.

Section FurtherCrop.

Context `{Collaborators}.

(** ** The crop and the pipeline, continued *)

Lemma geojson_path_name (geom : geometry) (geom_crs : crs_input)
    (w w' : World) (path : string) :
  geom_to_geojson_path geom geom_crs w = (Ok path, w') ->
  path = NamedTemporaryFile_name ".geojson" w.
Proof.
  unfold geom_to_geojson_path, mbind, mlift, mlift_of.
  destruct (reproject_geom geom geom_crs (CrsStr "EPSG:4326")) as [g|];
    [|discriminate].
  destruct (ensure_valid_geometry g) as [repaired|]; [|discriminate].
  destruct (if is_MultiPolygon repaired then _ else _) as [cut|];
    [|discriminate].
  intros [= <- _]. reflexivity.
Qed.

Lemma crop_with_mask_ok_cutline (input_path output_path : string)
    (geom : geometry) (geom_crs : crs_input) (w w' : World) :
  crop_with_mask input_path output_path geom geom_crs w = (Ok tt, w') ->
  fs w' !! NamedTemporaryFile_name ".geojson" w = None
  \/ ((exists content,
         fs w' !! NamedTemporaryFile_name ".geojson" w = Some content)
      /\ exists msg,
           os_remove_error (NamedTemporaryFile_name ".geojson" w) w'
           = Some msg).
Proof.
  unfold crop_with_mask, mbind, mlift_of.
  destruct (geom_to_geojson_path geom geom_crs w) as [[path|] w1] eqn:Hpath;
    [|discriminate].
  apply geojson_path_name in Hpath as <-.
  destruct (num_workers (cpu_count w1)) as [n|]; [|discriminate].
  destruct (try_except (Warp _ _ _) _ w1) as [[[]|] w2]; [|discriminate].
  intros Hremove.
  destruct (os_remove_swallowed path w2)
    as (w3 & Hw3 & [Hgone|(-> & Hthere & Hrefused)]);
    rewrite Hw3 in Hremove; injection Hremove as <-; auto.
Qed.

(** X16. Whenever [crop_with_mask] returns normally, the boundary file it
    wrote no longer exists, unless the operating system refused to remove
    it: then the refusal was swallowed and the file is still there.  So it
    is after every run of the pipeline that returns normally. *)
Theorem successful_run_leaves_no_cutline :
  (forall input_path output_path geom geom_crs w w',
     crop_with_mask input_path output_path geom geom_crs w = (Ok tt, w') ->
     fs w' !! NamedTemporaryFile_name ".geojson" w = None
     \/ ((exists content,
            fs w' !! NamedTemporaryFile_name ".geojson" w = Some content)
         /\ exists msg,
              os_remove_error (NamedTemporaryFile_name ".geojson" w) w'
              = Some msg))
  /\ (forall input_file output_file threshold w w',
        crop_mosaic_by_polygon input_file output_file threshold w
        = (Ok tt, w') ->
        fs w' !! NamedTemporaryFile_name ".geojson" w = None
        \/ ((exists content,
               fs w' !! NamedTemporaryFile_name ".geojson" w = Some content)
            /\ exists msg,
                 os_remove_error (NamedTemporaryFile_name ".geojson" w) w'
                 = Some msg)).
Proof.
  split; [exact crop_with_mask_ok_cutline|].
  intros input output thr w w'.
  unfold crop_mosaic_by_polygon, mbind, mlift, mlift_of.
  destruct (rbind (rasterio_open input w) _) as [crs|]; [|discriminate].
  destruct (raster_to_polygon_parallel input 2048 w) as [geom|];
    [|discriminate].
  destruct (compute_negative_buffer geom thr (CrsStr crs)) as [nb|];
    [|discriminate].
  destruct (fast_convex_hull nb) as [hull|]; [|discriminate].
  destruct (ensure_valid_geometry hull) as [hull'|]; [|discriminate].
  apply crop_with_mask_ok_cutline.
Qed.

(** X17. The pipeline changes nothing before the crop: when it raises, either
    the world is the one it started in, or the crop was reached and raised
    that exception. *)
Theorem pipeline_failure_before_crop (input_file output_file : string)
    (threshold : float) (w w' : World) (e : exn) :
  crop_mosaic_by_polygon input_file output_file threshold w = (Err e, w') ->
  w' = w
  \/ exists hull raster_crs,
       crop_with_mask input_file output_file hull (CrsStr raster_crs) w
       = (Err e, w').
Proof.
  unfold crop_mosaic_by_polygon, mbind, mlift, mlift_of.
  destruct (rbind (rasterio_open input_file w) _) as [crs|];
    [|intros [= _ <-]; left; reflexivity].
  destruct (raster_to_polygon_parallel input_file 2048 w) as [geom|];
    [|intros [= _ <-]; left; reflexivity].
  destruct (compute_negative_buffer geom threshold (CrsStr crs)) as [nb|];
    [|intros [= _ <-]; left; reflexivity].
  destruct (fast_convex_hull nb) as [hull|];
    [|intros [= _ <-]; left; reflexivity].
  destruct (ensure_valid_geometry hull) as [hull'|];
    [|intros [= _ <-]; left; reflexivity].
  intros Hcrop. right. exists hull', crs. exact Hcrop.
Qed.

(** X21. The command line is a fallback and nothing more: when the warp
    succeeds no command is run, and when the warp raises and the command
    exits with status 0 the warp's exception is dropped; either way the crop
    ends by removing the boundary file from the world the last tool left. *)
Theorem fallback_runs_only_after_failure (input_path output_path : string)
    (geom : geometry) (geom_crs : crs_input) (w w1 w2 : World)
    (path : string) (n : Z) :
  geom_to_geojson_path geom geom_crs w = (Ok path, w1) ->
  num_workers (cpu_count w1) = Ok n ->
  (gdal_Warp output_path input_path (warp_opts path n) w1 = (inr tt, w2) ->
   crop_with_mask input_path output_path geom geom_crs w
   = try_except (os_remove path) (fun _ => mret tt) w2)
  /\ (forall msg w3,
        gdal_Warp output_path input_path (warp_opts path n) w1
        = (inl msg, w2) ->
        run_process (gdalwarp_cmd path n input_path output_path) w2 = (0, w3) ->
        crop_with_mask input_path output_path geom geom_crs w
        = try_except (os_remove path) (fun _ => mret tt) w3).
Proof.
  intros Hpath Hn. split.
  - intros Hwarp. unfold crop_with_mask, mbind, mlift_of. rewrite Hpath, Hn.
    unfold try_except at 1. unfold Warp. rewrite Hwarp. reflexivity.
  - intros msg w3 Hwarp Hcli. unfold crop_with_mask, mbind, mlift_of.
    rewrite Hpath, Hn. unfold try_except at 1. unfold Warp. rewrite Hwarp.
    cbn [lift_lib]. unfold subprocess_run_check. rewrite Hcli. reflexivity.
Qed.

End FurtherCrop.

(** ** [arghelper] *)

(** X18. An output name without a directory part is refused by
    [is_valid_namefile], whatever its extension: its [dirname] is the empty
    string, which is no directory. *)
Theorem bare_output_name_refused (isdir : string -> bool) (arg : string) :
  isdir "" = false ->
  rfind sep arg = -1 ->
  exists message, is_valid_namefile isdir arg = inl message.
Proof.
  intros Hdir Hbare. unfold is_valid_namefile.
  destruct (negb (str_in ".tif" (basename arg)) && _); [eexists; reflexivity|].
  unfold dirname. rewrite Hbare. change (Z.to_nat (-1 + 1)) with 0%nat.
  cbn [str_take has_other_than]. rewrite Hdir. eexists. reflexivity.
Qed.

(** ** Hole closing *)

(** Numbers that compare equal compare alike with any third. *)
Lemma eqb_ltb_compat (a m x : float) :
  PyFloat.eqb a m = true -> PyFloat.ltb a x = PyFloat.ltb m x.
Proof.
  unfold PyFloat.eqb, PyFloat.ltb, SFeqb, SFltb, SFcompare.
  destruct a as [sa|sa| |sa ma ea], m as [sm|sm| |sm mm em];
    try destruct sa; try destruct sm; try discriminate;
    try (intros _; destruct x as [sx|sx| |sx mx ex]; reflexivity);
    change (Pos.compare_cont Eq ma mm) with (Pos.compare ma mm);
    destruct (Z.compare_spec ea em); try discriminate;
    destruct (Pos.compare_spec ma mm); try discriminate;
    intros _; subst; reflexivity.
Qed.

Lemma remove_interiors_no_holes (p : polygon) :
  interiors (remove_interiors p) = [].
Proof.
  unfold remove_interiors. destruct (interiors p) eqn:Hp; [exact Hp|reflexivity].
Qed.

Lemma in_combine_seq {A} (l : list A) (j i : nat) (a : A) :
  In (i, a) (combine (seq j (length l)) l) ->
  (j <= i)%nat /\ nth_error l (i - j) = Some a.
Proof.
  revert j. induction l as [|x l IH]; intros j; cbn [length seq combine];
    [intros []|].
  intros [[= <- <-]|Hin].
  - split; [lia|]. rewrite Nat.sub_diag. reflexivity.
  - destruct (IH (S j) Hin) as [Hle Hnth]. split; [lia|].
    replace (i - j)%nat with (S (i - S j)) by lia. exact Hnth.
Qed.

Lemma in_combine_seq_any {A} (l : list A) (j : nat) (a : A) :
  In a l -> exists i, In (i, a) (combine (seq j (length l)) l).
Proof.
  revert j. induction l as [|x l IH]; intros j; [intros []|].
  cbn [length seq combine]. intros [->|Hin].
  - exists j. left. reflexivity.
  - destruct (IH (S j) Hin) as [i Hi]. exists i. right. exact Hi.
Qed.

(** [index] stops at or before the position of the object it looks for, on
    that object or on an equal number. *)
Lemma index_of_spec (geoms : list float) (pos j : nat) (m : float) :
  (j <= pos)%nat ->
  nth_error geoms (pos - j) = Some m ->
  exists a,
    nth_error geoms (index_of pos m geoms j - j) = Some a
    /\ (a = m \/ PyFloat.eqb a m = true).
Proof.
  revert j. induction geoms as [|x rest IH]; intros j Hj Hnth.
  - destruct (pos - j)%nat; discriminate.
  - cbn [index_of]. destruct (Nat.eqb_spec j pos) as [->|Hne]; cbn [orb].
    + rewrite Nat.sub_diag in *. exists x. split; [reflexivity|].
      left. cbn in Hnth. congruence.
    + destruct (PyFloat.eqb x m) eqn:Heq.
      * rewrite Nat.sub_diag. exists x. split; [reflexivity|right; exact Heq].
      * replace (pos - j)%nat with (S (pos - S j)) in Hnth by lia.
        cbn [nth_error] in Hnth.
        destruct (IH (S j) ltac:(lia) Hnth) as (a & Ha & Hrel).
        exists a. split; [|exact Hrel].
        assert (S j <= index_of pos m rest (S j))%nat.
        { clear. generalize (S j). induction rest as [|y rest IH]; intros k;
            cbn [index_of]; [lia|].
          destruct ((k =? pos)%nat || PyFloat.eqb y m); [lia|].
          specialize (IH (S k)). lia. }
        replace (index_of pos m rest (S j) - j)%nat
          with (S (index_of pos m rest (S j) - S j)) by lia.
        exact Ha.
Qed.

Lemma pop_at_spec {A} (gs : list A) (i : nat) (x : A) :
  nth_error gs i = Some x ->
  exists l1 l2,
    pop_at i gs = Some (x, (l1 ++ l2)%list) /\ gs = (l1 ++ x :: l2)%list.
Proof.
  revert i. induction gs as [|y gs IH]; intros [|i] Hnth; try discriminate.
  - injection Hnth as ->. exists [], gs. split; reflexivity.
  - cbn [nth_error] in Hnth. destruct (IH i Hnth) as (l1 & l2 & Hpop & ->).
    exists (y :: l1), l2. cbn [pop_at]. rewrite Hpop. split; reflexivity.
Qed.

Section FurtherHoles.

Context `{Collaborators}.
Variable within : polygon -> polygon -> bool.

(** [pop_largest] of a series that is not empty takes out one item, and no
    item has a larger area. *)
Lemma pop_largest_spec (gs : list polygon) :
  gs <> [] ->
  exists big l1 l2,
    pop_largest gs = Ok (big, (l1 ++ l2)%list)
    /\ gs = (l1 ++ big :: l2)%list
    /\ forall q, In q gs ->
         PyFloat.ltb (geom_area (Polygon big)) (geom_area (Polygon q)) = false.
Proof.
  intros Hne. unfold pop_largest.
  set (geoms := map (fun g => geom_area (Polygon g)) gs).
  destruct (py_max snd (combine (seq 0 (length geoms)) geoms))
    as [[pos m]|e] eqn:Hmax.
  - cbn [rbind fst snd].
    destruct (py_max_spec _ _ _ Hmax) as [Hin Hlargest].
    destruct (in_combine_seq geoms 0 pos m Hin) as [_ Hnth].
    destruct (index_of_spec geoms pos 0 m ltac:(lia) Hnth) as (a & Ha & Hrel).
    rewrite Nat.sub_0_r in Ha. unfold geoms in Ha at 1.
    rewrite nth_error_map in Ha.
    destruct (nth_error gs (index_of pos m geoms 0)) as [big|] eqn:Hbig;
      [|discriminate].
    cbn [option_map] in Ha. injection Ha as Ha.
    destruct (pop_at_spec gs _ big Hbig) as (l1 & l2 & Hpop & Hgs).
    rewrite Hpop. exists big, l1, l2. split; [reflexivity|].
    split; [exact Hgs|].
    intros q Hq.
    assert (Hm : PyFloat.ltb m (geom_area (Polygon q)) = false).
    { assert (Hqa : In (geom_area (Polygon q)) geoms)
        by (apply in_map_iff; exists q; split; [reflexivity|exact Hq]).
      destruct (in_combine_seq_any geoms 0 _ Hqa) as [i Hi].
      exact (Hlargest (i, geom_area (Polygon q)) Hi). }
    rewrite Ha. destruct Hrel as [->|Heq]; [exact Hm|].
    rewrite (eqb_ltb_compat _ _ _ Heq). exact Hm.
  - exfalso. destruct gs as [|g gs]; [contradiction Hne; reflexivity|].
    discriminate Hmax.
Qed.

(** X19. [close_holes] of a polygon is the polygon without its holes.  Of a
    multi-polygon with components it keeps, of the components without their
    holes, one of largest area, and after it those of the others that are not
    within it, in their order; the result is a polygon when none is left, and
    no part of it has a hole.  Of a multi-polygon without components it
    raises the [ValueError] of [max]. *)
Theorem close_holes_outcomes :
  (forall p,
     close_holes within (Polygon p) = Ok (Some (Polygon (remove_interiors p)))
     /\ interiors (remove_interiors p) = [])
  /\ (exists msg,
        close_holes within (MultiPolygon []) = Err (ValueError msg))
  /\ (forall geoms,
        geoms <> [] ->
        exists big l1 l2,
          map remove_interiors geoms = (l1 ++ big :: l2)%list
          /\ (forall q, In q geoms ->
                PyFloat.ltb (geom_area (Polygon big))
                  (geom_area (Polygon (remove_interiors q))) = false)
          /\ close_holes within (MultiPolygon geoms)
             = Ok (Some
                     (match List.filter (fun g => negb (within g big))
                              (l1 ++ l2) with
                      | [] => Polygon big
                      | outers => MultiPolygon (big :: outers)
                      end))
          /\ interiors big = []
          /\ forall o,
               In o (List.filter (fun g => negb (within g big)) (l1 ++ l2)) ->
               interiors o = [] /\ within o big = false).
Proof.
  split; [|split].
  - intros p. split; [reflexivity|apply remove_interiors_no_holes].
  - eexists. reflexivity.
  - intros geoms Hne.
    assert (Hne' : map remove_interiors geoms <> [])
      by (destruct geoms; [contradiction Hne; reflexivity|discriminate]).
    destruct (pop_largest_spec (map remove_interiors geoms) Hne')
      as (big & l1 & l2 & Hpop & Hsplit & Hlargest).
    assert (Hholes : forall o, In o (map remove_interiors geoms) ->
                       interiors o = []).
    { intros o Ho. apply in_map_iff in Ho as (q & <- & _).
      apply remove_interiors_no_holes. }
    exists big, l1, l2. split; [exact Hsplit|]. split.
    { intros q Hq. apply Hlargest. apply in_map. exact Hq. }
    split.
    { cbn [close_holes]. rewrite Hpop. cbn [rbind].
      destruct (List.filter _ (l1 ++ l2)); reflexivity. }
    split.
    { apply Hholes. rewrite Hsplit. apply in_or_app. right. left. reflexivity. }
    intros o Ho. apply filter_In in Ho as [Ho Hout]. split.
    + apply Hholes. rewrite Hsplit. apply in_app_or in Ho as [Ho|Ho];
        apply in_or_app; [left; exact Ho|right; right; exact Ho].
    + apply negb_true_iff, Hout.
Qed.

End FurtherHoles.

(** * The further properties on concrete inputs *)

Example main_output_examples :
  main_output (mkNamespace "/data/mosaic.tif" (PyFloat.literal 5 1000) None)
  = "/data/mosaic_cropped.tif"
  /\ main_output (mkNamespace "run.1/mosaic" (PyFloat.literal 5 1000) None)
     = "run.1/mosaic_cropped"
  /\ main_output
       (mkNamespace "mosaic.tif" (PyFloat.literal 5 1000) (Some "out.tif"))
     = "out.tif".
Proof. repeat split; vm_compute; reflexivity. Qed.

(** Where the two derivations part: a doubled slash. *)
Example get_valid_namefile_double_slash :
  get_valid_namefile "a//b.tif" = "a/b_cropped.tif"
  /\ main_output (mkNamespace "a//b.tif" (PyFloat.literal 5 1000) None)
     = "a//b_cropped.tif".
Proof. split; vm_compute; reflexivity. Qed.

(** The largest part comes first, the part inside it is dropped, the part
    beside it is kept, and the hole is closed. *)
Example close_holes_example :
  @close_holes Fixture.sound Samples.inside
    (MultiPolygon [Fixture.rectangle 2 2 3 3; Samples.ring_square;
                   Fixture.rectangle 20 0 22 2])
  = Ok (Some (MultiPolygon [Fixture.rectangle 0 0 10 10;
                            Fixture.rectangle 20 0 22 2])).
Proof. vm_compute. reflexivity. Qed.

Lemma final_cleaning_keeps_clean_witness :
  forallb (@clean Fixture.sound)
    [Polygon (Fixture.rectangle 0 0 2 2); Polygon (Fixture.rectangle 5 5 6 6)]
  = true
  /\ @final_cleaning Fixture.sound
       [Polygon (Fixture.rectangle 0 0 2 2); Polygon (Fixture.rectangle 5 5 6 6)]
     = [Polygon (Fixture.rectangle 0 0 2 2); Polygon (Fixture.rectangle 5 5 6 6)].
Proof.
  assert (Hclean :
    forallb (@clean Fixture.sound)
      [Polygon (Fixture.rectangle 0 0 2 2); Polygon (Fixture.rectangle 5 5 6 6)]
    = true) by (vm_compute; reflexivity).
  split; [exact Hclean|].
  exact (@final_cleaning_keeps_clean Fixture.sound _ Hclean).
Defined.

Lemma extraction_order_irrelevant_witness :
  @extract_polygons Fixture.sound "mosaic.tif" 2 Samples.opaque_host
  = Ok (Fixture.extracted Fixture.sound Samples.opaque_host)
  /\ exists src tiles in_order,
       rasterio_open "mosaic.tif" Samples.opaque_host = Ok src
       /\ make_tiles "mosaic.tif" (r_width src) (r_height src) 2 = Ok tiles
       /\ @collect_results Fixture.sound tiles Samples.opaque_host = Ok in_order
       /\ Permutation (Fixture.extracted Fixture.sound Samples.opaque_host)
            in_order.
Proof.
  assert (Hex :
    @extract_polygons Fixture.sound "mosaic.tif" 2 Samples.opaque_host
    = Ok (Fixture.extracted Fixture.sound Samples.opaque_host))
    by (vm_compute; reflexivity).
  split; [exact Hex|].
  exact (@extraction_order_irrelevant Fixture.sound _ _ _ _ Hex).
Defined.

Lemma tile_failure_is_fatal_witness :
  (rasterio_open "mosaic.tif" (Fixture.host Samples.rgb_raster 4)
   = Ok Samples.rgb_raster
   /\ make_tiles "mosaic.tif" 5 3 2048
      = Ok [("mosaic.tif", mkWindow 0 0 5 3)]
   /\ @_shapes_from_tile_alpha Fixture.sound ("mosaic.tif", mkWindow 0 0 5 3)
        (Fixture.host Samples.rgb_raster 4)
      = Err (IndexError "band index out of range"))
  /\ exists e',
       @extract_polygons Fixture.sound "mosaic.tif" 2048
         (Fixture.host Samples.rgb_raster 4)
       = Err e'.
Proof.
  assert (Hopen :
    rasterio_open "mosaic.tif" (Fixture.host Samples.rgb_raster 4)
    = Ok Samples.rgb_raster) by (vm_compute; reflexivity).
  assert (Htiles :
    make_tiles "mosaic.tif" (r_width Samples.rgb_raster)
      (r_height Samples.rgb_raster) 2048
    = Ok [("mosaic.tif", mkWindow 0 0 5 3)]) by (vm_compute; reflexivity).
  assert (Hfail :
    @_shapes_from_tile_alpha Fixture.sound ("mosaic.tif", mkWindow 0 0 5 3)
      (Fixture.host Samples.rgb_raster 4)
    = Err (IndexError "band index out of range"))
    by (vm_compute; reflexivity).
  split; [split; [exact Hopen|split; [exact Htiles|exact Hfail]]|].
  exact (@tile_failure_is_fatal Fixture.sound _ _ _ _ _ _ _ Hopen Htiles
           (or_introl eq_refl) Hfail).
Defined.

Lemma missing_alpha_band_raises_witness :
  (rasterio_open "mosaic.tif" (Fixture.host Samples.rgb_raster 4)
   = Ok Samples.rgb_raster
   /\ r_count Samples.rgb_raster < 4
   /\ 0 < r_width Samples.rgb_raster /\ 0 < r_height Samples.rgb_raster
   /\ 0 < 2048
   /\ num_workers 4 = Ok 3 /\ 1 <= 3)
  /\ exists msg,
       @extract_polygons Fixture.sound "mosaic.tif" 2048
         (Fixture.host Samples.rgb_raster 4)
       = Err (IndexError msg).
Proof.
  assert (Hopen :
    rasterio_open "mosaic.tif" (Fixture.host Samples.rgb_raster 4)
    = Ok Samples.rgb_raster) by (vm_compute; reflexivity).
  assert (Hworkers : num_workers 4 = Ok 3) by (vm_compute; reflexivity).
  split.
  - split; [exact Hopen|]. cbn [r_count r_width r_height Samples.rgb_raster].
    split; [lia|]. split; [lia|]. split; [lia|]. split; [lia|].
    split; [exact Hworkers|lia].
  - apply (@missing_alpha_band_raises Fixture.sound "mosaic.tif" 2048
             (Fixture.host Samples.rgb_raster 4) Samples.rgb_raster 3 Hopen);
      [cbn; lia|cbn; lia|cbn; lia|lia|exact Hworkers|lia].
Defined.

Lemma make_tiles_count_witness :
  (0 < 5000 /\ 0 < 3000 /\ 0 < 2048)
  /\ exists tiles,
       make_tiles "mosaic.tif" 5000 3000 2048 = Ok tiles
       /\ Z.of_nat (length tiles)
          = ((5000 - 1) / 2048 + 1) * ((3000 - 1) / 2048 + 1)
       /\ (5000 <= 2048 -> 3000 <= 2048 ->
           tiles = [("mosaic.tif", mkWindow 0 0 5000 3000)]).
Proof.
  split; [lia|]. apply (make_tiles_count "mosaic.tif" 5000 3000 2048); lia.
Defined.

Lemma block_size_edge_cases_witness :
  rasterio_open "mosaic.tif" Samples.opaque_host
  = Ok (Fixture.flat_raster 255 Fixture.identity_transform)
  /\ (@raster_to_polygon_parallel Fixture.sound "mosaic.tif" 0
        Samples.opaque_host
      = Err (ValueError "range() arg 3 must not be zero")
      /\ forall block_size n,
           block_size < 0 ->
           0 <= r_width (Fixture.flat_raster 255 Fixture.identity_transform) ->
           0 <= r_height (Fixture.flat_raster 255 Fixture.identity_transform) ->
           num_workers (cpu_count Samples.opaque_host) = Ok n -> 1 <= n ->
           @raster_to_polygon_parallel Fixture.sound "mosaic.tif" block_size
             Samples.opaque_host
           = Err (RuntimeError
                    "No polygons extracted from raster (alpha mask may be empty).")).
Proof.
  assert (Hopen :
    rasterio_open "mosaic.tif" Samples.opaque_host
    = Ok (Fixture.flat_raster 255 Fixture.identity_transform))
    by (vm_compute; reflexivity).
  split; [exact Hopen|].
  exact (@block_size_edge_cases Fixture.sound _ _ _ Hopen).
Defined.

Lemma projected_crs_not_reprojected_witness :
  (@from_user_input Fixture.sound (CrsStr "EPSG:32721") = Ok Samples.utm_21s
   /\ @is_geographic Fixture.sound Samples.utm_21s = false
   /\ @crs_eqb Fixture.sound Samples.utm_21s Samples.utm_21s = true)
  /\ @compute_negative_buffer Fixture.sound Samples.square
       (PyFloat.literal 5 1000) (CrsStr "EPSG:32721")
     = if PyFloat.is_finite
            (buffer_distance (@geom_area Fixture.sound Samples.square)
               (PyFloat.literal 5 1000))
       then @ensure_valid_geometry Fixture.sound
              (@geom_buffer Fixture.sound Samples.square
                 (PyFloat.opp
                    (buffer_distance
                       (@geom_area Fixture.sound Samples.square)
                       (PyFloat.literal 5 1000)))
                 {| resolution := 8; single_sided := false |})
       else Err (ValueError "buffer distance must be finite").
Proof.
  split; [repeat split; vm_compute; reflexivity|].
  exact (@projected_crs_not_reprojected Fixture.sound Samples.square
           (PyFloat.literal 5 1000) (CrsStr "EPSG:32721") Samples.utm_21s
           eq_refl eq_refl eq_refl).
Defined.

(** Thresholds the command line accepts and the buffer refuses: [nan],
    [inf], and [1e308] on a region of area 100, whose distance overflows. *)
Example buffer_refuses_distance :
  @compute_negative_buffer Fixture.sound Samples.square S754_nan
    (CrsStr "EPSG:32721")
  = Err (ValueError "buffer distance must be finite")
  /\ @compute_negative_buffer Fixture.sound Samples.square
       (S754_infinity false) (CrsStr "EPSG:32721")
     = Err (ValueError "buffer distance must be finite")
  /\ @compute_negative_buffer Fixture.sound Samples.square
       (PyFloat.of_Z (10 ^ 308)) (CrsStr "EPSG:32721")
     = Err (ValueError "buffer distance must be finite").
Proof. repeat split; vm_compute; reflexivity. Qed.

Lemma zero_threshold_buffers_by_zero_witness :
  (@from_user_input Fixture.sound (CrsStr "EPSG:32721")
   = Ok {| crs_definition := "EPSG:32721" |}
   /\ @is_geographic Fixture.sound {| crs_definition := "EPSG:32721" |} = false
   /\ @crs_eqb Fixture.sound {| crs_definition := "EPSG:32721" |}
        {| crs_definition := "EPSG:32721" |} = true
   /\ PyFloat.is_finite
        (@geom_area Fixture.sound (Polygon (Fixture.rectangle 0 0 10 10)))
      = true)
  /\ exists distance,
       PyFloat.is_zero distance = true
       /\ @compute_negative_buffer Fixture.sound
            (Polygon (Fixture.rectangle 0 0 10 10)) (PyFloat.of_Z 0)
            (CrsStr "EPSG:32721")
          = @ensure_valid_geometry Fixture.sound
              (@geom_buffer Fixture.sound
                 (Polygon (Fixture.rectangle 0 0 10 10)) distance
                 {| resolution := 8; single_sided := false |}).
Proof.
  split; [repeat split; vm_compute; reflexivity|].
  apply (@zero_threshold_buffers_by_zero Fixture.sound _ _
           {| crs_definition := "EPSG:32721" |}); vm_compute; reflexivity.
Defined.

(** An empty polygon in a geographic CRS: its centroid is the empty
    point. *)
Lemma non_finite_centroid_raises_witness :
  (@is_geographic Fixture.sound Samples.wgs84 = true
   /\ @geom_centroid Fixture.sound (Polygon Fixture.empty_polygon)
      = (S754_nan, S754_nan)
   /\ PyFloat.is_finite S754_nan = false)
  /\ @compute_negative_buffer Fixture.sound (Polygon Fixture.empty_polygon)
       (PyFloat.literal 5 1000) (CrsObj Samples.wgs84)
     = Err (if is_nan S754_nan && is_nan S754_nan
            then CollaboratorError "GEOSException: getX called on empty Point"
            else if is_nan S754_nan
                 then ValueError "cannot convert float NaN to integer"
                 else OverflowError "cannot convert float infinity to integer").
Proof.
  split; [repeat split; vm_compute; reflexivity|].
  exact (@non_finite_centroid_raises Fixture.sound
           (Polygon Fixture.empty_polygon) (PyFloat.literal 5 1000)
           Samples.wgs84 S754_nan S754_nan eq_refl eq_refl eq_refl).
Defined.

(** The same crop on a host that lets no file be removed: it returns
    normally all the same, and the boundary file is still there. *)
Example refused_removal_is_swallowed :
  let '(r, w) :=
    @crop_with_mask Fixture.read_only "mosaic.tif" "out.tif" Samples.square
      (CrsStr "EPSG:32721") Samples.opaque_host in
  r = Ok tt
  /\ map fst (map_to_list (fs w))
     = ["out.tif"; "/tmp/tmpcutline.geojson"; "mosaic.tif"].
Proof. vm_compute. split; reflexivity. Qed.

Lemma num_workers_four_fifths_witness :
  1 <= 8 <= 4096 /\ (num_workers 8 = Ok (4 * 8 / 5) /\ 4 * 8 / 5 < 8).
Proof. split; [lia|]. apply (num_workers_four_fifths 8). lia. Defined.

Lemma utm_zone_band_witness :
  -180 <= -60 <= 179
  /\ ((exists zone,
         utm_zone (PyFloat.of_Z (-60)) = Ok zone
         /\ 1 <= zone <= 60
         /\ -180 + 6 * (zone - 1) <= -60 < -180 + 6 * zone)
      /\ utm_zone (PyFloat.of_Z 180) = Ok 61).
Proof. split; [lia|]. apply (utm_zone_band (-60)). lia. Defined.

(** A transparent raster: the pipeline raises before the crop. *)
Lemma pipeline_failure_before_crop_witness :
  @crop_mosaic_by_polygon Fixture.sound "mosaic.tif" "out.tif"
    (PyFloat.literal 5 1000) Samples.transparent_host
  = (Err (RuntimeError
            "No polygons extracted from raster (alpha mask may be empty)."),
     Samples.transparent_host)
  /\ (Samples.transparent_host = Samples.transparent_host
      \/ exists hull raster_crs,
           @crop_with_mask Fixture.sound "mosaic.tif" "out.tif" hull
             (CrsStr raster_crs) Samples.transparent_host
           = (Err (RuntimeError
                     "No polygons extracted from raster (alpha mask may be empty)."),
              Samples.transparent_host)).
Proof.
  assert (Hrun :
    @crop_mosaic_by_polygon Fixture.sound "mosaic.tif" "out.tif"
      (PyFloat.literal 5 1000) Samples.transparent_host
    = (Err (RuntimeError
              "No polygons extracted from raster (alpha mask may be empty)."),
       Samples.transparent_host)) by (vm_compute; reflexivity).
  split; [exact Hrun|].
  exact (@pipeline_failure_before_crop Fixture.sound _ _ _ _ _ _ Hrun).
Defined.

Lemma bare_output_name_refused_witness :
  (Samples.only_data "" = false /\ rfind sep "out.tif" = -1)
  /\ exists message,
       is_valid_namefile Samples.only_data "out.tif" = inl message.
Proof.
  split; [split; reflexivity|].
  apply bare_output_name_refused; reflexivity.
Defined.

(** The warp works: no command is run. *)
Lemma fallback_runs_only_after_failure_witness :
  (@geom_to_geojson_path Fixture.sound (Polygon (Fixture.rectangle 0 0 2 2))
     (CrsStr "EPSG:32721") Samples.opaque_host
   = (Ok "/tmp/tmpcutline.geojson",
      Fixture.after_cutline Fixture.sound
        (Polygon (Fixture.rectangle 0 0 2 2)) (CrsStr "EPSG:32721")
        Samples.opaque_host)
   /\ num_workers 4 = Ok 3)
  /\ fst (@crop_with_mask Fixture.sound "mosaic.tif" "out.tif"
            (Polygon (Fixture.rectangle 0 0 2 2)) (CrsStr "EPSG:32721")
            Samples.opaque_host)
     = Ok tt.
Proof.
  assert (Hpath :
    @geom_to_geojson_path Fixture.sound (Polygon (Fixture.rectangle 0 0 2 2))
      (CrsStr "EPSG:32721") Samples.opaque_host
    = (Ok "/tmp/tmpcutline.geojson",
       Fixture.after_cutline Fixture.sound
         (Polygon (Fixture.rectangle 0 0 2 2)) (CrsStr "EPSG:32721")
         Samples.opaque_host)) by (vm_compute; reflexivity).
  assert (Hworkers : num_workers 4 = Ok 3) by (vm_compute; reflexivity).
  split; [split; [exact Hpath|exact Hworkers]|].
  rewrite (proj1 (@fallback_runs_only_after_failure Fixture.sound
                    "mosaic.tif" "out.tif" _ _ _ _
                    (Fixture.copy_file "mosaic.tif" "out.tif"
                       (Fixture.after_cutline Fixture.sound
                          (Polygon (Fixture.rectangle 0 0 2 2))
                          (CrsStr "EPSG:32721") Samples.opaque_host))
                    _ 3 Hpath Hworkers) eq_refl).
  vm_compute. reflexivity.
Defined.
